(** * AI Agent Task Decomposer: the generation pipeline and its session store

    A shallow embedding of [app.py] and [app_pavi.py]: the response
    extractors (bracket extraction followed by [json.loads], section-marker
    extraction by regular expressions), the coordinator and the code
    generators, and the Streamlit session store with its event handlers.

    Conventions.
    - A Python [str] is the list of its code points ([pystr]).
    - The chat-completion service is an input: a call either raises or
      yields the reply text ([completion]).
    - The wall clock is an input of the handlers that read it.
    - The limits of the interpreter on [json.loads] (the recursion depth
      and the digit limit of [int()]) are parameters: [Json.loads_within]
      and the decomposers under it.  The session model decodes without
      them; a run in which the interpreter stops the decoding is there
      the run of a failed call.  Memory is not modelled. *)

From Stdlib Require Import List NArith ZArith String Ascii Bool Lia.
From Stdlib Require Import DecimalString DecimalPos DecimalZ.
Import ListNotations.

Set Warnings "-register-all".
Local Open Scope N_scope.

(** ** Python strings and values *)
Module Py.

Definition pystr := list N.

(** An ASCII literal of the source text. *)
Definition lit (s : string) : pystr :=
  map N_of_ascii (list_ascii_of_string s).

(** A literal with the apostrophe standing for the double quote, for JSON
    texts. *)
Definition dq (s : string) : pystr :=
  map (fun c => if c =? 39 then 34 else c) (lit s).

Fixpoint str_eqb (a b : pystr) : bool :=
  match a, b with
  | [], [] => true
  | x :: a', y :: b' => (x =? y) && str_eqb a' b'
  | _, _ => false
  end.

(** [str.isspace] for one code point, which is also the class [\s] of [re]
    on [str] patterns (Py_UNICODE_ISSPACE). *)
Definition isspace (c : N) : bool :=
  ((9 <=? c) && (c <=? 13)) || ((28 <=? c) && (c <=? 32))
  || (c =? 133) || (c =? 160) || (c =? 5760)
  || ((8192 <=? c) && (c <=? 8202))
  || (c =? 8232) || (c =? 8233) || (c =? 8239) || (c =? 8287)
  || (c =? 12288).

Fixpoint lstrip (s : pystr) : pystr :=
  match s with
  | c :: r => if isspace c then lstrip r else s
  | [] => []
  end.

Definition rstrip (s : pystr) : pystr := rev (lstrip (rev s)).

(** [s.strip()] *)
Definition strip (s : pystr) : pystr := rstrip (lstrip s).

(** A Python [float] obtained from a decimal literal is kept as that
    literal: sign, digits [m] and decimal exponent [e] stand for the
    binary64 value nearest to [m * 10^e]. *)
Inductive pyfloat :=
| FDec (neg : bool) (m : N) (e : Z)
| FNan
| FInf (neg : bool).

(** The values [json.loads] builds, and the records the program builds
    from them and from strings.  A [dict] keeps insertion order. *)
Inductive value :=
| VNone
| VBool (b : bool)
| VInt (z : Z)
| VFloat (f : pyfloat)
| VStr (s : pystr)
| VList (l : list value)
| VDict (d : list (pystr * value)).

Definition dict := list (pystr * value).

(** [k in d] *)
Fixpoint dict_in (k : pystr) (d : dict) : bool :=
  match d with
  | [] => false
  | (k', _) :: d' => str_eqb k k' || dict_in k d'
  end.

(** [d.get(k)], [None] when the key is missing *)
Fixpoint dict_get (k : pystr) (d : dict) : option value :=
  match d with
  | [] => None
  | (k', v) :: d' => if str_eqb k k' then Some v else dict_get k d'
  end.

(** [d[k] = v]: an existing key keeps its position. *)
Fixpoint dict_set (k : pystr) (v : value) (d : dict) : dict :=
  match d with
  | [] => [(k, v)]
  | (k', v') :: d' =>
      if str_eqb k k' then (k', v) :: d' else (k', v') :: dict_set k v d'
  end.

(** [del d[k]] for a key that is present *)
Fixpoint dict_del (k : pystr) (d : dict) : dict :=
  match d with
  | [] => []
  | (k', v') :: d' =>
      if str_eqb k k' then dict_del k d' else (k', v') :: dict_del k d'
  end.

(** [float(x) != 0.0]: a decimal literal rounds to zero when its digits are
    all zero or when it is at most half the least subnormal, [2^-1075]. *)
Definition float_nonzero (f : pyfloat) : bool :=
  match f with
  | FNan | FInf _ => true
  | FDec _ m e =>
      negb (m =? 0) &&
      ((0 <=? e)%Z || (10 ^ (- e) <? Z.of_N m * 2 ^ 1075)%Z)
  end.

(** [bool(v)], the test of [if v:] *)
Definition truthy (v : value) : bool :=
  match v with
  | VNone => false
  | VBool b => b
  | VInt z => negb (z =? 0)%Z
  | VFloat f => float_nonzero f
  | VStr s => match s with [] => false | _ => true end
  | VList l => match l with [] => false | _ => true end
  | VDict d => match d with [] => false | _ => true end
  end.

(** [v == s] for a string literal [s]: only a [str] equals a [str]. *)
Definition eq_str (v : value) (s : pystr) : bool :=
  match v with
  | VStr s' => str_eqb s' s
  | _ => false
  end.

(** [v.get(k, default)] on a [dict]; other values have no [get]
    (AttributeError), which is [None] here. *)
Definition get_default (v : value) (k : pystr) (default : value)
  : option value :=
  match v with
  | VDict d =>
      match dict_get k d with
      | Some x => Some x
      | None => Some default
      end
  | _ => None
  end.

(** [v[k]] on a [dict]: [None] stands for the KeyError of a missing key
    and for the TypeError of a value that is not a [dict]. *)
Definition subscript (v : value) (k : pystr) : option value :=
  match v with
  | VDict d => dict_get k d
  | _ => None
  end.

(** Decimal digits of an [int]. *)
Definition str_of_Z (z : Z) : pystr :=
  lit (NilZero.string_of_int (Z.to_int z)).

(** The interpreter's [repr] of floats, lists and dicts is not part of the
    program text; it is a parameter. *)
Class Runtime := repr_compound : value -> pystr.

(** [str(v)], what an f-string field [{v}] expands to. *)
Definition py_str {R : Runtime} (v : value) : pystr :=
  match v with
  | VNone => lit "None"
  | VBool true => lit "True"
  | VBool false => lit "False"
  | VInt z => str_of_Z z
  | VStr s => s
  | VFloat _ | VList _ | VDict _ => repr_compound v
  end.

End Py.

(** ** [json.loads] *)
Module Json.
Import Py.

Definition is_ws (c : N) : bool :=
  (c =? 32) || (c =? 9) || (c =? 10) || (c =? 13).

Fixpoint skip_ws (s : pystr) : pystr :=
  match s with
  | c :: r => if is_ws c then skip_ws r else s
  | [] => []
  end.

Definition is_digit (c : N) : bool := (48 <=? c) && (c <=? 57).

Definition hex_val (c : N) : option N :=
  if is_digit c then Some (c - 48)
  else if (97 <=? c) && (c <=? 102) then Some (c - 87)
  else if (65 <=? c) && (c <=? 70) then Some (c - 55)
  else None.

Definition hex4 (a b c d : N) : option N :=
  match hex_val a, hex_val b, hex_val c, hex_val d with
  | Some x, Some y, Some z, Some w => Some (((x * 16 + y) * 16 + z) * 16 + w)
  | _, _, _, _ => None
  end.

Definition is_high_surrogate (c : N) : bool := (55296 <=? c) && (c <=? 56319).
Definition is_low_surrogate (c : N) : bool := (56320 <=? c) && (c <=? 57343).
Definition join_surrogates (hi lo : N) : N :=
  65536 + (hi - 55296) * 1024 + (lo - 56320).

Definition simple_escape (c : N) : option N :=
  if c =? 34 then Some 34          (* quote *)
  else if c =? 92 then Some 92     (* backslash *)
  else if c =? 47 then Some 47     (* slash *)
  else if c =? 98 then Some 8      (* b *)
  else if c =? 102 then Some 12    (* f *)
  else if c =? 110 then Some 10    (* n *)
  else if c =? 114 then Some 13    (* r *)
  else if c =? 116 then Some 9     (* t *)
  else None.

(** [scanstring] (strict mode) from just after the opening quote: the
    decoded string and the text after the closing quote.  [acc] is the
    decoded prefix, reversed.  A high surrogate escape directly followed
    by a low surrogate escape is one code point. *)
Fixpoint scanstring (s : pystr) (acc : pystr) : option (pystr * pystr) :=
  match s with
  | [] => None
  | c :: r =>
      if c =? 34 then Some (rev acc, r)
      else if c =? 92 then
        match r with
        | [] => None
        | e :: r1 =>
            if e =? 117 then
              match r1 with
              | h1 :: h2 :: h3 :: h4 :: r2 =>
                  match hex4 h1 h2 h3 h4 with
                  | None => None
                  | Some cp =>
                      match r2 with
                      | b :: u :: l1 :: l2 :: l3 :: l4 :: ((_ :: _) as r3) =>
                          if is_high_surrogate cp && (b =? 92) && (u =? 117)
                          then
                            match hex4 l1 l2 l3 l4 with
                            | None => None
                            | Some c2 =>
                                if is_low_surrogate c2
                                then scanstring r3 (join_surrogates cp c2 :: acc)
                                else scanstring r2 (cp :: acc)
                            end
                          else scanstring r2 (cp :: acc)
                      | _ => scanstring r2 (cp :: acc)
                      end
                  end
              | _ => None
              end
            else
              match simple_escape e with
              | Some x => scanstring r1 (x :: acc)
              | None => None
              end
        end
      else if c <=? 31 then None
      else scanstring r (c :: acc)
  end.

(** The longest prefix of digits, as the number they spell after [m],
    their count after [n], and the rest. *)
Fixpoint digits (s : pystr) (m : N) (n : nat) : N * nat * pystr :=
  match s with
  | c :: r => if is_digit c then digits r (m * 10 + (c - 48)) (S n) else (m, n, s)
  | [] => (m, n, [])
  end.

(** The integer part: [0], or a nonzero digit and more digits. *)
Definition int_part (s : pystr) : option (N * pystr) :=
  match s with
  | c :: r =>
      if c =? 48 then Some (0, r)
      else if is_digit c then
        let '(m, _, r') := digits r (c - 48) 0%nat in Some (m, r')
      else None
  | [] => None
  end.

(** The fraction [.d+], when present: the digits appended to [m]. *)
Definition frac_part (m : N) (s : pystr) : option (N * nat * pystr) :=
  match s with
  | dot :: ((c :: _) as r) =>
      if (dot =? 46) && is_digit c then Some (digits r m 0%nat) else None
  | _ => None
  end.

(** The exponent [[eE][-+]?d+], when present. *)
Definition exp_part (s : pystr) : option (Z * pystr) :=
  match s with
  | c :: r =>
      if (c =? 101) || (c =? 69) then
        match r with
        | sg :: ((d :: _) as r') =>
            if ((sg =? 45) || (sg =? 43)) && is_digit d then
              let '(x, _, r'') := digits r' 0 0%nat in
              Some (if sg =? 45 then (- Z.of_N x)%Z else Z.of_N x, r'')
            else if is_digit sg then
              let '(x, _, r'') := digits r 0 0%nat in Some (Z.of_N x, r'')
            else None
        | [d] =>
            if is_digit d then
              let '(x, _, r'') := digits r 0 0%nat in Some (Z.of_N x, r'')
            else None
        | [] => None
        end
      else None
  | [] => None
  end.

(** [_match_number]: an [int] when there is neither fraction nor exponent,
    a [float] otherwise. *)
Definition match_number (s : pystr) : option (value * pystr) :=
  let '(neg, s1) :=
    match s with
    | c :: r => if c =? 45 then (true, r) else (false, s)
    | [] => (false, s)
    end in
  match int_part s1 with
  | None => None
  | Some (m, s2) =>
      match frac_part m s2 with
      | Some (m', k, s3) =>
          match exp_part s3 with
          | Some (e, s4) =>
              Some (VFloat (FDec neg m' (e - Z.of_nat k)), s4)
          | None => Some (VFloat (FDec neg m' (- Z.of_nat k)), s3)
          end
      | None =>
          match exp_part s2 with
          | Some (e, s4) => Some (VFloat (FDec neg m e), s4)
          | None =>
              Some (VInt (if neg then (- Z.of_N m)%Z else Z.of_N m), s2)
          end
      end
  end.

(** [s] starts with [p]: the text after it. *)
Fixpoint after_prefix (p s : pystr) : option pystr :=
  match p, s with
  | [], _ => Some s
  | x :: p', y :: s' => if x =? y then after_prefix p' s' else None
  | _ :: _, [] => None
  end.

Definition keyword (w : string) (v : value) (s : pystr)
  : option (value * pystr) :=
  match after_prefix (lit w) s with
  | Some r => Some (v, r)
  | None => None
  end.

Definition or_else {A} (x : option A) (y : option A) : option A :=
  match x with
  | Some _ => x
  | None => y
  end.

(** The constants of [scan_once]. *)
Definition constant (s : pystr) : option (value * pystr) :=
  or_else (keyword "null" VNone s)
  (or_else (keyword "true" (VBool true) s)
  (or_else (keyword "false" (VBool false) s)
  (or_else (keyword "NaN" (VFloat FNan) s)
  (or_else (keyword "Infinity" (VFloat (FInf false)) s)
           (keyword "-Infinity" (VFloat (FInf true)) s))))).

(** [scan_once] with the object and array loops it calls.  Every call
    spends one unit of [fuel]; [loads] supplies enough (see
    [scan_once_fuel]). *)
Fixpoint scan_once (fuel : nat) (s : pystr) {struct fuel}
  : option (value * pystr) :=
  match fuel with
  | O => None
  | S f =>
      match s with
      | [] => None
      | c :: r =>
          if c =? 34 then
            match scanstring r [] with
            | Some (x, r') => Some (VStr x, r')
            | None => None
            end
          else if c =? 123 then
            match skip_ws r with
            | [] => None
            | c' :: r' =>
                if c' =? 125 then Some (VDict [], r')
                else parse_members f (c' :: r') []
            end
          else if c =? 91 then
            match skip_ws r with
            | [] => None
            | c' :: r' =>
                if c' =? 93 then Some (VList [], r')
                else parse_elements f (c' :: r') []
            end
          else or_else (constant s) (match_number s)
      end
  end

with parse_members (fuel : nat) (s : pystr) (acc : dict) {struct fuel}
  : option (value * pystr) :=
  match fuel with
  | O => None
  | S f =>
      match s with
      | [] => None
      | q :: r =>
          if q =? 34 then
            match scanstring r [] with
            | None => None
            | Some (key, r1) =>
                match skip_ws r1 with
                | [] => None
                | colon :: r2 =>
                    if colon =? 58 then
                      match scan_once f (skip_ws r2) with
                      | None => None
                      | Some (v, r3) =>
                          match skip_ws r3 with
                          | [] => None
                          | c :: r4 =>
                              if c =? 125 then
                                Some (VDict (dict_set key v acc), r4)
                              else if c =? 44 then
                                parse_members f (skip_ws r4)
                                              (dict_set key v acc)
                              else None
                          end
                      end
                    else None
                end
            end
          else None
      end
  end

with parse_elements (fuel : nat) (s : pystr) (acc : list value) {struct fuel}
  : option (value * pystr) :=
  match fuel with
  | O => None
  | S f =>
      match scan_once f s with
      | None => None
      | Some (v, r) =>
          match skip_ws r with
          | [] => None
          | c :: r' =>
              if c =? 93 then Some (VList (rev (v :: acc)), r')
              else if c =? 44 then parse_elements f (skip_ws r') (v :: acc)
              else None
          end
      end
  end.

(** The fuel [loads] gives [scan_once] on a text. *)
Definition fuel_for (s : pystr) : nat := 2 * List.length s + 1.

(** [json.loads(s)] for a [str]: [None] stands for the exception
    (JSONDecodeError) of a text that is not one JSON document.  A text
    that starts with the byte order mark U+FEFF is refused. *)
Definition loads (s : pystr) : option value :=
  match s with
  | c :: _ =>
      if c =? 65279 then None
      else
        let s' := skip_ws s in
        match scan_once (fuel_for s') s' with
        | Some (v, r) =>
            match skip_ws r with
            | [] => Some v
            | _ => None
            end
        | None => None
        end
  | [] => None
  end.

(** *** The limits of the interpreter

    [json.loads] raises RecursionError when arrays and objects nest
    deeper than the recursion limit of the interpreter leaves room for,
    and ValueError at an integer literal of more digits than
    [sys.get_int_max_str_digits()].  Both are settings of the interpreter
    and not of the program: [max_nesting] is the number of arrays and
    objects that may be open at once, and an [int_max_str_digits] of [0]
    is no limit. *)
Record limits := {
  max_nesting : nat;
  int_max_str_digits : nat
}.

(** Where a pass over a document is: outside a string, inside one, after
    a backslash inside one, in the digits of a number that is an [int] so
    far, or in the rest of a [float]. *)
Inductive lex :=
| Outside
| InString
| Escaped
| InInt (n : nat)
| InFloat.

Definition in_string (st : lex) : bool :=
  match st with
  | InString | Escaped => true
  | _ => false
  end.

(** What makes a number a [float]: the point or the exponent mark. *)
Definition is_float_mark (c : N) : bool :=
  (c =? 46) || (c =? 101) || (c =? 69).

Definition lex_outside (c : N) : lex :=
  if c =? 34 then InString
  else if is_digit c then InInt 1
  else Outside.

Definition lex_step (st : lex) (c : N) : lex :=
  match st with
  | Escaped => InString
  | InString =>
      if c =? 92 then Escaped else if c =? 34 then Outside else InString
  | InInt n =>
      if is_digit c then InInt (S n)
      else if is_float_mark c then InFloat
      else lex_outside c
  | InFloat =>
      if is_digit c || is_float_mark c || (c =? 43) || (c =? 45) then InFloat
      else lex_outside c
  | Outside => lex_outside c
  end.

(** The digits of the integer literal that ends before [c], if one does. *)
Definition int_ended (st : lex) (c : N) : nat :=
  match st with
  | InInt n => if is_digit c || is_float_mark c then 0%nat else n
  | _ => 0%nat
  end.

(** The arrays and objects open after [c]. *)
Definition opened (st : lex) (c : N) (depth : nat) : nat :=
  if in_string st then depth
  else if (c =? 91) || (c =? 123) then S depth
  else if (c =? 93) || (c =? 125) then pred depth
  else depth.

(** What decoding a document asks of the interpreter: the deepest nesting
    of arrays and objects, and the most digits of an integer literal.  On
    a document that [scan_once] accepts these are the depth its recursion
    reaches and the longest text it hands to [int]. *)
Fixpoint usage (s : pystr) (st : lex) (depth deepest longest : nat)
  : nat * nat :=
  match s with
  | [] =>
      (deepest,
       Nat.max longest match st with InInt n => n | _ => 0%nat end)
  | c :: r =>
      let depth' := opened st c depth in
      usage r (lex_step st c) depth' (Nat.max deepest depth')
            (Nat.max longest (int_ended st c))
  end.

Definition within (L : limits) (s : pystr) : bool :=
  let '(deepest, longest) := usage s Outside 0 0 0 in
  (deepest <=? max_nesting L)%nat
  && ((int_max_str_digits L =? 0)%nat
      || (longest <=? int_max_str_digits L)%nat).

(** [json.loads(s)] in an interpreter with the limits [L]: [None] stands
    for RecursionError and ValueError as well. *)
Definition loads_within (L : limits) (s : pystr) : option value :=
  if within L s then loads s else None.

End Json.

(** ** The two regular-expression searches of the extractors *)
Module Re.
Import Py Json.

(** The longest prefix of [s] that ends with [close]. *)
Fixpoint upto_last (close : N) (s : pystr) : option pystr :=
  match s with
  | [] => None
  | c :: r =>
      match upto_last close r with
      | Some p => Some (c :: p)
      | None => if c =? close then Some [c] else None
      end
  end.

(** [re.search(r'\[.*\]', s, re.DOTALL)] (and the same with braces): the
    matched text, from the first [opening] that has a [close] after it to
    the last [close]. *)
Fixpoint bracket_search (opening close : N) (s : pystr) : option pystr :=
  match s with
  | [] => None
  | c :: r =>
      if c =? opening then
        match upto_last close r with
        | Some p => Some (c :: p)
        | None => bracket_search opening close r
        end
      else bracket_search opening close r
  end.

(** A literal pattern character [p] against [c] under [re.IGNORECASE]: an
    ASCII letter matches both of its cases, and [i], [s], [k] also match
    U+0130 and U+0131, U+017F, U+212A. *)
Definition matches_nocase (p c : N) : bool :=
  let lo :=
    if (65 <=? p) && (p <=? 90) then p + 32 else p in
  if (97 <=? lo) && (lo <=? 122) then
    (c =? lo) || (c =? lo - 32)
    || ((lo =? 105) && ((c =? 304) || (c =? 305)))
    || ((lo =? 115) && (c =? 383))
    || ((lo =? 107) && (c =? 8490))
  else c =? p.

Fixpoint expect_nocase (p s : pystr) : option pystr :=
  match p, s with
  | [], _ => Some s
  | x :: p', y :: s' => if matches_nocase x y then expect_nocase p' s' else None
  | _ :: _, [] => None
  end.

(** [#\s*===] at the start of [s] ([opener] is [#] or [//]): the text
    after it.  A greedy [\s*] never gives a character back here, since
    what follows it starts with a character that is no space. *)
Definition marker_start (opener s : pystr) : option pystr :=
  match after_prefix opener s with
  | Some r => after_prefix (lit "===") (lstrip r)
  | None => None
  end.

(** [#\s*===\s*NAME\s*===\s*] at the start of [s]: the text after it. *)
Definition header (opener name s : pystr) : option pystr :=
  match marker_start opener s with
  | Some r1 =>
      match expect_nocase name (lstrip r1) with
      | Some r2 =>
          match after_prefix (lit "===") (lstrip r2) with
          | Some r3 => Some (lstrip r3)
          | None => None
          end
      | None => None
      end
  | None => None
  end.

(** [$] without [re.MULTILINE]: the end, or just before a final newline. *)
Definition at_end (s : pystr) : bool :=
  match s with
  | [] => true
  | [c] => c =? 10
  | _ => false
  end.

(** The lookahead [(?=#\s*===|$)]. *)
Definition lookahead (opener s : pystr) : bool :=
  match marker_start opener s with
  | Some _ => true
  | None => at_end s
  end.

(** The lazy group [(.*?)] under [re.DOTALL]: the shortest prefix after
    which the lookahead holds. *)
Fixpoint lazy_capture (opener s : pystr) : pystr :=
  if lookahead opener s then []
  else
    match s with
    | [] => []
    | c :: r => c :: lazy_capture opener r
    end.

(** [re.search(r'#\s*===\s*NAME\s*===\s*(.*?)(?=#\s*===|$)', s,
    re.DOTALL | re.IGNORECASE)]: [group(1)] of the leftmost match. *)
Fixpoint section_search (opener name s : pystr) : option pystr :=
  match header opener name s with
  | Some r => Some (lazy_capture opener r)
  | None =>
      match s with
      | [] => None
      | _ :: r => section_search opener name r
      end
  end.

End Re.

(** ** The clock *)
Module Clock.
Import Py.

(** [datetime.now()]: a naive datetime. *)
Record datetime := {
  year : N; month : N; day : N;
  hour : N; minute : N; second : N; microsecond : N
}.

Definition digit (n : N) : N := 48 + n mod 10.

Definition pad2 (n : N) : pystr := [digit (n / 10); digit n].
Definition pad4 (n : N) : pystr :=
  [digit (n / 1000); digit (n / 100); digit (n / 10); digit n].
Definition pad6 (n : N) : pystr :=
  [digit (n / 100000); digit (n / 10000); digit (n / 1000);
   digit (n / 100); digit (n / 10); digit n].

(** The ranges of the fields of a [datetime]. *)
Definition valid (t : datetime) : Prop :=
  1 <= year t <= 9999 /\ 1 <= month t <= 12 /\ 1 <= day t <= 31 /\
  hour t <= 23 /\ minute t <= 59 /\ second t <= 59 /\
  microsecond t <= 999999.

(** [t.strftime("%H:%M:%S")] *)
Definition strftime_HMS (t : datetime) : pystr :=
  pad2 (hour t) ++ [58] ++ pad2 (minute t) ++ [58] ++ pad2 (second t).

(** [t.strftime("%Y-%m-%d %H:%M:%S")] *)
Definition strftime_Ymd_HMS (t : datetime) : pystr :=
  pad4 (year t) ++ [45] ++ pad2 (month t) ++ [45] ++ pad2 (day t)
  ++ [32] ++ strftime_HMS t.

(** [t.isoformat()]: the microseconds are left out when they are zero. *)
Definition isoformat (t : datetime) : pystr :=
  pad4 (year t) ++ [45] ++ pad2 (month t) ++ [45] ++ pad2 (day t)
  ++ [84] ++ strftime_HMS t
  ++ (if microsecond t =? 0 then [] else 46 :: pad6 (microsecond t)).

(** The number two digits spell. *)
Definition num2 (a b : N) : N := (a - 48) * 10 + (b - 48).

(** An ISO-8601 date and time in the extended format
    [YYYY-MM-DDTHH:MM:SS], with an optional fraction of six digits. *)
Definition is_iso8601 (s : pystr) : bool :=
  let d := Json.is_digit in
  match s with
  | y1 :: y2 :: y3 :: y4 :: c1 :: m1 :: m2 :: c2 :: d1 :: d2 :: t
    :: h1 :: h2 :: c3 :: n1 :: n2 :: c4 :: s1 :: s2 :: frac =>
      d y1 && d y2 && d y3 && d y4 && (c1 =? 45)
      && d m1 && d m2 && (c2 =? 45) && d d1 && d d2 && (t =? 84)
      && d h1 && d h2 && (c3 =? 58) && d n1 && d n2 && (c4 =? 58)
      && d s1 && d s2
      && (1 <=? num2 m1 m2) && (num2 m1 m2 <=? 12)
      && (1 <=? num2 d1 d2) && (num2 d1 d2 <=? 31)
      && (num2 h1 h2 <=? 23) && (num2 n1 n2 <=? 59) && (num2 s1 s2 <=? 59)
      && match frac with
         | [] => true
         | [p; f1; f2; f3; f4; f5; f6] =>
             (p =? 46) && d f1 && d f2 && d f3 && d f4 && d f5 && d f6
         | _ => false
         end
  | _ => false
  end.

End Clock.

(** ** The chat-completion service *)
Module Provider.
Import Py.

(** The outcome of [client.chat.completions.create(...)] followed by
    [response.choices[0].message.content]: an exception of any kind, or
    the reply text. *)
Inductive completion :=
| Failed
| Content (reply : pystr).

End Provider.

(** ** What the page shows *)
Module Page.
Import Py.

(** The calls that put text on the page: [st.code(body, language=...)],
    [st.markdown(body)] and [st.text(body)]. *)
Inductive widget :=
| Code (body : value) (language : pystr)
| Markdown (body : pystr)
| Text (body : value).

(** [sep.join(l)] on a list of strings *)
Fixpoint join (sep : pystr) (l : list pystr) : pystr :=
  match l with
  | [] => []
  | [x] => x
  | x :: l' => x ++ sep ++ join sep l'
  end.

(** The elements of a list when all of them are strings; [str.join]
    raises TypeError otherwise. *)
Fixpoint strings (l : list value) : option (list pystr) :=
  match l with
  | [] => Some []
  | VStr x :: l' =>
      match strings l' with
      | Some xs => Some (x :: xs)
      | None => None
      end
  | _ :: _ => None
  end.

(** [st.button(..., key=k)] refuses a key that a widget of the same run
    already has (DuplicateWidgetID): the keys of one run are pairwise
    different. *)
Fixpoint distinct (keys : list pystr) : bool :=
  match keys with
  | [] => true
  | k :: keys' => negb (existsb (str_eqb k) keys') && distinct keys'
  end.

End Page.

(** ** [json.dumps] *)
Module Encoder.
Import Py Json Page.

(** A hexadecimal digit, in lower case. *)
Definition hex_char (n : N) : N := if n <? 10 then 48 + n else 87 + n.

(** The escape of a code unit: a backslash, [u] and four digits. *)
Definition u_escape (n : N) : pystr :=
  [92; 117; hex_char (n / 4096 mod 16); hex_char (n / 256 mod 16);
   hex_char (n / 16 mod 16); hex_char (n mod 16)].

(** One character under [ensure_ascii=True]: the printable ASCII
    characters stand for themselves, but for the quote and the backslash;
    a character beyond the basic plane is a pair of surrogates. *)
Definition escape (c : N) : pystr :=
  if c =? 34 then [92; 34]
  else if c =? 92 then [92; 92]
  else if c =? 10 then [92; 110]
  else if c =? 13 then [92; 114]
  else if c =? 9 then [92; 116]
  else if c =? 12 then [92; 102]
  else if c =? 8 then [92; 98]
  else if (32 <=? c) && (c <=? 126) then [c]
  else if c <? 65536 then u_escape c
  else
    let n := c - 65536 in
    u_escape (55296 + n / 1024 mod 1024) ++ u_escape (56320 + n mod 1024).

Definition encode_str (s : pystr) : pystr :=
  34 :: flat_map escape s ++ [34].

(** A decimal literal at or beyond [2^1024 - 2^970] is read as an
    infinity. *)
Definition float_overflows (m : N) (e : Z) : bool :=
  if (0 <=? e)%Z then (2 ^ 1024 - 2 ^ 970 <=? Z.of_N m * 10 ^ e)%Z
  else ((2 ^ 1024 - 2 ^ 970) * 10 ^ (- e) <=? Z.of_N m)%Z.

(** [newline_indent] of the encoder for [indent=2] *)
Definition newline_indent (level : nat) : pystr :=
  10 :: repeat 32 (2 * level).

(** The items of an array or an object at [level], one to a line. *)
Definition block (opening close : N) (level : nat) (items : list pystr)
  : pystr :=
  match items with
  | [] => [opening; close]
  | _ =>
      opening :: newline_indent (S level)
      ++ join (44 :: newline_indent (S level)) items
      ++ newline_indent level ++ [close]
  end.

Section Dumps.
Context {R : Runtime}.

(** A float is written by [float.__repr__], but for the three values
    that have a name in JSON texts. *)
Definition float_text (f : pyfloat) : pystr :=
  match f with
  | FNan => lit "NaN"
  | FInf neg => if neg then lit "-Infinity" else lit "Infinity"
  | FDec neg m e =>
      if float_overflows m e
      then if neg then lit "-Infinity" else lit "Infinity"
      else repr_compound (VFloat f)
  end.

(** The text of [v] inside [level] arrays and objects. *)
Fixpoint dumps_at (level : nat) (v : value) {struct v} : pystr :=
  match v with
  | VNone => lit "null"
  | VBool b => if b then lit "true" else lit "false"
  | VInt z => str_of_Z z
  | VFloat f => float_text f
  | VStr s => encode_str s
  | VList l => block 91 93 level (map (dumps_at (S level)) l)
  | VDict d =>
      block 123 125 level
        (map (fun p =>
                match p with
                | (k, x) => encode_str k ++ [58; 32] ++ dumps_at (S level) x
                end) d)
  end.

(** [json.dumps(v, indent=2)] *)
Definition dumps (v : value) : pystr := dumps_at 0 v.

End Dumps.

End Encoder.

(** ** app.py *)
Module App.
Import Py Json Re Clock Provider Page.

(** [CoordinatorAgent.decompose_project]: the prompt is built from the
    brief, the service is called, and the reply is searched for a
    bracketed span; any exception yields [[]]. *)
Definition decompose_project (project_brief : pystr) (c : completion)
  : value :=
  match c with
  | Failed => VList []
  | Content reply =>
      let content := strip reply in
      match bracket_search 91 93 content with
      | Some json_match =>
          match loads json_match with
          | Some tasks => tasks
          | None => VList []
          end
      | None =>
          match loads content with
          | Some tasks => tasks
          | None => VList []
          end
      end
  end.

(** [decompose_project] in an interpreter with the limits [L]: a span
    that exceeds them raises inside the [try] like any other failure. *)
Definition decompose_project_within (L : limits) (project_brief : pystr)
  (c : completion) : value :=
  match c with
  | Failed => VList []
  | Content reply =>
      let content := strip reply in
      match bracket_search 91 93 content with
      | Some json_match =>
          match loads_within L json_match with
          | Some tasks => tasks
          | None => VList []
          end
      | None =>
          match loads_within L content with
          | Some tasks => tasks
          | None => VList []
          end
      end
  end.

(** The body of [generate_code] after the prompt is built, the same in
    both agents: search for a braced span, parse, [{}] on any exception. *)
Definition parse_code (c : completion) : value :=
  match c with
  | Failed => VDict []
  | Content reply =>
      let content := strip reply in
      match bracket_search 123 125 content with
      | Some json_match =>
          match loads json_match with
          | Some code => code
          | None => VDict []
          end
      | None =>
          match loads content with
          | Some code => code
          | None => VDict []
          end
      end
  end.

(** The prompt of both agents reads [task['title']] and
    [task['requirements']] before the [try]: a missing key raises out of
    [generate_code]. *)
Definition prompt_fields (task : value) : option (value * value) :=
  match subscript task (lit "title"), subscript task (lit "requirements") with
  | Some t, Some r => Some (t, r)
  | _, _ => None
  end.

(** [BackendAgent.generate_code]; [None] is the exception raised while the
    prompt is built. *)
Definition BackendAgent_generate_code
  (task : value) (project_context : pystr) (c : completion) : option value :=
  match prompt_fields task with
  | Some _ => Some (parse_code c)
  | None => None
  end.

(** [FrontendAgent.generate_code] *)
Definition FrontendAgent_generate_code
  (task : value) (project_context : pystr) (c : completion) : option value :=
  match prompt_fields task with
  | Some _ => Some (parse_code c)
  | None => None
  end.

Inductive agent := BackendAgent | FrontendAgent.

(** [if task.get('agent_type') == 'BACKEND': ... else: ...] *)
Definition select_agent (task : value) : agent :=
  match get_default task (lit "agent_type") VNone with
  | Some v => if eq_str v (lit "BACKEND") then BackendAgent else FrontendAgent
  | None => FrontendAgent
  end.

Definition generate_code (a : agent) :=
  match a with
  | BackendAgent => BackendAgent_generate_code
  | FrontendAgent => FrontendAgent_generate_code
  end.

(** [st.session_state]; [project_brief] is unset until the first
    decomposition. *)
Record state := {
  tasks : value;
  generated_code : dict;
  api_key : pystr;
  project_brief : option pystr
}.

Definition initial : state :=
  {| tasks := VList []; generated_code := []; api_key := [];
     project_brief := None |}.

(** One run of the script, by the widget that triggered it. *)
Inductive event :=
| EnterKey (key : pystr)
| ClearAll
| Decompose (brief : pystr) (c : completion)
| Generate (i : nat) (c : completion) (now : datetime)
| Regenerate (i : nat).

Definition is_dict (v : value) : bool :=
  match v with
  | VDict _ => true
  | _ => false
  end.

Definition nonempty (s : pystr) : bool :=
  match s with
  | [] => false
  | _ => true
  end.

(** The "Clear All Tasks" handler. *)
Definition clear_all (s : state) : state :=
  {| tasks := VList []; generated_code := []; api_key := api_key s;
     project_brief := project_brief s |}.

(** The "Decompose Project" handler. *)
Definition decompose (s : state) (brief : pystr) (c : completion) : state :=
  let new_tasks := decompose_project brief c in
  if truthy new_tasks then
    {| tasks := new_tasks; generated_code := generated_code s;
       api_key := api_key s; project_brief := Some brief |}
  else s.

(** The record stored for a task. *)
Definition entry (task code : value) (now : datetime) : value :=
  VDict [(lit "task", task); (lit "code", code);
         (lit "timestamp", VStr (strftime_Ymd_HMS now))].

(** [if task.get('dependencies'):] followed by
    [', '.join(map(str, task['dependencies']))]: a truthy value must be
    iterable, which a [str], a [list] and a [dict] are and a number or
    [True] is not (TypeError). *)
Definition dependencies_shown (task : value) : bool :=
  match get_default task (lit "dependencies") VNone with
  | Some v =>
      if truthy v then
        match v with
        | VStr _ | VList _ | VDict _ => true
        | _ => false
        end
      else true
  | None => false
  end.

Section Handlers.
Context {R : Runtime}.

(** [f"task_{task.get('task_id', i+1)}"] *)
Definition task_key (task : value) (i : nat) : option pystr :=
  match get_default task (lit "task_id") (VInt (Z.of_nat i + 1)) with
  | Some id => Some (lit "task_" ++ py_str id)
  | None => None
  end.

(** The task behind the buttons of row [i], with its key.  The rows are
    reached only when the task list is a list of dicts (the counts above
    them call [t.get] on every element). *)
Definition row (s : state) (i : nat) : option (value * pystr) :=
  if nonempty (api_key s) then
    match tasks s with
    | VList l =>
        if forallb is_dict l then
          match nth_error l i with
          | Some task =>
              match task_key task i with
              | Some key => Some (task, key)
              | None => None
              end
          | None => None
          end
        else None
    | _ => None
    end
  else None.

(** The "Generate Code" handler of row [i]. *)
Definition generate (s : state) (i : nat) (c : completion) (now : datetime)
  : option state :=
  match row s i with
  | Some (task, key) =>
      if dict_in key (generated_code s) then None
      else
        match project_brief s with
        | Some ctx =>
            match generate_code (select_agent task) task ctx c with
            | Some code =>
                if truthy code then
                  Some {| tasks := tasks s;
                          generated_code :=
                            dict_set key (entry task code now)
                                     (generated_code s);
                          api_key := api_key s;
                          project_brief := project_brief s |}
                else Some s
            | None => None
            end
        | None => None
        end
  | None => None
  end.

(** The "Regenerate" handler of row [i]. *)
Definition regenerate (s : state) (i : nat) : option state :=
  match row s i with
  | Some (_, key) =>
      if dict_in key (generated_code s) then
        Some {| tasks := tasks s;
                generated_code := dict_del key (generated_code s);
                api_key := api_key s;
                project_brief := project_brief s |}
      else None
  | None => None
  end.

(** One run of [main].  [None]: the widget is not on the page, or the run
    stops with an exception before the session is changed.  Exceptions of
    the rendering code between the handlers are not modelled, so the model
    allows at least the runs of the program. *)
Definition step (s : state) (e : event) : option state :=
  match e with
  | EnterKey key =>
      if nonempty key then
        Some {| tasks := tasks s; generated_code := generated_code s;
                api_key := key; project_brief := project_brief s |}
      else Some s
  | ClearAll => Some (clear_all s)
  | Decompose brief c =>
      if nonempty (api_key s) && nonempty brief
      then Some (decompose s brief c)
      else None
  | Generate i c now => generate s i c now
  | Regenerate i => regenerate s i
  end.

(** The session after a sequence of runs. *)
Fixpoint run (s : state) (es : list event) : option state :=
  match es with
  | [] => Some s
  | e :: es' =>
      match step s e with
      | Some s' => run s' es'
      | None => None
      end
  end.

Inductive reachable : state -> Prop :=
| reachable_initial : reachable initial
| reachable_step s e s' : reachable s -> step s e = Some s' -> reachable s'.

(** The keys of the rows of a displayed list. *)
Definition row_keys (l : list value) : list pystr :=
  flat_map (fun '(i, t) =>
              match task_key t i with
              | Some k => [k]
              | None => []
              end)
           (combine (seq 0 (List.length l)) l).

(** The keys of the rows of the current task list. *)
Definition task_keys (s : state) : list pystr :=
  match tasks s with
  | VList l => row_keys l
  | _ => []
  end.

(** The button of row [i] is drawn: the key is configured, the counts
    above the rows find a list of dicts, and the rows up to [i] are drawn
    without an exception, that is, each shows its dependencies and no two
    of them give their button the same key. *)
Definition drawn (s : state) (i : nat) : bool :=
  nonempty (api_key s)
  && match tasks s with
     | VList l =>
         forallb is_dict l
         && (i <? List.length l)%nat
         && forallb dependencies_shown (firstn (S i) l)
         && distinct (row_keys (firstn (S i) l))
     | _ => false
     end.

End Handlers.

(** The artifacts shown by the "Generated Code" part of the page: every
    item of the mapping, once the key is configured. *)
Definition rendered (s : state) : dict :=
  if nonempty (api_key s) then generated_code s else [].

(** [t.get('agent_type') == name] in the two counts *)
Definition agent_type_is (name : pystr) (t : value) : bool :=
  match get_default t (lit "agent_type") VNone with
  | Some v => eq_str v name
  | None => false
  end.

(** The three metrics above the rows: total, backend and frontend tasks.
    [None]: the task list is no list, or [t.get] raises on an element that
    is no dict. *)
Definition task_summary (s : state) : option (nat * nat * nat) :=
  match tasks s with
  | VList l =>
      if forallb is_dict l then
        Some (List.length l,
              List.length (filter (agent_type_is (lit "BACKEND")) l),
              List.length (filter (agent_type_is (lit "FRONTEND")) l))
      else None
  | _ => None
  end.

Section Display.
Context {R : Runtime}.

(** ['\n'.join([f"- {x}" for x in l])] *)
Definition bullets (l : list value) : pystr :=
  join [10] (map (fun x => lit "- " ++ py_str x) l).

(** The last tab: a list is shown as bullets, anything else as text. *)
Definition list_or_text (v : value) : widget :=
  match v with
  | VList l => Markdown (bullets l)
  | _ => Text v
  end.

(** The four tabs of one item of the mapping.  [None]: a subscript or a
    [get] raises. *)
Definition display_code (data : value) : option (list widget) :=
  match subscript data (lit "task"), subscript data (lit "code"),
        subscript data (lit "timestamp") with
  | Some task, Some code, Some _ =>
      match get_default task (lit "title") (VStr (lit "Untitled")),
            get_default task (lit "agent_type") VNone with
      | Some _, Some ty =>
          if eq_str ty (lit "BACKEND") then
            match
              get_default code (lit "database_schema")
                (VStr (lit "No schema generated")),
              get_default code (lit "api_endpoints")
                (VStr (lit "No endpoints generated")),
              get_default code (lit "business_logic")
                (VStr (lit "No business logic generated")),
              get_default code (lit "requirements")
                (VStr (lit "No requirements specified"))
            with
            | Some a, Some b, Some c, Some d =>
                Some [Code a (lit "python"); Code b (lit "python");
                      Code c (lit "python"); list_or_text d]
            | _, _, _, _ => None
            end
          else
            match
              get_default code (lit "component_code")
                (VStr (lit "No component generated")),
              get_default code (lit "styling")
                (VStr (lit "No styling provided")),
              get_default code (lit "api_integration")
                (VStr (lit "No API integration provided")),
              get_default code (lit "dependencies")
                (VStr (lit "No dependencies specified"))
            with
            | Some a, Some b, Some c, Some d =>
                Some [Code a (lit "javascript"); Code b (lit "css");
                      Code c (lit "javascript"); list_or_text d]
            | _, _, _, _ => None
            end
      | _, _ => None
      end
  | _, _, _ => None
  end.

End Display.

End App.

(** ** app_pavi.py *)
Module AppPavi.
Import Py Json Re Clock Provider Page Encoder.

(** [ProjectCoordinator.analyze_and_breakdown] *)
Definition analyze_and_breakdown (description : pystr) (c : completion)
  : value :=
  match c with
  | Failed => VList []
  | Content reply =>
      let content := strip reply in
      match bracket_search 91 93 content with
      | Some json_match =>
          match loads json_match with
          | Some tasks => tasks
          | None => VList []
          end
      | None =>
          match loads content with
          | Some tasks => tasks
          | None => VList []
          end
      end
  end.

(** [analyze_and_breakdown] in an interpreter with the limits [L]. *)
Definition analyze_and_breakdown_within (L : limits) (description : pystr)
  (c : completion) : value :=
  match c with
  | Failed => VList []
  | Content reply =>
      let content := strip reply in
      match bracket_search 91 93 content with
      | Some json_match =>
          match loads_within L json_match with
          | Some tasks => tasks
          | None => VList []
          end
      | None =>
          match loads_within L content with
          | Some tasks => tasks
          | None => VList []
          end
      end
  end.

(** The prompt of both developers reads [task['name']] and
    [task['description']] before the [try]. *)
Definition prompt_fields (task : value) : option (value * value) :=
  match subscript task (lit "name"), subscript task (lit "description") with
  | Some n, Some d => Some (n, d)
  | _, _ => None
  end.

(** [match.group(1).strip()] of a section when its marker matches, the
    initial [''] of the result record otherwise. *)
Definition section (opener name content : pystr) : pystr :=
  match section_search opener name content with
  | Some g => strip g
  | None => []
  end.

(** [any(result.values())] on a record of strings *)
Definition any_nonempty (l : list pystr) : bool :=
  existsb (fun x => match x with [] => false | _ => true end) l.

Definition backend_error : value :=
  VDict [(lit "models", VStr (lit "# Error generating code"));
         (lit "routes", VStr (lit "# Error generating code"));
         (lit "logic", VStr (lit "# Error generating code"));
         (lit "dependencies", VStr (lit "# Error generating code"))].

(** The body of [BackendDeveloper.create_implementation] inside the
    [try], on the reply. *)
Definition backend_sections (reply : pystr) : value :=
  let content := strip reply in
  let models := section (lit "#") (lit "DATABASE MODELS") content in
  let routes := section (lit "#") (lit "API ROUTES") content in
  let logic := section (lit "#") (lit "BUSINESS LOGIC") content in
  let deps := section (lit "#") (lit "DEPENDENCIES") content in
  if any_nonempty [models; routes; logic; deps] then
    VDict [(lit "models", VStr models); (lit "routes", VStr routes);
           (lit "logic", VStr logic); (lit "dependencies", VStr deps)]
  else
    VDict [(lit "models", VStr content);
           (lit "routes", VStr (lit "# Code generated above"));
           (lit "logic", VStr (lit "# Code generated above"));
           (lit "dependencies", VStr (lit "# Check requirements above"))].

(** [BackendDeveloper.create_implementation]; [None] is the exception
    raised while the prompt is built. *)
Definition BackendDeveloper_create_implementation
  (task : value) (context : pystr) (c : completion) : option value :=
  match prompt_fields task with
  | Some _ =>
      Some match c with
           | Failed => backend_error
           | Content reply => backend_sections reply
           end
  | None => None
  end.

(** The body of [FrontendDeveloper.create_implementation] inside the
    [try], on the reply. *)
Definition frontend_sections (reply : pystr) : value :=
  let content := strip reply in
  let component := section (lit "//") (lit "REACT COMPONENT") content in
  let styles := section (lit "//") (lit "STYLES") content in
  let hooks := section (lit "//") (lit "HOOKS & API") content in
  let deps := section (lit "//") (lit "DEPENDENCIES") content in
  if any_nonempty [component; styles; hooks; deps] then
    VDict [(lit "component", VStr component); (lit "styles", VStr styles);
           (lit "hooks", VStr hooks); (lit "dependencies", VStr deps)]
  else
    VDict [(lit "component", VStr content); (lit "styles", VStr styles);
           (lit "hooks", VStr hooks); (lit "dependencies", VStr deps)].

(** [FrontendDeveloper.create_implementation] *)
Definition FrontendDeveloper_create_implementation
  (task : value) (context : pystr) (c : completion) : option value :=
  match prompt_fields task with
  | Some _ =>
      Some match c with
           | Failed => VDict []
           | Content reply => frontend_sections reply
           end
  | None => None
  end.

Inductive developer := BackendDeveloper | FrontendDeveloper.

(** [category = task.get('category', 'UNKNOWN')], then
    [if category == 'BACKEND': ... else: ...] *)
Definition select_developer (task : value) : developer :=
  match get_default task (lit "category") (VStr (lit "UNKNOWN")) with
  | Some category =>
      if eq_str category (lit "BACKEND") then BackendDeveloper
      else FrontendDeveloper
  | None => FrontendDeveloper
  end.

Definition create_implementation (d : developer) :=
  match d with
  | BackendDeveloper => BackendDeveloper_create_implementation
  | FrontendDeveloper => FrontendDeveloper_create_implementation
  end.

(** [st.session_state] *)
Record state := {
  task_list : value;
  code_outputs : dict;
  openai_key : pystr;
  project_description : pystr
}.

Definition initial : state :=
  {| task_list := VList []; code_outputs := []; openai_key := [];
     project_description := [] |}.

(** The choice of the "Filter by type" box. *)
Inductive filter_option := AllTasks | BackendOnly | FrontendOnly.

Inductive event :=
| EnterKey (key : pystr)
| Reset
| EditTasks
| Analyze (project_input : pystr) (c : completion)
| Generate (f : filter_option) (idx : nat) (c : completion) (now : datetime)
| Regenerate (f : filter_option) (idx : nat).

Definition is_dict (v : value) : bool :=
  match v with
  | VDict _ => true
  | _ => false
  end.

Definition nonempty (s : pystr) : bool :=
  match s with
  | [] => false
  | _ => true
  end.

(** The "Project Stats" of the sidebar run before everything below them:
    a task list that is not empty must be a list of dicts, or the run
    stops there. *)
Definition stats_ok (s : state) : bool :=
  if truthy (task_list s) then
    match task_list s with
    | VList l => forallb is_dict l
    | _ => false
    end
  else true.

(** The "Reset Everything" handler. *)
Definition reset (s : state) : state :=
  {| task_list := VList []; code_outputs := []; openai_key := openai_key s;
     project_description := [] |}.

(** The "Edit Tasks" handler. *)
Definition edit_tasks (s : state) : state :=
  {| task_list := VList []; code_outputs := []; openai_key := openai_key s;
     project_description := project_description s |}.

(** The "Analyze Project" handler. *)
Definition analyze (s : state) (project_input : pystr) (c : completion)
  : state :=
  if nonempty project_input then
    let new_tasks := analyze_and_breakdown project_input c in
    if truthy new_tasks then
      {| task_list := new_tasks; code_outputs := code_outputs s;
         openai_key := openai_key s; project_description := project_input |}
    else s
  else s.

(** The record stored for a task. *)
Definition entry (task code : value) (now : datetime) : value :=
  VDict [(lit "task", task); (lit "code", code);
         (lit "generated_at", VStr (strftime_HMS now))].

(** [t.get('category') == name] in the two list comprehensions *)
Definition category_is (name : pystr) (t : value) : bool :=
  match get_default t (lit "category") VNone with
  | Some v => eq_str v name
  | None => false
  end.

Definition filtered_tasks (f : filter_option) (l : list value) : list value :=
  match f with
  | AllTasks => l
  | BackendOnly => filter (category_is (lit "BACKEND")) l
  | FrontendOnly => filter (category_is (lit "FRONTEND")) l
  end.

(** The dict handed to [json.dumps(export_data, indent=2)] by the export
    button, of which the downloaded document is the serialisation. *)
Definition export_data (s : state) (now : datetime) : value :=
  VDict [(lit "project", VStr (project_description s));
         (lit "tasks", task_list s);
         (lit "generated_code", VDict (code_outputs s));
         (lit "timestamp", VStr (isoformat now))].

Section Handlers.
Context {R : Runtime}.

(** [f"task_{task.get('id', idx)}"] *)
Definition task_key (task : value) (idx : nat) : option pystr :=
  match get_default task (lit "id") (VInt (Z.of_nat idx)) with
  | Some id => Some (lit "task_" ++ py_str id)
  | None => None
  end.

(** The task behind the buttons of row [idx] of the filtered list, with
    its key. *)
Definition row (s : state) (f : filter_option) (idx : nat)
  : option (value * pystr) :=
  if nonempty (openai_key s) && stats_ok s then
    match task_list s with
    | VList l =>
        match nth_error (filtered_tasks f l) idx with
        | Some task =>
            match task_key task idx with
            | Some key => Some (task, key)
            | None => None
            end
        | None => None
        end
    | _ => None
    end
  else None.

(** The "Generate" handler of a row. *)
Definition generate (s : state) (f : filter_option) (idx : nat)
  (c : completion) (now : datetime) : option state :=
  match row s f idx with
  | Some (task, key) =>
      if dict_in key (code_outputs s) then None
      else
        match create_implementation (select_developer task) task
                (project_description s) c with
        | Some code =>
            if truthy code then
              Some {| task_list := task_list s;
                      code_outputs :=
                        dict_set key (entry task code now) (code_outputs s);
                      openai_key := openai_key s;
                      project_description := project_description s |}
            else Some s
        | None => None
        end
  | None => None
  end.

(** The regenerate handler of a row. *)
Definition regenerate (s : state) (f : filter_option) (idx : nat)
  : option state :=
  match row s f idx with
  | Some (_, key) =>
      if dict_in key (code_outputs s) then
        Some {| task_list := task_list s;
                code_outputs := dict_del key (code_outputs s);
                openai_key := openai_key s;
                project_description := project_description s |}
      else None
  | None => None
  end.

(** One run of [main]; see [App.step]. *)
Definition step (s : state) (e : event) : option state :=
  match e with
  | EnterKey key =>
      if nonempty key then
        Some {| task_list := task_list s; code_outputs := code_outputs s;
                openai_key := key;
                project_description := project_description s |}
      else Some s
  | Reset => if stats_ok s then Some (reset s) else None
  | EditTasks =>
      if nonempty (openai_key s) && stats_ok s && truthy (task_list s)
      then Some (edit_tasks s)
      else None
  | Analyze project_input c =>
      if nonempty (openai_key s) && stats_ok s
      then Some (analyze s project_input c)
      else None
  | Generate f idx c now => generate s f idx c now
  | Regenerate f idx => regenerate s f idx
  end.

Fixpoint run (s : state) (es : list event) : option state :=
  match es with
  | [] => Some s
  | e :: es' =>
      match step s e with
      | Some s' => run s' es'
      | None => None
      end
  end.

Inductive reachable : state -> Prop :=
| reachable_initial : reachable initial
| reachable_step s e s' : reachable s -> step s e = Some s' -> reachable s'.

(** The keys of the rows of a displayed list. *)
Definition row_keys (l : list value) : list pystr :=
  flat_map (fun '(i, t) =>
              match task_key t i with
              | Some k => [k]
              | None => []
              end)
           (combine (seq 0 (List.length l)) l).

(** The keys of the rows of the current task list, under any choice of
    the filter. *)
Definition task_keys (s : state) : list pystr :=
  match task_list s with
  | VList l =>
      row_keys (filtered_tasks AllTasks l)
      ++ row_keys (filtered_tasks BackendOnly l)
      ++ row_keys (filtered_tasks FrontendOnly l)
  | _ => []
  end.

(** The button of row [idx] of the filtered list is drawn: the key is
    configured, the sidebar's stats find a list of dicts, and no two of
    the rows up to [idx] give their button the same key. *)
Definition drawn (s : state) (f : filter_option) (idx : nat) : bool :=
  nonempty (openai_key s) && stats_ok s
  && match task_list s with
     | VList l =>
         (idx <? List.length (filtered_tasks f l))%nat
         && distinct (row_keys (firstn (S idx) (filtered_tasks f l)))
     | _ => false
     end.

End Handlers.

(** The artifacts shown by the "Generated Code" part of the page. *)
Definition rendered (s : state) : dict :=
  if nonempty (openai_key s) && stats_ok s then code_outputs s else [].

(** The export button is offered below the artifacts when there is one. *)
Definition export (s : state) (now : datetime) : option value :=
  match rendered s with
  | [] => None
  | _ => Some (export_data s now)
  end.

(** The document of the download button:
    [json.dumps(export_data, indent=2)]. *)
Definition export_document {R : Runtime} (s : state) (now : datetime)
  : option pystr :=
  match export s now with
  | Some data => Some (dumps data)
  | None => None
  end.

(** The sidebar's "Project Stats". *)
Inductive stats :=
| NoTasks
| Metrics (backend frontend : nat).

(** [None]: [len] or [t.get] raises. *)
Definition project_stats (s : state) : option stats :=
  if truthy (task_list s) then
    match task_list s with
    | VList l =>
        if forallb is_dict l then
          let total := List.length l in
          let backend :=
            List.length (filter (category_is (lit "BACKEND")) l) in
          Some (Metrics backend (total - backend))
        else None
    | _ => None
    end
  else Some NoTasks.

(** The dependencies tab: a list is joined into a fenced block, anything
    else is shown as code. *)
Definition deps_widget (deps : value) : option widget :=
  match deps with
  | VList l =>
      match strings l with
      | Some xs =>
          Some (Markdown ([96; 96; 96; 10] ++ join [10] xs
                          ++ [10; 96; 96; 96]))
      | None => None
      end
  | _ => Some (Code deps (lit "text"))
  end.

(** The four tabs of one item of the mapping.  [None]: a subscript, a
    [get] or the [join] raises. *)
Definition display_output (output : value) : option (list widget) :=
  match subscript output (lit "task"), subscript output (lit "code"),
        subscript output (lit "generated_at") with
  | Some task, Some code, Some _ =>
      match get_default task (lit "name") (VStr (lit "Code Output")),
            get_default task (lit "category") VNone with
      | Some _, Some category =>
          if eq_str category (lit "BACKEND") then
            match
              get_default code (lit "models")
                (VStr (lit "# No models generated")),
              get_default code (lit "routes")
                (VStr (lit "# No routes generated")),
              get_default code (lit "logic")
                (VStr (lit "# No logic generated")),
              get_default code (lit "dependencies") (VList [])
            with
            | Some a, Some b, Some c, Some deps =>
                match deps_widget deps with
                | Some w =>
                    Some [Code a (lit "python"); Code b (lit "python");
                          Code c (lit "python"); w]
                | None => None
                end
            | _, _, _, _ => None
            end
          else
            match
              get_default code (lit "component")
                (VStr (lit "// No component generated")),
              get_default code (lit "styles")
                (VStr (lit "/* No styles generated */")),
              get_default code (lit "hooks")
                (VStr (lit "// No hooks generated")),
              get_default code (lit "dependencies") (VList [])
            with
            | Some a, Some b, Some c, Some deps =>
                match deps_widget deps with
                | Some w =>
                    Some [Code a (lit "javascript"); Code b (lit "css");
                          Code c (lit "javascript"); w]
                | None => None
                end
            | _, _, _, _ => None
            end
      | _, _ => None
      end
  | _, _, _ => None
  end.

End AppPavi.

Import Py Json Re Clock Provider Page Encoder.

(** * Vocabulary of the statements, and example sessions *)

(** The span handed to [json.loads]: the bracketed span when the search
    matches, the whole trimmed reply otherwise. *)
Definition extract_span (opening close : N) (content : pystr) : pystr :=
  match bracket_search opening close content with
  | Some json_match => json_match
  | None => content
  end.

(** The scenario of the specification: one task of category BACKEND. *)
Definition blog_reply : pystr :=
  dq "[{'task_id':1,'title':'Design post schema','agent_type':'BACKEND','requirements':'...','dependencies':[]}]".

Definition blog_task : value :=
  VDict [(lit "task_id", VInt 1);
         (lit "title", VStr (lit "Design post schema"));
         (lit "agent_type", VStr (lit "BACKEND"));
         (lit "requirements", VStr (lit "..."));
         (lit "dependencies", VList [])].

(** None of the four markers of the backend developer matches. *)
Definition no_backend_marker (content : pystr) : Prop :=
  section_search (lit "#") (lit "DATABASE MODELS") content = None
  /\ section_search (lit "#") (lit "API ROUTES") content = None
  /\ section_search (lit "#") (lit "BUSINESS LOGIC") content = None
  /\ section_search (lit "#") (lit "DEPENDENCIES") content = None.

(** None of the four markers of the frontend developer matches. *)
Definition no_frontend_marker (content : pystr) : Prop :=
  section_search (lit "//") (lit "REACT COMPONENT") content = None
  /\ section_search (lit "//") (lit "STYLES") content = None
  /\ section_search (lit "//") (lit "HOOKS & API") content = None
  /\ section_search (lit "//") (lit "DEPENDENCIES") content = None.

Definition pavi_task : value :=
  VDict [(lit "id", VInt 1);
         (lit "name", VStr (lit "Design post schema"));
         (lit "category", VStr (lit "BACKEND"));
         (lit "description", VStr (lit "Tables for posts and comments"));
         (lit "priority", VStr (lit "High"))].

(** What a generation stores: the task, the truthy code returned for it,
    and the time, under the key of that task. *)
Definition app_entry_ok {R : Runtime} (p : pystr * value) : Prop :=
  exists task i code now,
    snd p = App.entry task code now
    /\ App.task_key task i = Some (fst p)
    /\ truthy code = true.

Definition pavi_entry_ok {R : Runtime} (p : pystr * value) : Prop :=
  exists task idx code now,
    snd p = AppPavi.entry task code now
    /\ AppPavi.task_key task idx = Some (fst p)
    /\ truthy code = true.

(** In the examples the ids are ints, so that the [repr] of floats, lists
    and dicts is never asked for. *)
Definition plain_runtime : Runtime := fun _ => [].

Definition noon : datetime :=
  {| year := 2025; month := 3; day := 9;
     hour := 12; minute := 0; second := 5; microsecond := 0 |}.

Definition shop_reply : pystr :=
  dq "[{'task_id':2,'title':'Cart page','agent_type':'FRONTEND','requirements':'...','dependencies':[]}]".

Definition shop_task : value :=
  VDict [(lit "task_id", VInt 2);
         (lit "title", VStr (lit "Cart page"));
         (lit "agent_type", VStr (lit "FRONTEND"));
         (lit "requirements", VStr (lit "..."));
         (lit "dependencies", VList [])].

Definition blog_code : value :=
  VDict [(lit "database_schema", VStr (lit "class Post: pass"))].

(** Key, decomposition, one generation. *)
Definition blog_session : list App.event :=
  [App.EnterKey (lit "sk-test");
   App.Decompose (lit "Build a blog with posts and comments")
     (Content blog_reply);
   App.Generate 0 (Content (dq "{'database_schema': 'class Post: pass'}"))
     noon].

Definition blog_state : App.state :=
  {| App.tasks := VList [blog_task];
     App.generated_code :=
       [(lit "task_1", App.entry blog_task blog_code noon)];
     App.api_key := lit "sk-test";
     App.project_brief := Some (lit "Build a blog with posts and comments") |}.

(** The same, followed by the decomposition of another brief. *)
Definition stale_state : App.state :=
  {| App.tasks := VList [shop_task];
     App.generated_code :=
       [(lit "task_1", App.entry blog_task blog_code noon)];
     App.api_key := lit "sk-test";
     App.project_brief := Some (lit "Build a shop") |}.

Definition pavi_reply : pystr :=
  dq "[{'id':1,'name':'Design post schema','category':'BACKEND','description':'Tables for posts and comments','priority':'High'}]".

Definition pavi_code : value :=
  VDict [(lit "models", VStr (lit "class Post: pass"));
         (lit "routes", VStr []);
         (lit "logic", VStr []);
         (lit "dependencies", VStr [])].

Definition pavi_session : list AppPavi.event :=
  [AppPavi.EnterKey (lit "sk-test");
   AppPavi.Analyze (lit "Build a blog with posts and comments")
     (Content pavi_reply);
   AppPavi.Generate AppPavi.AllTasks 0
     (Content (lit "# === DATABASE MODELS === class Post: pass")) noon].

Definition pavi_state : AppPavi.state :=
  {| AppPavi.task_list := VList [pavi_task];
     AppPavi.code_outputs :=
       [(lit "task_1", AppPavi.entry pavi_task pavi_code noon)];
     AppPavi.openai_key := lit "sk-test";
     AppPavi.project_description :=
       lit "Build a blog with posts and comments" |}.

(** The blog session, regenerated: the key has no record. *)
Definition regenerated_state : App.state :=
  {| App.tasks := VList [blog_task];
     App.generated_code := [];
     App.api_key := lit "sk-test";
     App.project_brief := Some (lit "Build a blog with posts and comments") |}.

(** The record of the backend developer: four strings. *)
Definition backend_record (code : value) : Prop :=
  exists a b c d,
    code = VDict [(lit "models", VStr a); (lit "routes", VStr b);
                  (lit "logic", VStr c); (lit "dependencies", VStr d)].

(** The record of the frontend developer: four strings. *)
Definition frontend_record (code : value) : Prop :=
  exists a b c d,
    code = VDict [(lit "component", VStr a); (lit "styles", VStr b);
                  (lit "hooks", VStr c); (lit "dependencies", VStr d)].

(** What app_pavi.py stores: a dict task that has the fields of the
    prompt, with the record of the developer its category selects. *)
Definition pavi_entry_shape (p : pystr * value) : Prop :=
  exists task code now,
    snd p = AppPavi.entry task code now
    /\ AppPavi.is_dict task = true
    /\ AppPavi.prompt_fields task <> None
    /\ match AppPavi.select_developer task with
       | AppPavi.BackendDeveloper => backend_record code
       | AppPavi.FrontendDeveloper => frontend_record code
       end.

(** What app.py stores: a dict task that has the fields of the prompt. *)
Definition app_entry_shape (p : pystr * value) : Prop :=
  exists task code now,
    snd p = App.entry task code now
    /\ App.is_dict task = true
    /\ App.prompt_fields task <> None.

(** The task is dispatched to the backend generator. *)
Definition app_to_backend (t : value) : bool :=
  match App.select_agent t with
  | App.BackendAgent => true
  | App.FrontendAgent => false
  end.

Definition pavi_to_backend (t : value) : bool :=
  match AppPavi.select_developer t with
  | AppPavi.BackendDeveloper => true
  | AppPavi.FrontendDeveloper => false
  end.

(** Two tasks of one batch with the same id. *)
Definition twin_state : App.state :=
  {| App.tasks :=
       VList [blog_task;
              VDict [(lit "task_id", VInt 1);
                     (lit "title", VStr (lit "Post form"));
                     (lit "agent_type", VStr (lit "FRONTEND"));
                     (lit "requirements", VStr (lit "..."))]];
     App.generated_code :=
       [(lit "task_1", App.entry blog_task blog_code noon)];
     App.api_key := lit "sk-test";
     App.project_brief := Some (lit "Build a blog with posts and comments") |}.

(** The blog brief analysed by app_pavi.py, nothing generated yet. *)
Definition analyzed_state : AppPavi.state :=
  {| AppPavi.task_list := VList [pavi_task];
     AppPavi.code_outputs := [];
     AppPavi.openai_key := lit "sk-test";
     AppPavi.project_description :=
       lit "Build a blog with posts and comments" |}.

(** A frontend task of app_pavi.py without an id. *)
Definition form_task : value :=
  VDict [(lit "name", VStr (lit "Post form"));
         (lit "category", VStr (lit "FRONTEND"));
         (lit "description", VStr (lit "A form for new posts"))].

(** A task whose category is neither BACKEND nor FRONTEND. *)
Definition docs_task : value :=
  VDict [(lit "id", VInt 3);
         (lit "name", VStr (lit "Write the docs"));
         (lit "category", VStr (lit "DOCS"));
         (lit "description", VStr (lit "A readme"))].

Definition mixed_state : AppPavi.state :=
  {| AppPavi.task_list := VList [pavi_task; form_task; docs_task];
     AppPavi.code_outputs := [];
     AppPavi.openai_key := lit "sk-test";
     AppPavi.project_description :=
       lit "Build a blog with posts and comments" |}.

(** A section text that is not empty, is trimmed and does not hold the
    first character of the marker. *)
Definition plain_section (c0 : N) (x : pystr) : Prop :=
  x <> [] /\ strip x = x /\ ~ In c0 x.

(** A reply laid out as the prompt of the backend developer asks. *)
Definition backend_reply (a b c d : pystr) : pystr :=
  lit "# === DATABASE MODELS ===" ++ 10 :: a ++ 10 ::
  lit "# === API ROUTES ===" ++ 10 :: b ++ 10 ::
  lit "# === BUSINESS LOGIC ===" ++ 10 :: c ++ 10 ::
  lit "# === DEPENDENCIES ===" ++ 10 :: d.

(** A reply laid out as the prompt of the frontend developer asks. *)
Definition frontend_reply (a b c d : pystr) : pystr :=
  lit "// === REACT COMPONENT ===" ++ 10 :: a ++ 10 ::
  lit "// === STYLES ===" ++ 10 :: b ++ 10 ::
  lit "// === HOOKS & API ===" ++ 10 :: c ++ 10 ::
  lit "// === DEPENDENCIES ===" ++ 10 :: d.

(** The span of the specification: the part of the text from its first
    opening square bracket to its last closing one, or the whole text
    when it lacks one of the two. *)
Inductive spec_span (content : pystr) : pystr -> Prop :=
| span_brackets pre mid post :
    content = pre ++ 91 :: mid ++ 93 :: post ->
    ~ In 91 pre -> ~ In 93 post ->
    spec_span content (91 :: mid ++ [93])
| span_whole :
    ~ In 91 content \/ ~ In 93 content ->
    spec_span content content.

(** An empty array inside [n] arrays, and the value it stands for. *)
Fixpoint nested_array (n : nat) : pystr :=
  match n with
  | O => [91; 93]
  | S k => 91 :: nested_array k ++ [93]
  end.

Fixpoint nested_value (n : nat) : value :=
  match n with
  | O => VList []
  | S k => VList [nested_value k]
  end.

(** Limits for the examples: room for a hundred nested arrays and
    objects, and the lowest digit limit the interpreter can be set to. *)
Definition example_limits : limits :=
  {| max_nesting := 100; int_max_str_digits := 640 |}.

(** An array of one integer of 641 digits. *)
Definition long_integer_reply : pystr :=
  91 :: 49 :: repeat 48 640 ++ [93].

(** The array of the blog scenario with prose around it. *)
Definition prose_reply : pystr :=
  lit "Here are the tasks: " ++ blog_reply ++ lit " Let me know!".

(** The keys of a list of rows of which the first is at position [a]. *)
Definition keys_from (key_of : value -> nat -> option pystr) (a : nat)
  (l : list value) : list pystr :=
  flat_map (fun '(i, t) =>
              match key_of t i with
              | Some k => [k]
              | None => []
              end)
           (combine (seq a (List.length l)) l).

Definition cart_reply : pystr :=
  dq "[{'id':2,'name':'Cart page','category':'FRONTEND','description':'The cart of the shop','priority':'Low'}]".

Definition cart_task : value :=
  VDict [(lit "id", VInt 2);
         (lit "name", VStr (lit "Cart page"));
         (lit "category", VStr (lit "FRONTEND"));
         (lit "description", VStr (lit "The cart of the shop"));
         (lit "priority", VStr (lit "Low"))].

(** The blog session of app_pavi.py followed by the analysis of another
    description: one task, and one artifact that is not its own. *)
Definition pavi_stale_state : AppPavi.state :=
  {| AppPavi.task_list := VList [cart_task];
     AppPavi.code_outputs :=
       [(lit "task_1", AppPavi.entry pavi_task pavi_code noon)];
     AppPavi.openai_key := lit "sk-test";
     AppPavi.project_description := lit "Build a shop" |}.

(** The dict of an export: the description, the task list, the mapping
    and the time of the export. *)
Definition export_dict (project : pystr) (tasks : list value)
  (generated_code : dict) (now : datetime) : value :=
  VDict [(lit "project", VStr project);
         (lit "tasks", VList tasks);
         (lit "generated_code", VDict generated_code);
         (lit "timestamp", VStr (isoformat now))].

(** The layout of an export document: an object of four keys, one to a
    line and two spaces in, each before the text of its value. *)
Definition export_text (project tasks generated_code timestamp : pystr)
  : pystr :=
  lit "{" ++ 10 :: dq "  'project': " ++ project ++
  lit "," ++ 10 :: dq "  'tasks': " ++ tasks ++
  lit "," ++ 10 :: dq "  'generated_code': " ++ generated_code ++
  lit "," ++ 10 :: dq "  'timestamp': " ++ timestamp ++
  10 :: lit "}".

(** A character that [json.dumps] writes as it is. *)
Definition plain_char (c : N) : bool :=
  (32 <=? c) && (c <=? 126) && negb (c =? 34) && negb (c =? 92).

(** * Properties *)

Ltac break_match :=
  match goal with
  | |- context [match ?x with _ => _ end] => destruct x eqn:?
  | H : context [match ?x with _ => _ end] |- _ => destruct x eqn:?
  end.

(** ** Strings and dicts *)
Lemma str_eqb_eq (a b : pystr) : str_eqb a b = true <-> a = b.
Proof.
  revert b; induction a as [|x a IH]; intros [|y b]; simpl;
    try (split; congruence).
  rewrite andb_true_iff, N.eqb_eq, IH. split.
  - intros [-> ->]; reflexivity.
  - intros E; inversion E; auto.
Qed.

Lemma str_eqb_refl (a : pystr) : str_eqb a a = true.
Proof. apply str_eqb_eq; reflexivity. Qed.

Lemma str_eqb_neq (a b : pystr) : a <> b -> str_eqb a b = false.
Proof.
  intros Hn. destruct (str_eqb a b) eqn:E; [|reflexivity].
  apply str_eqb_eq in E. contradiction.
Qed.

Lemma dict_get_set_same k v d : dict_get k (dict_set k v d) = Some v.
Proof.
  induction d as [|[k' v'] d IH]; simpl.
  - rewrite str_eqb_refl; reflexivity.
  - destruct (str_eqb k k') eqn:E; simpl; rewrite E; auto.
Qed.

Lemma dict_get_set_other k k' v d :
  k' <> k -> dict_get k' (dict_set k v d) = dict_get k' d.
Proof.
  intros Hn. induction d as [|[k0 v0] d IH]; simpl.
  - rewrite (str_eqb_neq _ _ Hn); reflexivity.
  - destruct (str_eqb k k0) eqn:E; simpl.
    + apply str_eqb_eq in E; subst k0.
      rewrite (str_eqb_neq _ _ Hn); reflexivity.
    + rewrite IH; reflexivity.
Qed.

Lemma dict_get_del_same k d : dict_get k (dict_del k d) = None.
Proof.
  induction d as [|[k' v'] d IH]; simpl; auto.
  destruct (str_eqb k k') eqn:E; simpl; [|rewrite E]; auto.
Qed.

Lemma dict_get_del_other k k' d :
  k' <> k -> dict_get k' (dict_del k d) = dict_get k' d.
Proof.
  intros Hn. induction d as [|[k0 v0] d IH]; simpl; auto.
  destruct (str_eqb k k0) eqn:E; simpl.
  - apply str_eqb_eq in E; subst k0.
    rewrite (str_eqb_neq _ _ Hn); exact IH.
  - rewrite IH; reflexivity.
Qed.

Lemma dict_in_get k d : dict_in k d = true <-> dict_get k d <> None.
Proof.
  induction d as [|[k' v'] d IH]; simpl.
  - split; congruence.
  - destruct (str_eqb k k'); simpl; [split; congruence | exact IH].
Qed.

Lemma dict_in_false_get k d : dict_in k d = false -> dict_get k d = None.
Proof.
  intros E. destruct (dict_get k d) eqn:G; [|reflexivity].
  assert (dict_in k d = true) by (apply dict_in_get; congruence).
  congruence.
Qed.

Lemma dict_get_In k v d : dict_get k d = Some v -> In (k, v) d.
Proof.
  induction d as [|[k' v'] d IH]; simpl; [discriminate|].
  destruct (str_eqb k k') eqn:E.
  - apply str_eqb_eq in E; subst. intros [= ->]; auto.
  - auto.
Qed.

Lemma Forall_dict_set (P : pystr * value -> Prop) k v d :
  P (k, v) -> Forall P d -> Forall P (dict_set k v d).
Proof.
  intros Hv. induction 1 as [|[k0 v0] d H0 Hd IH]; simpl.
  - constructor; auto.
  - destruct (str_eqb k k0) eqn:E; constructor; auto.
    apply str_eqb_eq in E; subst k0; exact Hv.
Qed.

Lemma Forall_dict_del (P : pystr * value -> Prop) k d :
  Forall P d -> Forall P (dict_del k d).
Proof.
  induction 1 as [|[k0 v0] d H0 Hd IH]; simpl; auto.
  destruct (str_eqb k k0); auto.
Qed.

Lemma dict_set_keys k v d k' :
  dict_in k' (dict_set k v d) = true -> dict_in k' d = true \/ k' = k.
Proof.
  induction d as [|[k0 v0] d IH]; simpl.
  - rewrite orb_false_r. intros E; right; apply str_eqb_eq; exact E.
  - destruct (str_eqb k k0) eqn:E; simpl; auto.
    rewrite !orb_true_iff. intros [E'|E']; auto.
    destruct (IH E'); auto.
Qed.

(** ** Dispatch and reset *)
Lemma eq_str_true (v : value) (s : pystr) :
  eq_str v s = true <-> v = VStr s.
Proof.
  destruct v; simpl; try (split; congruence).
  rewrite str_eqb_eq. split; congruence.
Qed.

(** C10: the backend generator is chosen exactly when the task's
    [agent_type] (app.py) or [category] (app_pavi.py) is the string
    [BACKEND]; any other value, and a missing field, gives the frontend
    generator. *)
Theorem dispatch_backend_iff_exact_string :
  (forall d : dict,
      (App.select_agent (VDict d) = App.BackendAgent <->
       dict_get (lit "agent_type") d = Some (VStr (lit "BACKEND")))
      /\ (App.select_agent (VDict d) = App.FrontendAgent <->
          dict_get (lit "agent_type") d <> Some (VStr (lit "BACKEND"))))
  /\
  (forall d : dict,
      (AppPavi.select_developer (VDict d) = AppPavi.BackendDeveloper <->
       dict_get (lit "category") d = Some (VStr (lit "BACKEND")))
      /\ (AppPavi.select_developer (VDict d) = AppPavi.FrontendDeveloper <->
          dict_get (lit "category") d <> Some (VStr (lit "BACKEND")))).
Proof.
  split; intros d.
  - unfold App.select_agent, get_default.
    destruct (dict_get (lit "agent_type") d) as [v|].
    + destruct (eq_str v (lit "BACKEND")) eqn:E.
      * apply eq_str_true in E; subst v.
        split; split; congruence.
      * assert (v <> VStr (lit "BACKEND")) as Hn
            by (intros ->; rewrite (proj2 (eq_str_true _ _)) in E; congruence).
        split; split; congruence.
    + simpl. split; split; congruence.
  - unfold AppPavi.select_developer, get_default.
    destruct (dict_get (lit "category") d) as [v|].
    + destruct (eq_str v (lit "BACKEND")) eqn:E.
      * apply eq_str_true in E; subst v.
        split; split; congruence.
      * assert (v <> VStr (lit "BACKEND")) as Hn
            by (intros ->; rewrite (proj2 (eq_str_true _ _)) in E; congruence).
        split; split; congruence.
    + simpl. split; split; congruence.
Qed.

(** C7: the reset handler ("Clear All Tasks" in app.py, "Reset Everything"
    in app_pavi.py) leaves an empty task list and an empty artifact
    mapping, so that no key has an artifact and none is rendered; it is
    what the reset event runs from any state. *)
Theorem reset_yields_empty_store :
  (forall s : App.state,
      App.tasks (App.clear_all s) = VList []
      /\ App.generated_code (App.clear_all s) = []
      /\ (forall k, dict_get k (App.generated_code (App.clear_all s)) = None)
      /\ App.rendered (App.clear_all s) = []
      /\ forall R : Runtime, App.step s App.ClearAll = Some (App.clear_all s))
  /\
  (forall s : AppPavi.state,
      AppPavi.task_list (AppPavi.reset s) = VList []
      /\ AppPavi.code_outputs (AppPavi.reset s) = []
      /\ (forall k,
             dict_get k (AppPavi.code_outputs (AppPavi.reset s)) = None)
      /\ AppPavi.rendered (AppPavi.reset s) = []
      /\ forall R : Runtime,
          AppPavi.step s AppPavi.Reset =
          if AppPavi.stats_ok s then Some (AppPavi.reset s) else None).
Proof.
  split; intros s.
  - repeat split; simpl; auto.
    unfold App.rendered; simpl. destruct (App.nonempty _); reflexivity.
  - repeat split; simpl; auto.
    unfold AppPavi.rendered; simpl.
    destruct (_ && _); reflexivity.
Qed.

(** ** [json.loads] has fuel enough *)

Lemma skip_ws_length s : (List.length (skip_ws s) <= List.length s)%nat.
Proof.
  induction s as [|c s IH]; simpl; [lia|].
  destruct (is_ws c); simpl; lia.
Qed.

Lemma scanstring_length n : forall s acc x r,
  (List.length s <= n)%nat ->
  scanstring s acc = Some (x, r) -> (List.length r <= List.length s)%nat.
Proof.
  induction n as [|n IH]; intros s acc x r Hn Hs;
    (destruct s as [|c s]; [discriminate Hs|]); simpl in Hn; [lia|].
  simpl in Hs.
  repeat (cbv beta match in Hs;
          match type of Hs with
          | None = Some _ => discriminate Hs
          | Some _ = Some _ => fail 1
          | scanstring _ _ = Some _ => fail 1
          | context [match ?x with _ => _ end] =>
              (is_var x; destruct x) || destruct x eqn:?
          end).
  all: try (inversion Hs; subst; simpl; lia).
  all: apply IH in Hs; simpl in *; lia.
Qed.

Lemma digits_length s : forall m n m' n' r,
  digits s m n = (m', n', r) -> (List.length r <= List.length s)%nat.
Proof.
  induction s as [|c s IH]; simpl; intros m n m' n' r Hd.
  - inversion Hd; simpl; lia.
  - destruct (is_digit c).
    + apply IH in Hd. lia.
    + inversion Hd; simpl; lia.
Qed.

Lemma after_prefix_length p : forall s r,
  after_prefix p s = Some r -> (List.length r <= List.length s)%nat.
Proof.
  induction p as [|x p IH]; intros [|y s] r; simpl; try discriminate.
  - intros [= <-]; simpl; lia.
  - intros [= <-]; simpl; lia.
  - destruct (x =? y); [|discriminate]. intros Hp. apply IH in Hp. lia.
Qed.

Lemma int_part_length s m r :
  int_part s = Some (m, r) -> (List.length r <= List.length s)%nat.
Proof.
  unfold int_part. destruct s as [|c s]; [discriminate|].
  destruct (c =? 48); [intros [= _ <-]; simpl; lia|].
  destruct (is_digit c); [|discriminate].
  destruct (digits s (c - 48) 0) as [[m0 k] r0] eqn:Ed.
  intros [= _ <-]. apply digits_length in Ed. simpl; lia.
Qed.

Lemma frac_part_length m s m' k r :
  frac_part m s = Some (m', k, r) -> (List.length r <= List.length s)%nat.
Proof.
  unfold frac_part. destruct s as [|dot [|c s]]; try discriminate.
  destruct (_ && _); [|discriminate].
  destruct (digits (c :: s) m 0) as [[m0 k0] r0] eqn:Hd.
  intros [= _ _ <-]. apply digits_length in Hd. simpl in *; lia.
Qed.

Lemma exp_part_length s e r :
  exp_part s = Some (e, r) -> (List.length r <= List.length s)%nat.
Proof.
  unfold exp_part. destruct s as [|c s]; [discriminate|].
  destruct (_ || _); [|discriminate].
  destruct s as [|sg [|d s]]; [discriminate| |].
  - destruct (is_digit sg); [|discriminate].
    destruct (digits [sg] 0 0) as [[x k] r0] eqn:Ed.
    intros [= _ <-]. apply digits_length in Ed. simpl in *; lia.
  - destruct (_ && _).
    + destruct (digits (d :: s) 0 0) as [[x k] r0] eqn:Ed.
      intros [= _ <-]. apply digits_length in Ed. simpl in *; lia.
    + destruct (is_digit sg); [|discriminate].
      destruct (digits (sg :: d :: s) 0 0) as [[x k] r0] eqn:Ed.
      intros [= _ <-]. apply digits_length in Ed. simpl in *; lia.
Qed.

Lemma match_number_length s v r :
  match_number s = Some (v, r) -> (List.length r <= List.length s)%nat.
Proof.
  unfold match_number.
  set (p := match s with
            | [] => (false, s)
            | c :: r0 => if c =? 45 then (true, r0) else (false, s)
            end).
  assert (List.length (snd p) <= List.length s)%nat as Hp.
  { subst p. destruct s as [|c s]; simpl; [lia|].
    destruct (c =? 45); simpl; lia. }
  destruct p as [neg s1]; simpl in Hp.
  destruct (int_part s1) as [[m s2]|] eqn:Ei; [|discriminate].
  apply int_part_length in Ei.
  destruct (frac_part m s2) as [[[m' k] s3]|] eqn:Ef.
  - apply frac_part_length in Ef.
    destruct (exp_part s3) as [[e s4]|] eqn:Ee.
    + apply exp_part_length in Ee. intros [= _ <-]; lia.
    + intros [= _ <-]; lia.
  - destruct (exp_part s2) as [[e s4]|] eqn:Ee.
    + apply exp_part_length in Ee. intros [= _ <-]; lia.
    + intros [= _ <-]; lia.
Qed.

Lemma keyword_length w v0 s v r :
  keyword w v0 s = Some (v, r) -> (List.length r <= List.length s)%nat.
Proof.
  unfold keyword. destruct (after_prefix _ s) as [r0|] eqn:E; [|discriminate].
  intros [= _ <-]. eapply after_prefix_length; eauto.
Qed.

Lemma constant_length s v r :
  constant s = Some (v, r) -> (List.length r <= List.length s)%nat.
Proof.
  unfold constant, or_else. intros Hc.
  repeat match type of Hc with
         | context [match keyword ?w ?v0 s with _ => _ end] =>
             let E := fresh "E" in
             destruct (keyword w v0 s) as [[? ?]|] eqn:E;
             [inversion Hc; subst; eapply keyword_length; exact E|]
         end.
  eapply keyword_length; exact Hc.
Qed.

Lemma scan_fuel (f : nat) :
  (forall s f', (2 * List.length s < f)%nat -> (2 * List.length s < f')%nat ->
                scan_once f s = scan_once f' s)
  /\ (forall s acc f',
         (2 * List.length s + 1 < f)%nat -> (2 * List.length s + 1 < f')%nat ->
         parse_members f s acc = parse_members f' s acc)
  /\ (forall s acc f',
         (2 * List.length s + 1 < f)%nat -> (2 * List.length s + 1 < f')%nat ->
         parse_elements f s acc = parse_elements f' s acc)
  /\ (forall s v r, scan_once f s = Some (v, r) ->
                    (List.length r <= List.length s)%nat)
  /\ (forall s acc v r, parse_members f s acc = Some (v, r) ->
                        (List.length r <= List.length s)%nat)
  /\ (forall s acc v r, parse_elements f s acc = Some (v, r) ->
                        (List.length r <= List.length s)%nat).
Proof.
  induction f as [|f (IH1 & IH2 & IH3 & IH4 & IH5 & IH6)].
  { repeat split; intros; simpl in *; try lia; discriminate. }
  split; [|split; [|split; [|split; [|split]]]].
  - intros s f' H1 H2. destruct f' as [|f']; [lia|]. simpl.
    destruct s as [|c r]; [reflexivity|]. simpl in H1, H2.
    destruct (c =? 34); [reflexivity|].
    pose proof (skip_ws_length r) as Hw.
    destruct (c =? 123).
    { destruct (skip_ws r) as [|c' r']; [reflexivity|].
      destruct (c' =? 125); [reflexivity|].
      apply IH2; simpl in *; lia. }
    destruct (c =? 91); [|reflexivity].
    destruct (skip_ws r) as [|c' r']; [reflexivity|].
    destruct (c' =? 93); [reflexivity|].
    apply IH3; simpl in *; lia.
  - intros s acc f' H1 H2. destruct f' as [|f']; [lia|]. simpl.
    destruct s as [|q r]; [reflexivity|]. simpl in H1, H2.
    destruct (q =? 34); [|reflexivity].
    destruct (scanstring r []) as [[key r1]|] eqn:Es; [|reflexivity].
    apply (scanstring_length _ _ _ _ _ (le_n _)) in Es.
    pose proof (skip_ws_length r1) as Hw1.
    destruct (skip_ws r1) as [|colon r2]; [reflexivity|].
    destruct (colon =? 58); [|reflexivity].
    pose proof (skip_ws_length r2) as Hw2.
    rewrite <- (IH1 (skip_ws r2) f') by (simpl in *; lia).
    destruct (scan_once f (skip_ws r2)) as [[v r3]|] eqn:E3; [|reflexivity].
    apply IH4 in E3.
    pose proof (skip_ws_length r3) as Hw3.
    destruct (skip_ws r3) as [|c r4]; [reflexivity|].
    destruct (c =? 125); [reflexivity|].
    destruct (c =? 44); [|reflexivity].
    pose proof (skip_ws_length r4) as Hw4.
    apply IH2; simpl in *; lia.
  - intros s acc f' H1 H2. destruct f' as [|f']; [lia|]. simpl.
    rewrite <- (IH1 s f') by lia.
    destruct (scan_once f s) as [[v r]|] eqn:E; [|reflexivity].
    apply IH4 in E.
    pose proof (skip_ws_length r) as Hw.
    destruct (skip_ws r) as [|c r']; [reflexivity|].
    destruct (c =? 93); [reflexivity|].
    destruct (c =? 44); [|reflexivity].
    pose proof (skip_ws_length r') as Hw'.
    apply IH3; simpl in *; lia.
  - intros s v r. simpl.
    destruct s as [|c s]; [discriminate|].
    destruct (c =? 34).
    { destruct (scanstring s []) as [[x r']|] eqn:Es; [|discriminate].
      apply (scanstring_length _ _ _ _ _ (le_n _)) in Es.
      intros [= _ <-]. simpl; lia. }
    pose proof (skip_ws_length s) as Hw.
    destruct (c =? 123).
    { destruct (skip_ws s) as [|c' r']; [discriminate|].
      destruct (c' =? 125); [intros [= _ <-]; simpl in *; lia|].
      intros Hp. apply IH5 in Hp. simpl in *; lia. }
    destruct (c =? 91).
    { destruct (skip_ws s) as [|c' r']; [discriminate|].
      destruct (c' =? 93); [intros [= _ <-]; simpl in *; lia|].
      intros Hp. apply IH6 in Hp. simpl in *; lia. }
    unfold or_else.
    destruct (constant (c :: s)) as [[v0 r0]|] eqn:Ec.
    + intros [= _ <-]. eapply constant_length; eauto.
    + apply match_number_length.
  - intros s acc v r. simpl.
    destruct s as [|q s]; [discriminate|].
    destruct (q =? 34); [|discriminate].
    destruct (scanstring s []) as [[key r1]|] eqn:Es; [|discriminate].
    apply (scanstring_length _ _ _ _ _ (le_n _)) in Es.
    pose proof (skip_ws_length r1) as Hw1.
    destruct (skip_ws r1) as [|colon r2]; [discriminate|].
    destruct (colon =? 58); [|discriminate].
    pose proof (skip_ws_length r2) as Hw2.
    destruct (scan_once f (skip_ws r2)) as [[v0 r3]|] eqn:E3; [|discriminate].
    apply IH4 in E3.
    pose proof (skip_ws_length r3) as Hw3.
    destruct (skip_ws r3) as [|c r4]; [discriminate|].
    destruct (c =? 125); [intros [= _ <-]; simpl in *; lia|].
    destruct (c =? 44); [|discriminate].
    pose proof (skip_ws_length r4) as Hw4.
    intros Hp. apply IH5 in Hp. simpl in *; lia.
  - intros s acc v r. simpl.
    destruct (scan_once f s) as [[v0 r0]|] eqn:E; [|discriminate].
    apply IH4 in E.
    pose proof (skip_ws_length r0) as Hw.
    destruct (skip_ws r0) as [|c r']; [discriminate|].
    destruct (c =? 93); [intros [= _ <-]; simpl in *; lia|].
    destruct (c =? 44); [|discriminate].
    pose proof (skip_ws_length r') as Hw'.
    intros Hp. apply IH6 in Hp. simpl in *; lia.
Qed.

(** [loads] gives [scan_once] enough fuel: more changes nothing. *)
Lemma scan_once_fuel s f :
  (fuel_for s <= f)%nat -> scan_once f s = scan_once (fuel_for s) s.
Proof.
  intros Hf. unfold fuel_for in *.
  apply (proj1 (scan_fuel f)); lia.
Qed.

(** ** The task decomposer *)




Lemma bracket_search_absent opening close s :
  ~ In opening s -> bracket_search opening close s = None.
Proof.
  induction s as [|c s IH]; simpl; auto.
  intros Hn. destruct (c =? opening) eqn:E.
  - apply N.eqb_eq in E. tauto.
  - apply IH. tauto.
Qed.

Lemma parse_members_dict f : forall s acc v r,
  parse_members f s acc = Some (v, r) -> exists d, v = VDict d.
Proof.
  induction f as [|f IH]; simpl; intros s acc v r Hp; [discriminate|].
  repeat (break_match; try discriminate).
  - inversion Hp; eauto.
  - eapply IH; eauto.
Qed.






Lemma decompose_project_span brief reply :
  App.decompose_project brief (Content reply) =
  match loads (extract_span 91 93 (strip reply)) with
  | Some tasks => tasks
  | None => VList []
  end.
Proof.
  unfold App.decompose_project, extract_span.
  destruct (bracket_search 91 93 (strip reply)); reflexivity.
Qed.

Lemma analyze_and_breakdown_span description reply :
  AppPavi.analyze_and_breakdown description (Content reply) =
  match loads (extract_span 91 93 (strip reply)) with
  | Some tasks => tasks
  | None => VList []
  end.
Proof.
  unfold AppPavi.analyze_and_breakdown, extract_span.
  destruct (bracket_search 91 93 (strip reply)); reflexivity.
Qed.




(** ** The code generators *)

(** The scenario of the specification: a reply that holds only the models
    section. *)
Example backend_models_only :
  AppPavi.BackendDeveloper_create_implementation pavi_task (lit "A blog")
    (Content (lit "# === DATABASE MODELS === class Post: pass"))
  = Some (VDict [(lit "models", VStr (lit "class Post: pass"));
                 (lit "routes", VStr []);
                 (lit "logic", VStr []);
                 (lit "dependencies", VStr [])]).
Proof. vm_compute; reflexivity. Qed.

(** The claim C1 as the specification words it fails for the backend
    developer: without any marker the three other fields are not empty. *)
Lemma backend_fallback_counterexample :
  let reply := lit "  class Post: pass " in
  no_backend_marker (strip reply)
  /\ exists d,
      AppPavi.BackendDeveloper_create_implementation pavi_task (lit "A blog")
        (Content reply) = Some (VDict d)
      /\ dict_get (lit "models") d = Some (VStr (lit "class Post: pass"))
      /\ dict_get (lit "routes") d = Some (VStr (lit "# Code generated above"))
      /\ dict_get (lit "routes") d <> Some (VStr []).
Proof.
  cbv zeta. split.
  - repeat split; vm_compute; reflexivity.
  - eexists. split; [vm_compute; reflexivity|].
    repeat split; vm_compute; congruence.
Qed.

(** C1, amended: when none of the variant's four markers matches in the
    trimmed reply, the first field of the result holds the whole trimmed
    reply; the other three fields are empty in the frontend variant, and
    hold fixed comments in the backend variant. *)
Theorem fallback_when_no_marker (task : value) (context reply : pystr) :
  AppPavi.prompt_fields task <> None ->
  (no_backend_marker (strip reply) ->
   AppPavi.BackendDeveloper_create_implementation task context (Content reply)
   = Some (VDict [(lit "models", VStr (strip reply));
                  (lit "routes", VStr (lit "# Code generated above"));
                  (lit "logic", VStr (lit "# Code generated above"));
                  (lit "dependencies",
                   VStr (lit "# Check requirements above"))]))
  /\
  (no_frontend_marker (strip reply) ->
   AppPavi.FrontendDeveloper_create_implementation task context (Content reply)
   = Some (VDict [(lit "component", VStr (strip reply));
                  (lit "styles", VStr []);
                  (lit "hooks", VStr []);
                  (lit "dependencies", VStr [])])).
Proof.
  intros Hp.
  unfold AppPavi.BackendDeveloper_create_implementation,
    AppPavi.FrontendDeveloper_create_implementation.
  destruct (AppPavi.prompt_fields task); [|congruence].
  split.
  - intros (H1 & H2 & H3 & H4).
    unfold AppPavi.backend_sections, AppPavi.section.
    rewrite H1, H2, H3, H4. reflexivity.
  - intros (H1 & H2 & H3 & H4).
    unfold AppPavi.frontend_sections, AppPavi.section.
    rewrite H1, H2, H3, H4. reflexivity.
Qed.

Lemma fallback_when_no_marker_witness :
  AppPavi.prompt_fields pavi_task <> None
  /\ no_backend_marker (strip (lit "  class Post: pass "))
  /\ no_frontend_marker (strip (lit "  class Post: pass "))
  /\ AppPavi.BackendDeveloper_create_implementation pavi_task (lit "A blog")
       (Content (lit "  class Post: pass "))
     = Some (VDict [(lit "models", VStr (lit "class Post: pass"));
                    (lit "routes", VStr (lit "# Code generated above"));
                    (lit "logic", VStr (lit "# Code generated above"));
                    (lit "dependencies",
                     VStr (lit "# Check requirements above"))])
  /\ AppPavi.FrontendDeveloper_create_implementation pavi_task (lit "A blog")
       (Content (lit "  class Post: pass "))
     = Some (VDict [(lit "component", VStr (lit "class Post: pass"));
                    (lit "styles", VStr []);
                    (lit "hooks", VStr []);
                    (lit "dependencies", VStr [])]).
Proof.
  assert (AppPavi.prompt_fields pavi_task <> None) as Hp
      by (vm_compute; discriminate).
  assert (no_backend_marker (strip (lit "  class Post: pass "))) as Hb
      by (repeat split; vm_compute; reflexivity).
  assert (no_frontend_marker (strip (lit "  class Post: pass "))) as Hf
      by (repeat split; vm_compute; reflexivity).
  destruct (fallback_when_no_marker pavi_task (lit "A blog")
              (lit "  class Post: pass ") Hp) as [B F].
  split; [exact Hp|]. split; [exact Hb|]. split; [exact Hf|].
  split; [exact (B Hb) | exact (F Hf)].
Defined.

(** The claim C3 as the specification words it fails outside the backend
    developer: a failed call gives the empty record, which has no field
    and is falsy. *)
Lemma failed_generation_counterexample :
  AppPavi.FrontendDeveloper_create_implementation pavi_task (lit "A blog")
    Failed = Some (VDict [])
  /\ App.BackendAgent_generate_code blog_task (lit "A blog") Failed
     = Some (VDict [])
  /\ App.FrontendAgent_generate_code blog_task (lit "A blog") Failed
     = Some (VDict [])
  /\ subscript (VDict []) (lit "component") = None
  /\ truthy (VDict []) = false.
Proof. repeat split. Qed.

(** C3, amended: after a failed call the backend developer of app_pavi.py
    returns a record whose four fields hold the comment
    [# Error generating code]; the frontend developer of app_pavi.py and
    both agents of app.py return the empty record, the agents of app.py
    also when the reply does not parse. *)
Theorem failed_generation_results (context : pystr) :
  (forall task, AppPavi.prompt_fields task <> None ->
     AppPavi.BackendDeveloper_create_implementation task context Failed
     = Some (VDict [(lit "models", VStr (lit "# Error generating code"));
                    (lit "routes", VStr (lit "# Error generating code"));
                    (lit "logic", VStr (lit "# Error generating code"));
                    (lit "dependencies",
                     VStr (lit "# Error generating code"))])
     /\ AppPavi.FrontendDeveloper_create_implementation task context Failed
        = Some (VDict []))
  /\
  (forall task, App.prompt_fields task <> None ->
     App.BackendAgent_generate_code task context Failed = Some (VDict [])
     /\ App.FrontendAgent_generate_code task context Failed = Some (VDict [])
     /\ forall reply,
         loads (extract_span 123 125 (strip reply)) = None ->
         App.BackendAgent_generate_code task context (Content reply)
         = Some (VDict [])
         /\ App.FrontendAgent_generate_code task context (Content reply)
            = Some (VDict [])).
Proof.
  split; intros task Hp.
  - unfold AppPavi.BackendDeveloper_create_implementation,
      AppPavi.FrontendDeveloper_create_implementation.
    destruct (AppPavi.prompt_fields task); [|congruence].
    split; reflexivity.
  - unfold App.BackendAgent_generate_code, App.FrontendAgent_generate_code.
    destruct (App.prompt_fields task); [|congruence].
    split; [reflexivity|]. split; [reflexivity|].
    intros reply Hl. unfold App.parse_code.
    unfold extract_span in Hl.
    destruct (bracket_search 123 125 (strip reply)); rewrite Hl;
      split; reflexivity.
Qed.

Lemma failed_generation_results_witness :
  AppPavi.prompt_fields pavi_task <> None
  /\ App.prompt_fields blog_task <> None
  /\ loads (extract_span 123 125 (strip (lit "Sorry, no code."))) = None
  /\ AppPavi.BackendDeveloper_create_implementation pavi_task (lit "A blog")
       Failed = Some AppPavi.backend_error
  /\ AppPavi.FrontendDeveloper_create_implementation pavi_task (lit "A blog")
       Failed = Some (VDict [])
  /\ App.BackendAgent_generate_code blog_task (lit "A blog")
       (Content (lit "Sorry, no code.")) = Some (VDict []).
Proof.
  assert (AppPavi.prompt_fields pavi_task <> None) as Hp
      by (vm_compute; discriminate).
  assert (App.prompt_fields blog_task <> None) as Ha
      by (vm_compute; discriminate).
  assert (loads (extract_span 123 125 (strip (lit "Sorry, no code."))) = None)
    as Hl by (vm_compute; reflexivity).
  destruct (failed_generation_results (lit "A blog")) as [P A].
  destruct (P pavi_task Hp) as [P1 P2].
  destruct (A blog_task Ha) as (_ & _ & A3).
  destruct (A3 (lit "Sorry, no code.") Hl) as [A4 _].
  repeat split; assumption.
Defined.

(** ** The session store of app.py *)
Section AppSession.
Context {R : Runtime}.

Lemma app_row_inv s i task key :
  App.row s i = Some (task, key) ->
  exists l, App.tasks s = VList l
            /\ nth_error l i = Some task
            /\ App.task_key task i = Some key.
Proof.
  unfold App.row. intros Hr.
  repeat (break_match; try discriminate).
  inversion Hr; subst. eauto.
Qed.

Lemma app_generate_inv s i c now s' :
  App.generate s i c now = Some s' ->
  exists task key ctx code,
    App.row s i = Some (task, key)
    /\ dict_in key (App.generated_code s) = false
    /\ App.project_brief s = Some ctx
    /\ App.generate_code (App.select_agent task) task ctx c = Some code
    /\ ((truthy code = true
         /\ s' = {| App.tasks := App.tasks s;
                    App.generated_code :=
                      dict_set key (App.entry task code now)
                               (App.generated_code s);
                    App.api_key := App.api_key s;
                    App.project_brief := App.project_brief s |})
        \/ (truthy code = false /\ s' = s)).
Proof.
  unfold App.generate. intros Hg.
  destruct (App.row s i) as [[task key]|]; [|discriminate].
  destruct (dict_in key (App.generated_code s)) eqn:Hin; [discriminate|].
  destruct (App.project_brief s) as [ctx|]; [|discriminate].
  destruct (App.generate_code _ task ctx c) as [code|] eqn:Hc; [|discriminate].
  exists task, key, ctx, code. repeat split; auto.
  destruct (truthy code); inversion Hg; auto.
Qed.

Lemma app_regenerate_inv s i s' :
  App.regenerate s i = Some s' ->
  exists task key,
    App.row s i = Some (task, key)
    /\ dict_in key (App.generated_code s) = true
    /\ s' = {| App.tasks := App.tasks s;
               App.generated_code := dict_del key (App.generated_code s);
               App.api_key := App.api_key s;
               App.project_brief := App.project_brief s |}.
Proof.
  unfold App.regenerate. intros Hg.
  destruct (App.row s i) as [[task key]|]; [|discriminate].
  destruct (dict_in key (App.generated_code s)) eqn:Hin; [|discriminate].
  inversion Hg. eauto.
Qed.

Lemma app_step_entries s e s' :
  Forall app_entry_ok (App.generated_code s) ->
  App.step s e = Some s' ->
  Forall app_entry_ok (App.generated_code s').
Proof.
  intros Hs. destruct e as [key| |brief c|i c now|i]; simpl.
  - destruct (App.nonempty key); intros [= <-]; exact Hs.
  - intros [= <-]; constructor.
  - destruct (_ && _); [|discriminate]. intros [= <-].
    unfold App.decompose. destruct (truthy _); exact Hs.
  - intros Hg. apply app_generate_inv in Hg
      as (task & key & ctx & code & Hr & _ & _ & _ & [[Ht ->]|[_ ->]]);
      [|exact Hs].
    simpl. apply Forall_dict_set; [|exact Hs].
    apply app_row_inv in Hr as (l & _ & _ & Hk).
    exists task, i, code, now. auto.
  - intros Hg. apply app_regenerate_inv in Hg as (task & key & _ & _ & ->).
    simpl. apply Forall_dict_del; exact Hs.
Qed.

Lemma app_reachable_entries s :
  App.reachable s -> Forall app_entry_ok (App.generated_code s).
Proof.
  induction 1 as [|s e s' _ IH Hstep].
  - constructor.
  - eapply app_step_entries; eauto.
Qed.

Lemma app_run_reachable es : forall s s',
  App.reachable s -> App.run s es = Some s' -> App.reachable s'.
Proof.
  induction es as [|e es IH]; simpl; intros s s' Hs Hr.
  - inversion Hr; subst; exact Hs.
  - destruct (App.step s e) as [s1|] eqn:E; [|discriminate].
    eapply IH; [|exact Hr]. econstructor; eauto.
Qed.

Lemma app_combine_seq_nth (l : list value) : forall a i t,
  nth_error l i = Some t ->
  In ((a + i)%nat, t) (combine (seq a (List.length l)) l).
Proof.
  induction l as [|x l IH]; intros a [|i] t; simpl; try discriminate.
  - intros [= ->]. left. f_equal. lia.
  - intros Hn. right. replace (a + S i)%nat with (S a + i)%nat by lia.
    apply IH; exact Hn.
Qed.

Lemma app_row_keys_nth l i t k :
  nth_error l i = Some t -> App.task_key t i = Some k ->
  In k (App.row_keys l).
Proof.
  intros Hn Hk. unfold App.row_keys. apply in_flat_map.
  exists (i, t). split.
  - apply (app_combine_seq_nth l 0 i t Hn).
  - rewrite Hk. left; reflexivity.
Qed.

(** A run changes the record of a key in one of three ways only. *)
Lemma app_step_key s e s' k :
  App.step s e = Some s' ->
  dict_get k (App.generated_code s') = dict_get k (App.generated_code s)
  \/ dict_get k (App.generated_code s') = None
  \/ (dict_get k (App.generated_code s) = None
      /\ exists i c now task ctx code,
          e = App.Generate i c now
          /\ App.row s i = Some (task, k)
          /\ App.project_brief s = Some ctx
          /\ App.generate_code (App.select_agent task) task ctx c = Some code
          /\ dict_get k (App.generated_code s')
             = Some (App.entry task code now)).
Proof.
  destruct e as [key| |brief c|i c now|i]; simpl.
  - destruct (App.nonempty key); intros [= <-]; auto.
  - intros [= <-]; auto.
  - destruct (_ && _); [|discriminate]. intros [= <-].
    unfold App.decompose. destruct (truthy _); auto.
  - intros Hg. apply app_generate_inv in Hg
      as (task & key & ctx & code & Hr & Hin & Hb & Hc & [[Ht ->]|[_ ->]]);
      auto.
    simpl. destruct (list_eq_dec N.eq_dec k key) as [->|Hn].
    + right; right. split; [apply dict_in_false_get; exact Hin|].
      exists i, c, now, task, ctx, code.
      rewrite dict_get_set_same. auto 10.
    + left. apply dict_get_set_other; exact Hn.
  - intros Hg. apply app_regenerate_inv in Hg as (task & key & _ & _ & ->).
    simpl. destruct (list_eq_dec N.eq_dec k key) as [->|Hn].
    + right; left. apply dict_get_del_same.
    + left. apply dict_get_del_other; exact Hn.
Qed.

End AppSession.

(** ** The session store of app_pavi.py *)
Section PaviSession.
Context {R : Runtime}.

Lemma pavi_row_inv s f idx task key :
  AppPavi.row s f idx = Some (task, key) ->
  exists l, AppPavi.task_list s = VList l
            /\ nth_error (AppPavi.filtered_tasks f l) idx = Some task
            /\ AppPavi.task_key task idx = Some key.
Proof.
  unfold AppPavi.row. intros Hr.
  repeat (break_match; try discriminate).
  inversion Hr; subst. eauto.
Qed.

Lemma pavi_generate_inv s f idx c now s' :
  AppPavi.generate s f idx c now = Some s' ->
  exists task key code,
    AppPavi.row s f idx = Some (task, key)
    /\ dict_in key (AppPavi.code_outputs s) = false
    /\ AppPavi.create_implementation (AppPavi.select_developer task) task
         (AppPavi.project_description s) c = Some code
    /\ ((truthy code = true
         /\ s' = {| AppPavi.task_list := AppPavi.task_list s;
                    AppPavi.code_outputs :=
                      dict_set key (AppPavi.entry task code now)
                               (AppPavi.code_outputs s);
                    AppPavi.openai_key := AppPavi.openai_key s;
                    AppPavi.project_description :=
                      AppPavi.project_description s |})
        \/ (truthy code = false /\ s' = s)).
Proof.
  unfold AppPavi.generate. intros Hg.
  destruct (AppPavi.row s f idx) as [[task key]|]; [|discriminate].
  destruct (dict_in key (AppPavi.code_outputs s)) eqn:Hin; [discriminate|].
  destruct (AppPavi.create_implementation _ task _ c) as [code|] eqn:Hc;
    [|discriminate].
  exists task, key, code. repeat split; auto.
  destruct (truthy code); inversion Hg; auto.
Qed.

Lemma pavi_regenerate_inv s f idx s' :
  AppPavi.regenerate s f idx = Some s' ->
  exists task key,
    AppPavi.row s f idx = Some (task, key)
    /\ dict_in key (AppPavi.code_outputs s) = true
    /\ s' = {| AppPavi.task_list := AppPavi.task_list s;
               AppPavi.code_outputs :=
                 dict_del key (AppPavi.code_outputs s);
               AppPavi.openai_key := AppPavi.openai_key s;
               AppPavi.project_description :=
                 AppPavi.project_description s |}.
Proof.
  unfold AppPavi.regenerate. intros Hg.
  destruct (AppPavi.row s f idx) as [[task key]|]; [|discriminate].
  destruct (dict_in key (AppPavi.code_outputs s)) eqn:Hin; [|discriminate].
  inversion Hg. eauto.
Qed.

Lemma pavi_step_entries s e s' :
  Forall pavi_entry_ok (AppPavi.code_outputs s) ->
  AppPavi.step s e = Some s' ->
  Forall pavi_entry_ok (AppPavi.code_outputs s').
Proof.
  intros Hs. destruct e as [key| | |input c|f idx c now|f idx]; simpl.
  - destruct (AppPavi.nonempty key); intros [= <-]; exact Hs.
  - destruct (AppPavi.stats_ok s); [|discriminate].
    intros [= <-]; constructor.
  - destruct (_ && _); [|discriminate]. intros [= <-]; constructor.
  - destruct (_ && _); [|discriminate]. intros [= <-].
    unfold AppPavi.analyze.
    destruct (AppPavi.nonempty input); [|exact Hs].
    destruct (truthy _); exact Hs.
  - intros Hg. apply pavi_generate_inv in Hg
      as (task & key & code & Hr & _ & _ & [[Ht ->]|[_ ->]]);
      [|exact Hs].
    simpl. apply Forall_dict_set; [|exact Hs].
    apply pavi_row_inv in Hr as (l & _ & _ & Hk).
    exists task, idx, code, now. auto.
  - intros Hg. apply pavi_regenerate_inv in Hg as (task & key & _ & _ & ->).
    simpl. apply Forall_dict_del; exact Hs.
Qed.

Lemma pavi_reachable_entries s :
  AppPavi.reachable s -> Forall pavi_entry_ok (AppPavi.code_outputs s).
Proof.
  induction 1 as [|s e s' _ IH Hstep].
  - constructor.
  - eapply pavi_step_entries; eauto.
Qed.

Lemma pavi_run_reachable es : forall s s',
  AppPavi.reachable s -> AppPavi.run s es = Some s' -> AppPavi.reachable s'.
Proof.
  induction es as [|e es IH]; simpl; intros s s' Hs Hr.
  - inversion Hr; subst; exact Hs.
  - destruct (AppPavi.step s e) as [s1|] eqn:E; [|discriminate].
    eapply IH; [|exact Hr]. econstructor; eauto.
Qed.

Lemma pavi_row_keys_nth l i t k :
  nth_error l i = Some t -> AppPavi.task_key t i = Some k ->
  In k (AppPavi.row_keys l).
Proof.
  intros Hn Hk. unfold AppPavi.row_keys. apply in_flat_map.
  exists (i, t). split.
  - apply (app_combine_seq_nth l 0 i t Hn).
  - rewrite Hk. left; reflexivity.
Qed.

Lemma pavi_row_task_keys s f idx task key :
  AppPavi.row s f idx = Some (task, key) -> In key (AppPavi.task_keys s).
Proof.
  intros Hr. apply pavi_row_inv in Hr as (l & Hl & Hn & Hk).
  unfold AppPavi.task_keys. rewrite Hl.
  pose proof (pavi_row_keys_nth _ _ _ _ Hn Hk) as Hin.
  rewrite !in_app_iff. destruct f; auto.
Qed.

Lemma pavi_step_key s e s' k :
  AppPavi.step s e = Some s' ->
  dict_get k (AppPavi.code_outputs s') = dict_get k (AppPavi.code_outputs s)
  \/ dict_get k (AppPavi.code_outputs s') = None
  \/ (dict_get k (AppPavi.code_outputs s) = None
      /\ exists f idx c now task code,
          e = AppPavi.Generate f idx c now
          /\ AppPavi.row s f idx = Some (task, k)
          /\ AppPavi.create_implementation (AppPavi.select_developer task)
               task (AppPavi.project_description s) c = Some code
          /\ dict_get k (AppPavi.code_outputs s')
             = Some (AppPavi.entry task code now)).
Proof.
  destruct e as [key| | |input c|f idx c now|f idx]; simpl.
  - destruct (AppPavi.nonempty key); intros [= <-]; auto.
  - destruct (AppPavi.stats_ok s); [|discriminate]. intros [= <-]; auto.
  - destruct (_ && _); [|discriminate]. intros [= <-]; auto.
  - destruct (_ && _); [|discriminate]. intros [= <-].
    unfold AppPavi.analyze.
    destruct (AppPavi.nonempty input); auto.
    destruct (truthy _); auto.
  - intros Hg. apply pavi_generate_inv in Hg
      as (task & key & code & Hr & Hin & Hc & [[Ht ->]|[_ ->]]);
      auto.
    simpl. destruct (list_eq_dec N.eq_dec k key) as [->|Hn].
    + right; right. split; [apply dict_in_false_get; exact Hin|].
      exists f, idx, c, now, task, code.
      rewrite dict_get_set_same. auto 10.
    + left. apply dict_get_set_other; exact Hn.
  - intros Hg. apply pavi_regenerate_inv in Hg as (task & key & _ & _ & ->).
    simpl. destruct (list_eq_dec N.eq_dec k key) as [->|Hn].
    + right; left. apply dict_get_del_same.
    + left. apply dict_get_del_other; exact Hn.
Qed.

End PaviSession.

(** ** The clock *)
Lemma is_digit_digit n : is_digit (digit n) = true.
Proof.
  unfold is_digit, digit.
  assert (n mod 10 < 10) as Hlt by (apply N.mod_upper_bound; discriminate).
  revert Hlt; generalize (n mod 10); intros r Hlt.
  apply andb_true_iff; split; apply N.leb_le; lia.
Qed.

Lemma num2_pad n : n < 100 -> num2 (digit (n / 10)) (digit n) = n.
Proof.
  intros Hn. unfold num2, digit.
  assert (n / 10 < 10) as Hq by (apply N.Div0.div_lt_upper_bound; lia).
  rewrite (N.mod_small (n / 10) 10) by assumption.
  assert (n mod 10 < 10) as Hr by (apply N.mod_upper_bound; discriminate).
  assert (n = 10 * (n / 10) + n mod 10) as Hd
      by (apply N.div_mod; discriminate).
  revert Hq Hr Hd. generalize (n / 10) (n mod 10). intros q r Hq Hr Hd.
  lia.
Qed.

Lemma isoformat_is_iso8601 t : valid t -> is_iso8601 (isoformat t) = true.
Proof.
  intros (Hy & Hm & Hd & Hh & Hn & Hs & Hu).
  unfold isoformat, strftime_HMS, pad4, pad2, pad6, is_iso8601.
  cbn [app].
  rewrite !is_digit_digit.
  rewrite !num2_pad by lia.
  repeat rewrite (proj2 (N.leb_le _ _)) by lia.
  destruct (microsecond t =? 0); cbn [app];
    rewrite ?is_digit_digit; reflexivity.
Qed.

(** ** Example sessions *)

Lemma blog_session_run (R : Runtime) :
  App.run App.initial blog_session = Some blog_state.
Proof. vm_compute; reflexivity. Qed.

Lemma blog_state_reachable (R : Runtime) : App.reachable blog_state.
Proof.
  apply (app_run_reachable blog_session App.initial).
  - constructor.
  - apply blog_session_run.
Qed.

Lemma stale_state_reachable (R : Runtime) : App.reachable stale_state.
Proof.
  apply (App.reachable_step blog_state
           (App.Decompose (lit "Build a shop") (Content shop_reply))).
  - apply blog_state_reachable.
  - vm_compute; reflexivity.
Qed.

Lemma pavi_session_run (R : Runtime) :
  AppPavi.run AppPavi.initial pavi_session = Some pavi_state.
Proof. vm_compute; reflexivity. Qed.

Lemma pavi_state_reachable (R : Runtime) : AppPavi.reachable pavi_state.
Proof.
  apply (pavi_run_reachable pavi_session AppPavi.initial).
  - constructor.
  - apply pavi_session_run.
Qed.

(** ** The artifact mapping and the task list *)
(** The claim C4 as the specification words it fails, whatever the
    runtime: after a blog brief is decomposed, its task generated, and a
    shop brief decomposed, the artifact of the blog task is still stored
    and rendered under [task_1], which is no key of the new task list. *)
Lemma stale_artifact_counterexample :
  ~ (exists R : Runtime,
        forall s : App.state,
          App.reachable s ->
          forall k e, In (k, e) (App.rendered s) -> In k (App.task_keys s)).
Proof.
  intros [R Hc].
  specialize (Hc stale_state (stale_state_reachable R)
                 (lit "task_1") (App.entry blog_task blog_code noon)).
  assert (In (lit "task_1", App.entry blog_task blog_code noon)
             (App.rendered stale_state)) as Hin
      by (left; reflexivity).
  apply Hc in Hin. vm_compute in Hin.
  destruct Hin as [E|[]]. discriminate E.
Qed.

(** C4, amended: in every reachable session state every rendered
    artifact is an entry of the mapping, records the task it was
    generated for and is stored under the key derived from that task; and
    a generation adds an entry only under the key of a task of the
    current task list. *)
Theorem artifacts_keyed_by_their_task (R : Runtime) :
  (forall s, App.reachable s ->
     forall k e, In (k, e) (App.rendered s) ->
       In (k, e) (App.generated_code s)
       /\ exists task i code now,
           e = App.entry task code now /\ App.task_key task i = Some k)
  /\ (forall s i c now s',
        App.step s (App.Generate i c now) = Some s' ->
        forall k, dict_in k (App.generated_code s') = true ->
          dict_in k (App.generated_code s) = true
          \/ In k (App.task_keys s'))
  /\ (forall s, AppPavi.reachable s ->
        forall k e, In (k, e) (AppPavi.rendered s) ->
          In (k, e) (AppPavi.code_outputs s)
          /\ exists task idx code now,
              e = AppPavi.entry task code now
              /\ AppPavi.task_key task idx = Some k)
  /\ (forall s f idx c now s',
        AppPavi.step s (AppPavi.Generate f idx c now) = Some s' ->
        forall k, dict_in k (AppPavi.code_outputs s') = true ->
          dict_in k (AppPavi.code_outputs s) = true
          \/ In k (AppPavi.task_keys s')).
Proof.
  split; [|split; [|split]].
  - intros s Hs k e Hin.
    assert (In (k, e) (App.generated_code s)) as Hin'
        by (unfold App.rendered in Hin;
            destruct (App.nonempty _); [auto|contradiction]).
    split; [exact Hin'|].
    apply app_reachable_entries in Hs. rewrite Forall_forall in Hs.
    destruct (Hs _ Hin') as (task & i & code & now & He & Hk & _).
    simpl in He, Hk. eauto 10.
  - intros s i c now s' Hstep k Hin. simpl in Hstep.
    apply app_generate_inv in Hstep
      as (task & key & ctx & code & Hr & _ & _ & _ & [[_ ->]|[_ ->]]);
      [|auto].
    simpl in Hin. apply dict_set_keys in Hin as [Hin| ->]; [auto|].
    right. apply app_row_inv in Hr as (l & Hl & Hn & Hk).
    unfold App.task_keys; simpl. rewrite Hl.
    eapply app_row_keys_nth; eauto.
  - intros s Hs k e Hin.
    assert (In (k, e) (AppPavi.code_outputs s)) as Hin'
        by (unfold AppPavi.rendered in Hin;
            destruct (_ && _); [auto|contradiction]).
    split; [exact Hin'|].
    apply pavi_reachable_entries in Hs. rewrite Forall_forall in Hs.
    destruct (Hs _ Hin') as (task & i & code & now & He & Hk & _).
    simpl in He, Hk. eauto 10.
  - intros s f idx c now s' Hstep k Hin. simpl in Hstep.
    apply pavi_generate_inv in Hstep
      as (task & key & code & Hr & _ & _ & [[_ ->]|[_ ->]]);
      [|auto].
    simpl in Hin. apply dict_set_keys in Hin as [Hin| ->]; [auto|].
    right. apply pavi_row_task_keys in Hr. exact Hr.
Qed.

Lemma artifacts_keyed_by_their_task_witness :
  App.reachable (R := plain_runtime) stale_state
  /\ In (lit "task_1", App.entry blog_task blog_code noon)
        (App.rendered stale_state)
  /\ exists task i code now,
      App.entry blog_task blog_code noon = App.entry task code now
      /\ App.task_key (R := plain_runtime) task i = Some (lit "task_1").
Proof.
  split; [exact (stale_state_reachable plain_runtime)|].
  assert (In (lit "task_1", App.entry blog_task blog_code noon)
             (App.rendered stale_state)) as Hin by (left; reflexivity).
  split; [exact Hin|].
  destruct (artifacts_keyed_by_their_task plain_runtime) as (H1 & _).
  exact (proj2 (H1 stale_state (stale_state_reachable plain_runtime)
                   _ _ Hin)).
Defined.

(** ** Stored code is never empty *)
(** C9: a generation writes an entry only when the code returned by the
    generator is truthy, and leaves the session as it was when the code is
    falsy; hence in every reachable state of either program every key of
    the mapping maps to a record whose code is truthy. *)
Theorem stored_code_is_truthy (R : Runtime) :
  (forall s i c now s',
      App.step s (App.Generate i c now) = Some s' ->
      exists task key ctx code,
        App.row s i = Some (task, key)
        /\ App.project_brief s = Some ctx
        /\ App.generate_code (App.select_agent task) task ctx c = Some code
        /\ (truthy code = false -> s' = s)
        /\ (truthy code = true ->
            App.generated_code s'
            = dict_set key (App.entry task code now) (App.generated_code s)))
  /\ (forall s, App.reachable s ->
        forall k e, dict_get k (App.generated_code s) = Some e ->
          exists code,
            subscript e (lit "code") = Some code /\ truthy code = true)
  /\ (forall s f idx c now s',
        AppPavi.step s (AppPavi.Generate f idx c now) = Some s' ->
        exists task key code,
          AppPavi.row s f idx = Some (task, key)
          /\ AppPavi.create_implementation (AppPavi.select_developer task)
               task (AppPavi.project_description s) c = Some code
          /\ (truthy code = false -> s' = s)
          /\ (truthy code = true ->
              AppPavi.code_outputs s'
              = dict_set key (AppPavi.entry task code now)
                         (AppPavi.code_outputs s)))
  /\ (forall s, AppPavi.reachable s ->
        forall k e, dict_get k (AppPavi.code_outputs s) = Some e ->
          exists code,
            subscript e (lit "code") = Some code /\ truthy code = true).
Proof.
  split; [|split; [|split]].
  - intros s i c now s' Hstep. simpl in Hstep.
    apply app_generate_inv in Hstep
      as (task & key & ctx & code & Hr & _ & Hb & Hc & Hcases).
    exists task, key, ctx, code. repeat split; auto.
    + intros Hf. destruct Hcases as [[Ht _]|[_ ->]]; congruence.
    + intros Ht. destruct Hcases as [[_ ->]|[Hf _]]; [reflexivity|congruence].
  - intros s Hs k e Hget.
    apply app_reachable_entries in Hs. rewrite Forall_forall in Hs.
    destruct (Hs _ (dict_get_In _ _ _ Hget))
      as (task & i & code & now & He & _ & Ht).
    simpl in He. subst e. exists code. split; [reflexivity|exact Ht].
  - intros s f idx c now s' Hstep. simpl in Hstep.
    apply pavi_generate_inv in Hstep
      as (task & key & code & Hr & _ & Hc & Hcases).
    exists task, key, code. repeat split; auto.
    + intros Hf. destruct Hcases as [[Ht _]|[_ ->]]; congruence.
    + intros Ht. destruct Hcases as [[_ ->]|[Hf _]]; [reflexivity|congruence].
  - intros s Hs k e Hget.
    apply pavi_reachable_entries in Hs. rewrite Forall_forall in Hs.
    destruct (Hs _ (dict_get_In _ _ _ Hget))
      as (task & i & code & now & He & _ & Ht).
    simpl in He. subst e. exists code. split; [reflexivity|exact Ht].
Qed.

(** A failed call of the frontend agent of app.py stores nothing, and the
    record stored by the blog session has truthy code. *)
Lemma stored_code_is_truthy_witness :
  App.step (R := plain_runtime) stale_state
    (App.Generate 0 Failed noon) = Some stale_state
  /\ dict_get (lit "task_1") (App.generated_code blog_state)
     = Some (App.entry blog_task blog_code noon)
  /\ exists code,
      subscript (App.entry blog_task blog_code noon) (lit "code") = Some code
      /\ truthy code = true.
Proof.
  split; [vm_compute; reflexivity|].
  assert (dict_get (lit "task_1") (App.generated_code blog_state)
          = Some (App.entry blog_task blog_code noon)) as Hget
      by (vm_compute; reflexivity).
  split; [exact Hget|].
  destruct (stored_code_is_truthy plain_runtime) as (_ & H2 & _).
  exact (H2 blog_state (blog_state_reachable plain_runtime) _ _ Hget).
Defined.

(** ** Export *)
Lemma pavi_reachable_key {R : Runtime} s :
  AppPavi.reachable s ->
  AppPavi.code_outputs s <> [] ->
  AppPavi.nonempty (AppPavi.openai_key s) = true.
Proof.
  induction 1 as [|s e s' _ IH Hstep]; [simpl; congruence|].
  destruct e as [key| | |input c|f idx c now|f idx]; simpl in Hstep.
  - destruct (AppPavi.nonempty key) eqn:E; inversion Hstep; subst; auto.
  - destruct (AppPavi.stats_ok s); inversion Hstep; subst.
    simpl; congruence.
  - destruct (_ && _); inversion Hstep; subst. simpl; congruence.
  - destruct (_ && _); inversion Hstep; subst.
    unfold AppPavi.analyze.
    destruct (AppPavi.nonempty input); auto.
    destruct (truthy _); auto.
  - apply pavi_generate_inv in Hstep
      as (task & key & code & Hr & _ & _ & [[_ ->]|[_ ->]]); auto.
    simpl. intros _. unfold AppPavi.row in Hr.
    destruct (AppPavi.nonempty (AppPavi.openai_key s)); [reflexivity|].
    discriminate.
  - apply pavi_regenerate_inv in Hstep as (task & key & Hr & _ & ->).
    simpl. intros _. unfold AppPavi.row in Hr.
    destruct (AppPavi.nonempty (AppPavi.openai_key s)); [reflexivity|].
    discriminate.
Qed.

Lemma pavi_task_key_dict {R : Runtime} t idx key :
  AppPavi.task_key t idx = Some key -> AppPavi.is_dict t = true.
Proof.
  unfold AppPavi.task_key, get_default.
  destruct t; try discriminate. reflexivity.
Qed.

(** * Further properties of the extractors *)

(** ** Bracket extraction *)

Lemma upto_last_none close s : upto_last close s = None <-> ~ In close s.
Proof.
  induction s as [|c s IH]; simpl.
  - split; auto.
  - destruct (upto_last close s) as [p|].
    + split; [discriminate|]. intros Hn. exfalso.
      assert (~ In close s) as Hs by tauto.
      apply IH in Hs. discriminate.
    + destruct (c =? close) eqn:E.
      * apply N.eqb_eq in E. split; [discriminate|]. intros Hn; tauto.
      * apply N.eqb_neq in E. split; [|reflexivity].
        intros _ [Hc|Hc]; [congruence|]. apply (proj1 IH); auto.
Qed.

Lemma upto_last_some close s p :
  upto_last close s = Some p ->
  exists mid post, s = p ++ post /\ p = mid ++ [close] /\ ~ In close post.
Proof.
  revert p. induction s as [|c s IH]; simpl; intros p; [discriminate|].
  destruct (upto_last close s) as [q|] eqn:Eq.
  - intros [= <-]. destruct (IH q eq_refl) as (mid & post & Hs & Hq & Hn).
    exists (c :: mid), post. subst q. rewrite Hs at 1. auto.
  - destruct (c =? close) eqn:E; [|discriminate].
    apply N.eqb_eq in E; subst c. intros [= <-].
    exists [], s. repeat split. apply upto_last_none; exact Eq.
Qed.

(** X1: when the bracket search matches, the match is the part of the
    text from its first opening bracket to its last closing bracket: no
    opening bracket comes before it and no closing bracket after it. *)
Theorem bracket_search_first_to_last (opening close : N) (s g : pystr) :
  bracket_search opening close s = Some g ->
  exists pre mid post,
    s = pre ++ g ++ post
    /\ g = opening :: mid ++ [close]
    /\ ~ In opening pre
    /\ ~ In close post.
Proof.
  revert g. induction s as [|c s IH]; simpl; intros g; [discriminate|].
  destruct (c =? opening) eqn:E.
  - apply N.eqb_eq in E; subst c.
    destruct (upto_last close s) as [p|] eqn:Ep.
    + intros [= <-].
      destruct (upto_last_some _ _ _ Ep) as (mid & post & Hs & Hp & Hn).
      exists [], mid, post. simpl. subst p. rewrite Hs at 1. auto.
    + intros Hb. exfalso. apply (proj1 (upto_last_none close s) Ep).
      destruct (IH g Hb) as (pre & mid & post & Hs & Hg & _ & _).
      rewrite Hs, Hg. rewrite !in_app_iff. simpl.
      right; left; right. rewrite in_app_iff. right; left; reflexivity.
  - apply N.eqb_neq in E. intros Hb.
    destruct (IH g Hb) as (pre & mid & post & Hs & Hg & Hpre & Hpost).
    exists (c :: pre), mid, post. rewrite Hs. repeat split; auto.
    simpl. intros [Hc|Hc]; [congruence|contradiction].
Qed.

Lemma bracket_search_example :
  bracket_search 91 93 (lit "Here: [1, [2]] and ] done")
  = Some (lit "[1, [2]] and ]").
Proof. vm_compute; reflexivity. Qed.

Lemma bracket_search_first_to_last_witness :
  exists pre mid post,
    lit "Here: [1, [2]] and ] done"
    = pre ++ lit "[1, [2]] and ]" ++ post
    /\ lit "[1, [2]] and ]" = 91 :: mid ++ [93]
    /\ ~ In 91 pre
    /\ ~ In 93 post.
Proof.
  exact (bracket_search_first_to_last 91 93
           (lit "Here: [1, [2]] and ] done") (lit "[1, [2]] and ]")
           bracket_search_example).
Defined.

(** X2: the bracket search finds nothing exactly when the text has no
    opening bracket that is followed, anywhere later, by a closing one. *)
Theorem bracket_search_none_iff (opening close : N) (s : pystr) :
  bracket_search opening close s = None <->
  ~ (exists pre mid post, s = pre ++ opening :: mid ++ close :: post).
Proof.
  induction s as [|c s IH]; simpl.
  - split; [|reflexivity]. intros _ (pre & mid & post & Hs).
    destruct pre; discriminate.
  - destruct (c =? opening) eqn:E.
    + apply N.eqb_eq in E; subst c.
      destruct (upto_last close s) as [p|] eqn:Ep.
      * split; [discriminate|]. intros Hn. exfalso. apply Hn.
        destruct (upto_last_some _ _ _ Ep) as (mid & post & Hs & Hp & _).
        exists [], mid, post. simpl. rewrite Hs, Hp.
        rewrite <- app_assoc. reflexivity.
      * apply upto_last_none in Ep. rewrite IH. split.
        -- intros Hn (pre & mid & post & Hs). destruct pre as [|x pre].
           ++ simpl in Hs. injection Hs as Hs. apply Ep. rewrite Hs.
              apply in_or_app; right; left; reflexivity.
           ++ simpl in Hs. injection Hs as _ Hs. apply Hn; eauto.
        -- intros Hn (pre & mid & post & Hs). apply Hn.
           exists (opening :: pre), mid, post. simpl. congruence.
    + apply N.eqb_neq in E. rewrite IH. split.
      * intros Hn (pre & mid & post & Hs). destruct pre as [|x pre].
        -- simpl in Hs. congruence.
        -- simpl in Hs. injection Hs as _ Hs. apply Hn; eauto.
      * intros Hn (pre & mid & post & Hs). apply Hn.
        exists (c :: pre), mid, post. simpl. congruence.
Qed.

(** ** The type of what the decomposer and the agents return *)

Lemma parse_elements_list f : forall s acc v r,
  parse_elements f s acc = Some (v, r) -> exists l, v = VList l.
Proof.
  induction f as [|f IH]; simpl; intros s acc v r Hp; [discriminate|].
  repeat (break_match; try discriminate).
  - inversion Hp; eauto.
  - eapply IH; eauto.
Qed.

Lemma loads_head_fuel c t :
  is_ws c = false -> (c =? 65279) = false ->
  loads (c :: t) =
  match scan_once (S (2 * List.length (c :: t))) (c :: t) with
  | Some (v, r) =>
      match skip_ws r with
      | [] => Some v
      | _ => None
      end
  | None => None
  end.
Proof.
  intros Hw Hb. unfold loads. rewrite Hb. cbv zeta.
  assert (skip_ws (c :: t) = c :: t) as -> by (simpl; rewrite Hw; reflexivity).
  unfold fuel_for. rewrite Nat.add_1_r. reflexivity.
Qed.

Lemma loads_bracket_list t v :
  loads (91 :: t) = Some v -> exists l, v = VList l.
Proof.
  rewrite loads_head_fuel by reflexivity.
  remember (2 * List.length (91%N :: t))%nat as f eqn:Ef. clear Ef.
  destruct (scan_once (S f) (91 :: t)) as [[v0 r]|] eqn:Es; [|discriminate].
  destruct (skip_ws r); [|discriminate]. intros [= <-].
  simpl in Es.
  destruct (skip_ws t) as [|c' r']; [discriminate|].
  destruct (c' =? 93); [inversion Es; eauto|].
  eapply parse_elements_list; eauto.
Qed.

Lemma loads_brace_dict t v :
  loads (123 :: t) = Some v -> exists d, v = VDict d.
Proof.
  rewrite loads_head_fuel by reflexivity.
  remember (2 * List.length (123%N :: t))%nat as f eqn:Ef. clear Ef.
  destruct (scan_once (S f) (123 :: t)) as [[v0 r]|] eqn:Es; [|discriminate].
  destruct (skip_ws r); [|discriminate]. intros [= <-].
  simpl in Es.
  destruct (skip_ws t) as [|c' r']; [discriminate|].
  destruct (c' =? 125); [inversion Es; eauto|].
  eapply parse_members_dict; eauto.
Qed.

Lemma bracket_search_head opening close s g :
  bracket_search opening close s = Some g -> exists t, g = opening :: t.
Proof.
  intros Hb.
  destruct (bracket_search_first_to_last _ _ _ _ Hb)
    as (_ & mid & _ & _ & Hg & _).
  eauto.
Qed.

(** X3: when the provider call fails, or the trimmed reply holds a
    bracketed span, the decomposer of either file returns a list: the
    parsed array, or the empty list when the span does not parse.  Only a
    reply without such a span can make it return something else. *)
Theorem decomposer_returns_list (brief : pystr) (c : completion) :
  (c = Failed \/
   exists reply g,
     c = Content reply /\ bracket_search 91 93 (strip reply) = Some g) ->
  (exists l, App.decompose_project brief c = VList l)
  /\ (exists l, AppPavi.analyze_and_breakdown brief c = VList l).
Proof.
  intros [->|(reply & g & -> & Hb)].
  - split; exists []; reflexivity.
  - unfold App.decompose_project, AppPavi.analyze_and_breakdown.
    rewrite Hb. destruct (bracket_search_head _ _ _ _ Hb) as [t ->].
    destruct (loads (91 :: t)) as [v|] eqn:El.
    + destruct (loads_bracket_list _ _ El) as [l ->]. split; eauto.
    + split; exists []; reflexivity.
Qed.

Lemma decomposer_returns_list_witness :
  (exists l,
      App.decompose_project (lit "Build a blog")
        (Content (lit "Tasks: [1, 2,] as asked")) = VList l)
  /\ (exists l,
         AppPavi.analyze_and_breakdown (lit "Build a blog")
           (Content (lit "Tasks: [1, 2,] as asked")) = VList l).
Proof.
  apply decomposer_returns_list. right.
  exists (lit "Tasks: [1, 2,] as asked"), (lit "[1, 2,]").
  split; [reflexivity | vm_compute; reflexivity].
Defined.

(** X4: in app.py, when the prompt can be built and the provider call
    fails or the trimmed reply holds a braced span, both agents return a
    dict: the parsed object, or the empty dict when the span does not
    parse.  Only a reply without such a span can yield code that is no
    dict. *)
Theorem agents_return_dict (task : value) (context : pystr) (c : completion) :
  App.prompt_fields task <> None ->
  (c = Failed \/
   exists reply g,
     c = Content reply /\ bracket_search 123 125 (strip reply) = Some g) ->
  (exists d, App.BackendAgent_generate_code task context c = Some (VDict d))
  /\ (exists d,
         App.FrontendAgent_generate_code task context c = Some (VDict d)).
Proof.
  intros Hp Hc.
  unfold App.BackendAgent_generate_code, App.FrontendAgent_generate_code.
  destruct (App.prompt_fields task); [|congruence].
  assert (exists d, App.parse_code c = VDict d) as [d Hd].
  { destruct Hc as [->|(reply & g & -> & Hb)]; [exists []; reflexivity|].
    unfold App.parse_code. rewrite Hb.
    destruct (bracket_search_head _ _ _ _ Hb) as [t ->].
    destruct (loads (123 :: t)) as [v|] eqn:El; [|exists []; reflexivity].
    destruct (loads_brace_dict _ _ El) as [d ->]. eauto. }
  rewrite Hd. split; eauto.
Qed.

Lemma agents_return_dict_witness :
  (exists d,
      App.BackendAgent_generate_code blog_task (lit "A blog")
        (Content (dq "Here you go: {'database_schema': 'class Post: pass'}"))
      = Some (VDict d))
  /\ (exists d,
         App.FrontendAgent_generate_code blog_task (lit "A blog")
           (Content (dq "Here you go: {'database_schema': 'class Post: pass'}"))
         = Some (VDict d)).
Proof.
  apply agents_return_dict.
  - vm_compute; discriminate.
  - right.
    exists (dq "Here you go: {'database_schema': 'class Post: pass'}"),
      (dq "{'database_schema': 'class Post: pass'}").
    split; [reflexivity | vm_compute; reflexivity].
Defined.

(** * Further properties of the sessions *)

(** ** The key gate *)

Section KeyGate.
Context {R : Runtime}.

Lemma app_row_key s i p : App.row s i = Some p ->
  App.nonempty (App.api_key s) = true.
Proof.
  unfold App.row. destruct (App.nonempty (App.api_key s)); [auto|discriminate].
Qed.

Lemma pavi_row_key s f idx p : AppPavi.row s f idx = Some p ->
  AppPavi.nonempty (AppPavi.openai_key s) = true.
Proof.
  unfold AppPavi.row.
  destruct (AppPavi.nonempty (AppPavi.openai_key s)); [auto|discriminate].
Qed.

Lemma app_step_key_kept s e s' :
  App.step s e = Some s' ->
  App.nonempty (App.api_key s) = true ->
  App.nonempty (App.api_key s') = true.
Proof.
  destruct e as [key| |brief c|i c now|i]; simpl.
  - destruct (App.nonempty key) eqn:E; intros [= <-]; auto.
  - intros [= <-]; auto.
  - destruct (_ && _); [|discriminate]. intros [= <-].
    unfold App.decompose. destruct (truthy _); auto.
  - intros Hg. apply app_generate_inv in Hg
      as (task & key & ctx & code & _ & _ & _ & _ & [[_ ->]|[_ ->]]); auto.
  - intros Hg. apply app_regenerate_inv in Hg as (task & key & _ & _ & ->).
    auto.
Qed.

Lemma pavi_step_key_kept s e s' :
  AppPavi.step s e = Some s' ->
  AppPavi.nonempty (AppPavi.openai_key s) = true ->
  AppPavi.nonempty (AppPavi.openai_key s') = true.
Proof.
  destruct e as [key| | |input c|f idx c now|f idx]; simpl.
  - destruct (AppPavi.nonempty key) eqn:E; intros [= <-]; auto.
  - destruct (AppPavi.stats_ok s); [|discriminate]. intros [= <-]; auto.
  - destruct (_ && _); [|discriminate]. intros [= <-]; auto.
  - destruct (_ && _); [|discriminate]. intros [= <-].
    unfold AppPavi.analyze. destruct (AppPavi.nonempty input); auto.
    destruct (truthy _); auto.
  - intros Hg. apply pavi_generate_inv in Hg
      as (task & key & code & _ & _ & _ & [[_ ->]|[_ ->]]); auto.
  - intros Hg. apply pavi_regenerate_inv in Hg as (task & key & _ & _ & ->).
    auto.
Qed.

Lemma app_nonempty_nil s :
  App.api_key s = [] -> App.nonempty (App.api_key s) = true -> False.
Proof. intros ->; discriminate. Qed.

Lemma pavi_nonempty_nil s :
  AppPavi.openai_key s = [] ->
  AppPavi.nonempty (AppPavi.openai_key s) = true -> False.
Proof. intros ->; discriminate. Qed.

Lemma app_step_needs_key s e s' :
  App.step s e = Some s' ->
  (exists key, e = App.EnterKey key) \/ e = App.ClearAll
  \/ App.nonempty (App.api_key s) = true.
Proof.
  destruct e as [key| |brief c|i c now|i]; simpl; eauto.
  - destruct (App.nonempty (App.api_key s)); [auto|discriminate].
  - intros Hg. apply app_generate_inv in Hg
      as (task & key & ctx & code & Hr & _).
    right; right. eapply app_row_key; eauto.
  - intros Hg. apply app_regenerate_inv in Hg as (task & key & Hr & _).
    right; right. eapply app_row_key; eauto.
Qed.

Lemma pavi_step_needs_key s e s' :
  AppPavi.step s e = Some s' ->
  (exists key, e = AppPavi.EnterKey key) \/ e = AppPavi.Reset
  \/ AppPavi.nonempty (AppPavi.openai_key s) = true.
Proof.
  destruct e as [key| | |input c|f idx c now|f idx]; simpl; eauto.
  - destruct (AppPavi.nonempty (AppPavi.openai_key s)); [auto|discriminate].
  - destruct (AppPavi.nonempty (AppPavi.openai_key s)); [auto|discriminate].
  - intros Hg. apply pavi_generate_inv in Hg as (task & key & code & Hr & _).
    right; right. eapply pavi_row_key; eauto.
  - intros Hg. apply pavi_regenerate_inv in Hg as (task & key & Hr & _).
    right; right. eapply pavi_row_key; eauto.
Qed.

Lemma app_keyless s :
  App.reachable s -> App.api_key s = [] ->
  App.tasks s = VList [] /\ App.generated_code s = []
  /\ App.project_brief s = None.
Proof.
  induction 1 as [|s e s' _ IH Hstep]; [auto|]. intros Hk.
  destruct (app_step_needs_key _ _ _ Hstep) as [[key ->]|[->|Hne]].
  - simpl in Hstep.
    destruct (App.nonempty key) eqn:E; inversion Hstep; subst; simpl in *;
      [subst; discriminate | auto].
  - inversion Hstep; subst; simpl in *.
    destruct (IH Hk) as (_ & _ & Hb). auto.
  - exfalso. eapply app_nonempty_nil; [exact Hk|].
    eapply app_step_key_kept; eauto.
Qed.

Lemma pavi_keyless s :
  AppPavi.reachable s -> AppPavi.openai_key s = [] ->
  AppPavi.task_list s = VList [] /\ AppPavi.code_outputs s = []
  /\ AppPavi.project_description s = [].
Proof.
  induction 1 as [|s e s' _ IH Hstep]; [auto|]. intros Hk.
  destruct (pavi_step_needs_key _ _ _ Hstep) as [[key ->]|[->|Hne]].
  - simpl in Hstep.
    destruct (AppPavi.nonempty key) eqn:E; inversion Hstep; subst;
      simpl in *; [subst; discriminate | auto].
  - simpl in Hstep. destruct (AppPavi.stats_ok s); inversion Hstep; subst.
    simpl; auto.
  - exfalso. eapply pavi_nonempty_nil; [exact Hk|].
    eapply pavi_step_key_kept; eauto.
Qed.

End KeyGate.

(** X5: as long as no API key is configured, nothing is ever stored: in
    every reachable state of either program without a key, the task list
    is empty, the artifact mapping is empty and no brief is kept; and a
    configured key is never lost by a later run. *)
Theorem nothing_stored_without_key (R : Runtime) :
  (forall s, App.reachable s -> App.api_key s = [] ->
     App.tasks s = VList [] /\ App.generated_code s = []
     /\ App.project_brief s = None)
  /\ (forall s e s', App.step s e = Some s' ->
        App.api_key s <> [] -> App.api_key s' <> [])
  /\ (forall s, AppPavi.reachable s -> AppPavi.openai_key s = [] ->
        AppPavi.task_list s = VList [] /\ AppPavi.code_outputs s = []
        /\ AppPavi.project_description s = [])
  /\ (forall s e s', AppPavi.step s e = Some s' ->
        AppPavi.openai_key s <> [] -> AppPavi.openai_key s' <> []).
Proof.
  split; [exact app_keyless|]. split; [|split; [exact pavi_keyless|]].
  - intros s e s' Hstep Hk Hk'.
    eapply app_nonempty_nil; [exact Hk'|].
    eapply app_step_key_kept; [exact Hstep|].
    destruct (App.api_key s); [congruence|reflexivity].
  - intros s e s' Hstep Hk Hk'.
    eapply pavi_nonempty_nil; [exact Hk'|].
    eapply pavi_step_key_kept; [exact Hstep|].
    destruct (AppPavi.openai_key s); [congruence|reflexivity].
Qed.

Lemma nothing_stored_without_key_witness :
  App.reachable (R := plain_runtime) (App.clear_all App.initial)
  /\ App.api_key (App.clear_all App.initial) = []
  /\ App.tasks (App.clear_all App.initial) = VList []
  /\ App.api_key blog_state <> [].
Proof.
  assert (App.reachable (R := plain_runtime) (App.clear_all App.initial))
    as Hr by (apply (App.reachable_step App.initial App.ClearAll);
              [constructor | reflexivity]).
  split; [exact Hr|]. split; [reflexivity|].
  destruct (nothing_stored_without_key plain_runtime) as (H1 & H2 & _).
  split; [exact (proj1 (H1 _ Hr eq_refl))|].
  apply (H2 (App.clear_all
               {| App.tasks := VList []; App.generated_code := [];
                  App.api_key := lit "sk-test"; App.project_brief := None |})
            (App.Decompose (lit "Build a blog with posts and comments")
               (Content blog_reply))
            _ ltac:(vm_compute; reflexivity)).
  vm_compute; discriminate.
Defined.

(** ** The task list and the project context *)

Section TaskContext.
Context {R : Runtime}.

Lemma app_tasks_context s :
  App.reachable s ->
  App.tasks s = VList []
  \/ (truthy (App.tasks s) = true
      /\ exists b, App.project_brief s = Some b /\ b <> []).
Proof.
  induction 1 as [|s e s' _ IH Hstep]; [left; reflexivity|].
  destruct e as [key| |brief c|i c now|i]; simpl in Hstep.
  - destruct (App.nonempty key); inversion Hstep; subst; exact IH.
  - inversion Hstep; subst. left; reflexivity.
  - destruct (App.nonempty (App.api_key s)); [|discriminate].
    destruct (App.nonempty brief) eqn:Eb; [|discriminate].
    inversion Hstep; subst. unfold App.decompose.
    destruct (truthy (App.decompose_project brief c)) eqn:Et; [|exact IH].
    right. simpl. split; [exact Et|]. exists brief. split; [reflexivity|].
    intros ->; discriminate.
  - apply app_generate_inv in Hstep
      as (task & key & ctx & code & _ & _ & _ & _ & [[_ ->]|[_ ->]]);
      exact IH.
  - apply app_regenerate_inv in Hstep as (task & key & _ & _ & ->).
    exact IH.
Qed.

Lemma pavi_tasks_context s :
  AppPavi.reachable s ->
  AppPavi.task_list s = VList []
  \/ (truthy (AppPavi.task_list s) = true
      /\ AppPavi.project_description s <> []).
Proof.
  induction 1 as [|s e s' _ IH Hstep]; [left; reflexivity|].
  destruct e as [key| | |input c|f idx c now|f idx]; simpl in Hstep.
  - destruct (AppPavi.nonempty key); inversion Hstep; subst; exact IH.
  - destruct (AppPavi.stats_ok s); inversion Hstep; subst.
    left; reflexivity.
  - destruct (_ && _); inversion Hstep; subst. left; reflexivity.
  - destruct (_ && _); inversion Hstep; subst. unfold AppPavi.analyze.
    destruct (AppPavi.nonempty input) eqn:Ei; [|exact IH].
    destruct (truthy (AppPavi.analyze_and_breakdown input c)) eqn:Et;
      [|exact IH].
    right. simpl. split; [exact Et|]. intros ->; discriminate.
  - apply pavi_generate_inv in Hstep
      as (task & key & code & _ & _ & _ & [[_ ->]|[_ ->]]); exact IH.
  - apply pavi_regenerate_inv in Hstep as (task & key & _ & _ & ->).
    exact IH.
Qed.

End TaskContext.

(** X6: in every reachable state the task list is the empty list or a
    truthy value, and with a truthy task list the brief it was decomposed
    from is kept and is not empty; so wherever a row of app.py is on the
    page, the [project_brief] its generate handler reads has been set. *)
Theorem task_list_has_its_brief (R : Runtime) :
  (forall s, App.reachable s ->
     App.tasks s = VList []
     \/ (truthy (App.tasks s) = true
         /\ exists b, App.project_brief s = Some b /\ b <> []))
  /\ (forall s i p, App.reachable s -> App.row s i = Some p ->
        App.project_brief s <> None)
  /\ (forall s, AppPavi.reachable s ->
        AppPavi.task_list s = VList []
        \/ (truthy (AppPavi.task_list s) = true
            /\ AppPavi.project_description s <> [])).
Proof.
  split; [exact app_tasks_context|]. split; [|exact pavi_tasks_context].
  intros s i [task key] Hs Hr.
  apply app_row_inv in Hr as (l & Hl & Hn & _).
  destruct (app_tasks_context s Hs) as [He|(_ & b & Hb & _)].
  - rewrite He in Hl. inversion Hl; subst. destruct i; discriminate.
  - congruence.
Qed.

Lemma task_list_has_its_brief_witness :
  App.reachable (R := plain_runtime) blog_state
  /\ App.row (R := plain_runtime) blog_state 0
     = Some (blog_task, lit "task_1")
  /\ App.project_brief blog_state <> None.
Proof.
  assert (App.row (R := plain_runtime) blog_state 0
          = Some (blog_task, lit "task_1")) as Hr by (vm_compute; reflexivity).
  split; [exact (blog_state_reachable plain_runtime)|]. split; [exact Hr|].
  destruct (task_list_has_its_brief plain_runtime) as (_ & H2 & _).
  exact (H2 blog_state 0%nat _ (blog_state_reachable plain_runtime) Hr).
Defined.

(** ** What a decomposition changes *)



(** ** What a generation stores *)

Lemma backend_sections_record reply :
  backend_record (AppPavi.backend_sections reply).
Proof.
  unfold AppPavi.backend_sections, backend_record.
  destruct (AppPavi.any_nonempty _); eauto 10.
Qed.

Lemma frontend_sections_record reply :
  frontend_record (AppPavi.frontend_sections reply).
Proof.
  unfold AppPavi.frontend_sections, frontend_record.
  destruct (AppPavi.any_nonempty _); eauto 10.
Qed.

Lemma backend_record_truthy code : backend_record code -> truthy code = true.
Proof. intros (a & b & c & d & ->). reflexivity. Qed.

Lemma frontend_record_truthy code : frontend_record code -> truthy code = true.
Proof. intros (a & b & c & d & ->). reflexivity. Qed.

(** X9: a generation that fails stores nothing and leaves the session as
    it was, so the generate button stays: in app.py when the provider
    call fails or the extracted span does not parse, in app_pavi.py when
    the call fails for a task that is not of category BACKEND.  A task
    that lacks a field the prompt reads cannot be generated at all: the
    handler raises before the provider is called. *)
Theorem failed_generation_stores_nothing (R : Runtime) :
  (forall s i c now task key ctx,
      App.row s i = Some (task, key) ->
      dict_in key (App.generated_code s) = false ->
      App.project_brief s = Some ctx ->
      (App.prompt_fields task = None ->
       App.step s (App.Generate i c now) = None)
      /\ (App.prompt_fields task <> None ->
          (c = Failed \/
           exists reply,
             c = Content reply
             /\ loads (extract_span 123 125 (strip reply)) = None) ->
          App.step s (App.Generate i c now) = Some s))
  /\ (forall s f idx c now task key,
        AppPavi.row s f idx = Some (task, key) ->
        dict_in key (AppPavi.code_outputs s) = false ->
        (AppPavi.prompt_fields task = None ->
         AppPavi.step s (AppPavi.Generate f idx c now) = None)
        /\ (AppPavi.prompt_fields task <> None ->
            AppPavi.select_developer task = AppPavi.FrontendDeveloper ->
            AppPavi.step s (AppPavi.Generate f idx Failed now) = Some s)).
Proof.
  split.
  - intros s i c now task key ctx Hr Hin Hb. simpl. unfold App.generate.
    rewrite Hr, Hin, Hb. split.
    + intros Hp.
      destruct (App.select_agent task); simpl;
        unfold App.BackendAgent_generate_code,
          App.FrontendAgent_generate_code; rewrite Hp; reflexivity.
    + intros Hp Hc.
      assert (App.parse_code c = VDict []) as Hcode.
      { destruct Hc as [->|(reply & -> & Hl)]; [reflexivity|].
        unfold App.parse_code. unfold extract_span in Hl.
        destruct (bracket_search 123 125 (strip reply)); rewrite Hl;
          reflexivity. }
      destruct (App.select_agent task); simpl;
        unfold App.BackendAgent_generate_code,
          App.FrontendAgent_generate_code;
        (destruct (App.prompt_fields task); [|congruence]);
        rewrite Hcode; reflexivity.
  - intros s f idx c now task key Hr Hin. simpl. unfold AppPavi.generate.
    rewrite Hr, Hin. split.
    + intros Hp.
      destruct (AppPavi.select_developer task); simpl;
        unfold AppPavi.BackendDeveloper_create_implementation,
          AppPavi.FrontendDeveloper_create_implementation;
        rewrite Hp; reflexivity.
    + intros Hp Hd. rewrite Hd. simpl.
      unfold AppPavi.FrontendDeveloper_create_implementation.
      destruct (AppPavi.prompt_fields task); [|congruence]. reflexivity.
Qed.

Lemma failed_generation_stores_nothing_witness :
  App.step (R := plain_runtime) stale_state
    (App.Generate 0 (Content (lit "Sorry, no code.")) noon) = Some stale_state
  /\ App.step (R := plain_runtime)
       {| App.tasks := VList [VDict [(lit "task_id", VInt 4)]];
          App.generated_code := [];
          App.api_key := lit "sk-test";
          App.project_brief := Some (lit "Build a shop") |}
       (App.Generate 0 Failed noon) = None.
Proof.
  destruct (failed_generation_stores_nothing plain_runtime) as [A _].
  split.
  - refine (proj2 (A stale_state 0%nat _ noon shop_task (lit "task_2")
                     (lit "Build a shop") _ _ _) _ _).
    + vm_compute; reflexivity.
    + reflexivity.
    + reflexivity.
    + vm_compute; discriminate.
    + right. exists (lit "Sorry, no code.").
      split; [reflexivity | vm_compute; reflexivity].
  - refine (proj1 (A _ 0%nat Failed noon (VDict [(lit "task_id", VInt 4)])
                     (lit "task_4") (lit "Build a shop") _ _ _) _).
    + vm_compute; reflexivity.
    + reflexivity.
    + reflexivity.
    + vm_compute; reflexivity.
Defined.

(** ** What the page shows for an artifact *)

Section Shapes.
Context {R : Runtime}.

Lemma pavi_create_shape task ctx c code :
  AppPavi.create_implementation (AppPavi.select_developer task) task ctx c
  = Some code ->
  truthy code = true ->
  AppPavi.prompt_fields task <> None
  /\ match AppPavi.select_developer task with
     | AppPavi.BackendDeveloper => backend_record code
     | AppPavi.FrontendDeveloper => frontend_record code
     end.
Proof.
  destruct (AppPavi.select_developer task); simpl;
    unfold AppPavi.BackendDeveloper_create_implementation,
      AppPavi.FrontendDeveloper_create_implementation;
    (destruct (AppPavi.prompt_fields task); [|discriminate]);
    intros [= <-] Ht; (split; [discriminate|]).
  - destruct c as [|reply]; [|apply backend_sections_record].
    unfold backend_record, AppPavi.backend_error; eauto 10.
  - destruct c as [|reply]; [discriminate|apply frontend_sections_record].
Qed.

Lemma pavi_step_shape s e s' :
  Forall pavi_entry_shape (AppPavi.code_outputs s) ->
  AppPavi.step s e = Some s' ->
  Forall pavi_entry_shape (AppPavi.code_outputs s').
Proof.
  intros Hs. destruct e as [key| | |input c|f idx c now|f idx]; simpl.
  - destruct (AppPavi.nonempty key); intros [= <-]; exact Hs.
  - destruct (AppPavi.stats_ok s); [|discriminate].
    intros [= <-]; constructor.
  - destruct (_ && _); [|discriminate]. intros [= <-]; constructor.
  - destruct (_ && _); [|discriminate]. intros [= <-].
    unfold AppPavi.analyze.
    destruct (AppPavi.nonempty input); [|exact Hs].
    destruct (truthy _); exact Hs.
  - intros Hg. apply pavi_generate_inv in Hg
      as (task & key & code & Hr & _ & Hc & [[Ht ->]|[_ ->]]);
      [|exact Hs].
    simpl. apply Forall_dict_set; [|exact Hs].
    apply pavi_row_inv in Hr as (l & _ & _ & Hk).
    destruct (pavi_create_shape _ _ _ _ Hc Ht) as [Hp Hsh].
    exists task, code, now. simpl.
    split; [reflexivity|]. split; [eapply pavi_task_key_dict; eauto|].
    split; assumption.
  - intros Hg. apply pavi_regenerate_inv in Hg as (task & key & _ & _ & ->).
    simpl. apply Forall_dict_del; exact Hs.
Qed.

Lemma pavi_reachable_shape s :
  AppPavi.reachable s -> Forall pavi_entry_shape (AppPavi.code_outputs s).
Proof.
  induction 1 as [|s e s' _ IH Hstep].
  - constructor.
  - eapply pavi_step_shape; eauto.
Qed.

Lemma app_task_key_dict t i key :
  App.task_key t i = Some key -> App.is_dict t = true.
Proof.
  unfold App.task_key, get_default.
  destruct t; try discriminate. reflexivity.
Qed.

Lemma app_generate_code_prompt a task ctx c code :
  App.generate_code a task ctx c = Some code ->
  App.prompt_fields task <> None.
Proof.
  destruct a; simpl;
    unfold App.BackendAgent_generate_code, App.FrontendAgent_generate_code;
    destruct (App.prompt_fields task); discriminate.
Qed.

Lemma app_step_shape s e s' :
  Forall app_entry_shape (App.generated_code s) ->
  App.step s e = Some s' ->
  Forall app_entry_shape (App.generated_code s').
Proof.
  intros Hs. destruct e as [key| |brief c|i c now|i]; simpl.
  - destruct (App.nonempty key); intros [= <-]; exact Hs.
  - intros [= <-]; constructor.
  - destruct (_ && _); [|discriminate]. intros [= <-].
    unfold App.decompose. destruct (truthy _); exact Hs.
  - intros Hg. apply app_generate_inv in Hg
      as (task & key & ctx & code & Hr & _ & _ & Hc & [[Ht ->]|[_ ->]]);
      [|exact Hs].
    simpl. apply Forall_dict_set; [|exact Hs].
    apply app_row_inv in Hr as (l & _ & _ & Hk).
    exists task, code, now. simpl.
    split; [reflexivity|]. split; [eapply app_task_key_dict; eauto|].
    eapply app_generate_code_prompt; eauto.
  - intros Hg. apply app_regenerate_inv in Hg as (task & key & _ & _ & ->).
    simpl. apply Forall_dict_del; exact Hs.
Qed.

Lemma app_reachable_shape s :
  App.reachable s -> Forall app_entry_shape (App.generated_code s).
Proof.
  induction 1 as [|s e s' _ IH Hstep].
  - constructor.
  - eapply app_step_shape; eauto.
Qed.

End Shapes.

Lemma pavi_category_backend d :
  eq_str match dict_get (lit "category") d with
         | Some x => x
         | None => VNone
         end (lit "BACKEND")
  = pavi_to_backend (VDict d).
Proof.
  unfold pavi_to_backend, AppPavi.select_developer, get_default.
  destruct (dict_get (lit "category") d) as [v|].
  - destruct (eq_str v (lit "BACKEND")); reflexivity.
  - reflexivity.
Qed.

Lemma pavi_display_entry d code now :
  AppPavi.display_output (AppPavi.entry (VDict d) code now) =
  if pavi_to_backend (VDict d) then
    match
      get_default code (lit "models") (VStr (lit "# No models generated")),
      get_default code (lit "routes") (VStr (lit "# No routes generated")),
      get_default code (lit "logic") (VStr (lit "# No logic generated")),
      get_default code (lit "dependencies") (VList [])
    with
    | Some a, Some b, Some c, Some deps =>
        match AppPavi.deps_widget deps with
        | Some w =>
            Some [Code a (lit "python"); Code b (lit "python");
                  Code c (lit "python"); w]
        | None => None
        end
    | _, _, _, _ => None
    end
  else
    match
      get_default code (lit "component")
        (VStr (lit "// No component generated")),
      get_default code (lit "styles")
        (VStr (lit "/* No styles generated */")),
      get_default code (lit "hooks") (VStr (lit "// No hooks generated")),
      get_default code (lit "dependencies") (VList [])
    with
    | Some a, Some b, Some c, Some deps =>
        match AppPavi.deps_widget deps with
        | Some w =>
            Some [Code a (lit "javascript"); Code b (lit "css");
                  Code c (lit "javascript"); w]
        | None => None
        end
    | _, _, _, _ => None
    end.
Proof.
  rewrite <- pavi_category_backend.
  unfold AppPavi.display_output.
  assert (subscript (AppPavi.entry (VDict d) code now) (lit "task")
          = Some (VDict d)) as -> by reflexivity.
  assert (subscript (AppPavi.entry (VDict d) code now) (lit "code")
          = Some code) as -> by reflexivity.
  assert (subscript (AppPavi.entry (VDict d) code now) (lit "generated_at")
          = Some (VStr (strftime_HMS now))) as -> by reflexivity.
  unfold get_default at 1 2.
  destruct (dict_get (lit "name") d);
    destruct (dict_get (lit "category") d); reflexivity.
Qed.

(** X10: in every reachable state of app_pavi.py each stored artifact is
    shown without an exception and without any of the "not generated"
    defaults: the display picks its tabs by the same test as the
    dispatch, so the stored record has exactly the four fields of the
    tabs shown, all of them strings, and the dependencies are shown as
    text, never through the list branch. *)
Theorem stored_artifact_display (R : Runtime) (s : AppPavi.state)
  (k : pystr) (e : value) :
  AppPavi.reachable s ->
  In (k, e) (AppPavi.code_outputs s) ->
  exists task code x1 x2 x3 x4,
    subscript e (lit "task") = Some task
    /\ subscript e (lit "code") = Some code
    /\ ((AppPavi.select_developer task = AppPavi.BackendDeveloper
         /\ code = VDict [(lit "models", VStr x1); (lit "routes", VStr x2);
                          (lit "logic", VStr x3);
                          (lit "dependencies", VStr x4)]
         /\ AppPavi.display_output e
            = Some [Code (VStr x1) (lit "python");
                    Code (VStr x2) (lit "python");
                    Code (VStr x3) (lit "python");
                    Code (VStr x4) (lit "text")])
        \/ (AppPavi.select_developer task = AppPavi.FrontendDeveloper
            /\ code = VDict [(lit "component", VStr x1);
                             (lit "styles", VStr x2);
                             (lit "hooks", VStr x3);
                             (lit "dependencies", VStr x4)]
            /\ AppPavi.display_output e
               = Some [Code (VStr x1) (lit "javascript");
                       Code (VStr x2) (lit "css");
                       Code (VStr x3) (lit "javascript");
                       Code (VStr x4) (lit "text")])).
Proof.
  intros Hs Hin.
  apply pavi_reachable_shape in Hs. rewrite Forall_forall in Hs.
  destruct (Hs _ Hin) as (task & code & now & He & Hd & _ & Hsh).
  simpl in He. subst e.
  destruct task as [| | | | | |d]; try discriminate.
  rewrite pavi_display_entry. unfold pavi_to_backend.
  destruct (AppPavi.select_developer (VDict d)) eqn:Esel;
    destruct Hsh as (x1 & x2 & x3 & x4 & ->);
    exists (VDict d); eexists; exists x1, x2, x3, x4;
    (split; [reflexivity|]); (split; [reflexivity|]); [left|right];
    (split; [exact Esel|]); split; reflexivity.
Qed.

Lemma stored_artifact_display_witness :
  AppPavi.reachable (R := plain_runtime) pavi_state
  /\ AppPavi.display_output (AppPavi.entry pavi_task pavi_code noon)
     = Some [Code (VStr (lit "class Post: pass")) (lit "python");
             Code (VStr []) (lit "python");
             Code (VStr []) (lit "python");
             Code (VStr []) (lit "text")].
Proof.
  split; [exact (pavi_state_reachable plain_runtime)|].
  destruct (stored_artifact_display plain_runtime pavi_state (lit "task_1")
              (AppPavi.entry pavi_task pavi_code noon)
              (pavi_state_reachable plain_runtime)
              (or_introl eq_refl))
    as (task & code & x1 & x2 & x3 & x4 & Ht & Hc & Hcases).
  reflexivity.
Defined.

Lemma app_agent_type_backend d :
  eq_str match dict_get (lit "agent_type") d with
         | Some x => x
         | None => VNone
         end (lit "BACKEND")
  = app_to_backend (VDict d).
Proof.
  unfold app_to_backend, App.select_agent, get_default.
  destruct (dict_get (lit "agent_type") d) as [v|].
  - destruct (eq_str v (lit "BACKEND")); reflexivity.
  - reflexivity.
Qed.

Lemma app_display_entry {R : Runtime} d code now :
  App.display_code (App.entry (VDict d) code now) =
  if app_to_backend (VDict d) then
    match
      get_default code (lit "database_schema")
        (VStr (lit "No schema generated")),
      get_default code (lit "api_endpoints")
        (VStr (lit "No endpoints generated")),
      get_default code (lit "business_logic")
        (VStr (lit "No business logic generated")),
      get_default code (lit "requirements")
        (VStr (lit "No requirements specified"))
    with
    | Some a, Some b, Some c, Some r =>
        Some [Code a (lit "python"); Code b (lit "python");
              Code c (lit "python"); App.list_or_text r]
    | _, _, _, _ => None
    end
  else
    match
      get_default code (lit "component_code")
        (VStr (lit "No component generated")),
      get_default code (lit "styling") (VStr (lit "No styling provided")),
      get_default code (lit "api_integration")
        (VStr (lit "No API integration provided")),
      get_default code (lit "dependencies")
        (VStr (lit "No dependencies specified"))
    with
    | Some a, Some b, Some c, Some r =>
        Some [Code a (lit "javascript"); Code b (lit "css");
              Code c (lit "javascript"); App.list_or_text r]
    | _, _, _, _ => None
    end.
Proof.
  rewrite <- app_agent_type_backend.
  unfold App.display_code.
  assert (subscript (App.entry (VDict d) code now) (lit "task")
          = Some (VDict d)) as -> by reflexivity.
  assert (subscript (App.entry (VDict d) code now) (lit "code")
          = Some code) as -> by reflexivity.
  assert (subscript (App.entry (VDict d) code now) (lit "timestamp")
          = Some (VStr (strftime_Ymd_HMS now))) as -> by reflexivity.
  unfold get_default at 1 2.
  destruct (dict_get (lit "title") d);
    destruct (dict_get (lit "agent_type") d); reflexivity.
Qed.

(** X11: in every reachable state of app.py each stored artifact belongs
    to a task that is a dict and has the title and the requirements the
    prompt reads, and the page shows it without an exception exactly when
    the stored code is a dict; code that is no dict (a reply without a
    braced span that is itself a JSON value) makes the display raise. *)
Theorem stored_code_display (R : Runtime) (s : App.state)
  (k : pystr) (e : value) :
  App.reachable s ->
  In (k, e) (App.generated_code s) ->
  exists task code,
    subscript e (lit "task") = Some task
    /\ subscript e (lit "code") = Some code
    /\ App.is_dict task = true
    /\ App.prompt_fields task <> None
    /\ (App.display_code e <> None <-> App.is_dict code = true).
Proof.
  intros Hs Hin.
  apply app_reachable_shape in Hs. rewrite Forall_forall in Hs.
  destruct (Hs _ Hin) as (task & code & now & He & Hd & Hp).
  simpl in He. subst e. exists task, code.
  split; [reflexivity|]. split; [reflexivity|].
  split; [exact Hd|]. split; [exact Hp|].
  destruct task as [| | | | | |d]; try discriminate.
  rewrite app_display_entry.
  destruct code; simpl;
    try (destruct (app_to_backend (VDict d)); split; congruence).
  unfold get_default.
  destruct (app_to_backend (VDict d));
    repeat match goal with
           | |- context [dict_get ?k ?d] => destruct (dict_get k d)
           end; split; congruence.
Qed.

Lemma stored_code_display_witness :
  App.reachable (R := plain_runtime) blog_state
  /\ App.display_code (R := plain_runtime)
       (App.entry blog_task blog_code noon) <> None.
Proof.
  split; [exact (blog_state_reachable plain_runtime)|].
  destruct (stored_code_display plain_runtime blog_state (lit "task_1")
              (App.entry blog_task blog_code noon)
              (blog_state_reachable plain_runtime) (or_introl eq_refl))
    as (task & code & Ht & Hc & _ & _ & Hiff).
  apply Hiff. vm_compute in Hc. injection Hc as <-. reflexivity.
Defined.

(** ** Counts, filters and dispatch *)

Lemma filter_split_length {A} (p : A -> bool) (l : list A) :
  (List.length (filter p l) + List.length (filter (fun x => negb (p x)) l)
   = List.length l)%nat.
Proof.
  induction l as [|x l IH]; simpl; [reflexivity|].
  destruct (p x); simpl; lia.
Qed.

Lemma filter_length_le {A} (p q : A -> bool) (l : list A) :
  (forall x, p x = true -> q x = true) ->
  (List.length (filter p l) <= List.length (filter q l))%nat.
Proof.
  intros Hpq. induction l as [|x l IH]; simpl; [lia|].
  destruct (p x) eqn:Ep.
  - rewrite (Hpq x Ep). simpl; lia.
  - destruct (q x); simpl; lia.
Qed.

Lemma pavi_category_is_backend t :
  AppPavi.category_is (lit "BACKEND") t = pavi_to_backend t.
Proof.
  unfold AppPavi.category_is, pavi_to_backend, AppPavi.select_developer,
    get_default.
  destruct t; try reflexivity.
  destruct (dict_get (lit "category") d) as [v|]; [|reflexivity].
  destruct (eq_str v (lit "BACKEND")); reflexivity.
Qed.

Lemma pavi_category_is_frontend t :
  AppPavi.category_is (lit "FRONTEND") t = true ->
  negb (pavi_to_backend t) = true.
Proof.
  rewrite <- pavi_category_is_backend.
  unfold AppPavi.category_is.
  destruct (get_default t (lit "category") VNone) as [v|]; [|discriminate].
  intros Hf. apply eq_str_true in Hf. subst v. reflexivity.
Qed.

Lemma app_agent_type_is_backend t :
  App.agent_type_is (lit "BACKEND") t = app_to_backend t.
Proof.
  unfold App.agent_type_is, app_to_backend, App.select_agent, get_default.
  destruct t; try reflexivity.
  destruct (dict_get (lit "agent_type") d) as [v|]; [|reflexivity].
  destruct (eq_str v (lit "BACKEND")); reflexivity.
Qed.

Lemma app_agent_type_is_frontend t :
  App.agent_type_is (lit "FRONTEND") t = true ->
  negb (app_to_backend t) = true.
Proof.
  rewrite <- app_agent_type_is_backend.
  unfold App.agent_type_is.
  destruct (get_default t (lit "agent_type") VNone) as [v|]; [|discriminate].
  intros Hf. apply eq_str_true in Hf. subst v. reflexivity.
Qed.

(** X12: the counts agree with the dispatch only in part.  In app_pavi.py
    the backend metric counts the tasks dispatched to the backend
    developer and the frontend metric all the others, which are the
    tasks dispatched to the frontend developer, so the two add up to the
    number of tasks, while the "Frontend Only" filter can list fewer.  In
    app.py the backend metric counts the tasks dispatched to the backend
    agent, but the frontend metric counts only the tasks typed FRONTEND,
    so the two can add up to less than the total. *)
Theorem counts_and_dispatch :
  (forall s b f,
      AppPavi.project_stats s = Some (AppPavi.Metrics b f) ->
      exists l,
        AppPavi.task_list s = VList l
        /\ b = List.length (filter pavi_to_backend l)
        /\ f = List.length (filter (fun t => negb (pavi_to_backend t)) l)
        /\ (b + f = List.length l)%nat
        /\ List.length (AppPavi.filtered_tasks AppPavi.BackendOnly l) = b
        /\ (List.length (AppPavi.filtered_tasks AppPavi.FrontendOnly l)
            <= f)%nat)
  /\ (forall s n b f,
        App.task_summary s = Some (n, b, f) ->
        exists l,
          App.tasks s = VList l
          /\ n = List.length l
          /\ b = List.length (filter app_to_backend l)
          /\ (f <= List.length (filter (fun t => negb (app_to_backend t)) l))%nat
          /\ (b + f <= n)%nat).
Proof.
  split.
  - intros s b f. unfold AppPavi.project_stats.
    destruct (truthy (AppPavi.task_list s)); [|discriminate].
    destruct (AppPavi.task_list s) as [| | | | |l|]; try discriminate.
    destruct (forallb AppPavi.is_dict l); [|discriminate].
    intros [= <- <-]. exists l.
    rewrite (filter_ext _ _ pavi_category_is_backend l).
    pose proof (filter_split_length pavi_to_backend l) as Hsplit.
    split; [reflexivity|]. split; [reflexivity|].
    split; [lia|]. split; [lia|]. split.
    + simpl. rewrite (filter_ext _ _ pavi_category_is_backend l).
      reflexivity.
    + simpl.
      pose proof (filter_length_le (AppPavi.category_is (lit "FRONTEND"))
                    (fun t => negb (pavi_to_backend t)) l
                    pavi_category_is_frontend).
      lia.
  - intros s n b f. unfold App.task_summary.
    destruct (App.tasks s) as [| | | | |l|]; try discriminate.
    destruct (forallb App.is_dict l); [|discriminate].
    intros [= <- <- <-]. exists l.
    rewrite (filter_ext _ _ app_agent_type_is_backend l).
    pose proof (filter_split_length app_to_backend l) as Hsplit.
    pose proof (filter_length_le (App.agent_type_is (lit "FRONTEND"))
                  (fun t => negb (app_to_backend t)) l
                  app_agent_type_is_frontend) as Hle.
    split; [reflexivity|]. split; [reflexivity|]. split; [reflexivity|].
    split; lia.
Qed.

Lemma counts_and_dispatch_witness :
  AppPavi.project_stats mixed_state = Some (AppPavi.Metrics 1 2)
  /\ List.length
       (AppPavi.filtered_tasks AppPavi.FrontendOnly
          [pavi_task; form_task; docs_task]) = 1%nat
  /\ exists l,
      AppPavi.task_list mixed_state = VList l
      /\ 1%nat = List.length (filter pavi_to_backend l)
      /\ 2%nat = List.length (filter (fun t => negb (pavi_to_backend t)) l)
      /\ (1 + 2 = List.length l)%nat
      /\ List.length (AppPavi.filtered_tasks AppPavi.BackendOnly l) = 1%nat
      /\ (List.length (AppPavi.filtered_tasks AppPavi.FrontendOnly l)
          <= 2)%nat.
Proof.
  assert (AppPavi.project_stats mixed_state = Some (AppPavi.Metrics 1 2))
    as Hs by (vm_compute; reflexivity).
  split; [exact Hs|]. split; [vm_compute; reflexivity|].
  exact (proj1 counts_and_dispatch mixed_state 1%nat 2%nat Hs).
Defined.

Lemma filter_nth_error {A} (p : A -> bool) (l : list A) i x :
  nth_error (filter p l) i = Some x -> In x l /\ p x = true.
Proof.
  intros Hn. apply nth_error_In in Hn. apply filter_In in Hn. exact Hn.
Qed.

(** X13: a row of a filtered view of app_pavi.py is a task of the task
    list, and its generation goes to the developer the filter names:
    under "Backend Only" to the backend developer, under "Frontend Only"
    to the frontend developer.  A task whose category is neither value is
    in neither filtered view, although it is dispatched to the frontend
    developer from the unfiltered view. *)
Theorem filtered_rows_dispatch (R : Runtime) (s : AppPavi.state)
  (f : AppPavi.filter_option) (idx : nat) (task : value) (key : pystr) :
  AppPavi.row s f idx = Some (task, key) ->
  exists l,
    AppPavi.task_list s = VList l
    /\ In task l
    /\ match f with
       | AppPavi.AllTasks => True
       | AppPavi.BackendOnly =>
           AppPavi.select_developer task = AppPavi.BackendDeveloper
       | AppPavi.FrontendOnly =>
           AppPavi.select_developer task = AppPavi.FrontendDeveloper
           /\ AppPavi.category_is (lit "FRONTEND") task = true
       end.
Proof.
  intros Hr. apply pavi_row_inv in Hr as (l & Hl & Hn & _).
  exists l. split; [exact Hl|]. destruct f; simpl in Hn.
  - split; [eapply nth_error_In; eauto | exact I].
  - apply filter_nth_error in Hn as [Hin Hc]. split; [exact Hin|].
    rewrite pavi_category_is_backend in Hc. unfold pavi_to_backend in Hc.
    destruct (AppPavi.select_developer task); [reflexivity|discriminate].
  - apply filter_nth_error in Hn as [Hin Hc]. split; [exact Hin|].
    split; [|exact Hc].
    apply pavi_category_is_frontend in Hc. unfold pavi_to_backend in Hc.
    destruct (AppPavi.select_developer task); [discriminate|reflexivity].
Qed.

Lemma filtered_rows_dispatch_witness :
  AppPavi.row (R := plain_runtime) mixed_state AppPavi.FrontendOnly 0
  = Some (form_task, lit "task_0")
  /\ AppPavi.row (R := plain_runtime) mixed_state AppPavi.AllTasks 1
     = Some (form_task, lit "task_1")
  /\ AppPavi.row (R := plain_runtime) mixed_state AppPavi.FrontendOnly 1
     = None
  /\ exists l,
      AppPavi.task_list mixed_state = VList l
      /\ In form_task l
      /\ AppPavi.select_developer form_task = AppPavi.FrontendDeveloper
      /\ AppPavi.category_is (lit "FRONTEND") form_task = true.
Proof.
  assert (AppPavi.row (R := plain_runtime) mixed_state AppPavi.FrontendOnly 0
          = Some (form_task, lit "task_0")) as Hr by (vm_compute; reflexivity).
  split; [exact Hr|]. split; [vm_compute; reflexivity|].
  split; [vm_compute; reflexivity|].
  exact (filtered_rows_dispatch plain_runtime mixed_state
           AppPavi.FrontendOnly 0%nat form_task (lit "task_0") Hr).
Defined.

(** ** Keys *)

Lemma lit_inj a b : lit a = lit b -> a = b.
Proof.
  unfold lit. intros Hm.
  assert (list_ascii_of_string a = list_ascii_of_string b) as Hl.
  { revert Hm. generalize (list_ascii_of_string a) (list_ascii_of_string b).
    intros la. induction la as [|x la IH]; intros [|y lb]; simpl;
      try discriminate; [reflexivity|].
    intros [= Hx Hr]. f_equal; [|apply IH; exact Hr].
    rewrite <- (ascii_N_embedding x), <- (ascii_N_embedding y), Hx.
    reflexivity. }
  rewrite <- (string_of_list_ascii_of_string a),
    <- (string_of_list_ascii_of_string b), Hl.
  reflexivity.
Qed.

Lemma to_int_not_nil z :
  Z.to_int z <> Decimal.Pos Decimal.Nil
  /\ Z.to_int z <> Decimal.Neg Decimal.Nil.
Proof.
  destruct z as [|p|p]; simpl; split; try discriminate;
    intros [= Hp]; exact (DecimalPos.Unsigned.to_uint_nonnil p Hp).
Qed.

Lemma str_of_Z_inj z z' : str_of_Z z = str_of_Z z' -> z = z'.
Proof.
  unfold str_of_Z. intros Hs. apply lit_inj in Hs.
  apply DecimalZ.to_int_inj.
  destruct (to_int_not_nil z) as [Hp Hn].
  destruct (to_int_not_nil z') as [Hp' Hn'].
  pose proof (NilZero.isi _ Hp Hn) as H1.
  pose proof (NilZero.isi _ Hp' Hn') as H2.
  rewrite Hs in H1. congruence.
Qed.

(** X14: a task that carries an id ([task_id] in app.py, [id] in
    app_pavi.py) has the same key at every position, hence under every
    filter; a task without one is keyed by its position in the list
    shown (counted from 1 in app.py, from 0 in app_pavi.py), so that at
    two different positions it has two different keys. *)
Theorem key_by_id_or_position (R : Runtime) (d : dict) :
  (forall v i,
      dict_get (lit "task_id") d = Some v ->
      App.task_key (VDict d) i = Some (lit "task_" ++ py_str v))
  /\ (dict_get (lit "task_id") d = None ->
      forall i j,
        App.task_key (VDict d) i
        = Some (lit "task_" ++ str_of_Z (Z.of_nat i + 1))
        /\ (App.task_key (VDict d) i = App.task_key (VDict d) j -> i = j))
  /\ (forall v i,
        dict_get (lit "id") d = Some v ->
        AppPavi.task_key (VDict d) i = Some (lit "task_" ++ py_str v))
  /\ (dict_get (lit "id") d = None ->
      forall i j,
        AppPavi.task_key (VDict d) i
        = Some (lit "task_" ++ str_of_Z (Z.of_nat i))
        /\ (AppPavi.task_key (VDict d) i = AppPavi.task_key (VDict d) j ->
            i = j)).
Proof.
  unfold App.task_key, AppPavi.task_key, get_default.
  split; [|split; [|split]].
  - intros v i ->. reflexivity.
  - intros ->. intros i j. split; [reflexivity|].
    simpl. intros [= Hk]. apply str_of_Z_inj in Hk. lia.
  - intros v i ->. reflexivity.
  - intros ->. intros i j. split; [reflexivity|].
    simpl. intros [= Hk]. apply str_of_Z_inj in Hk. lia.
Qed.

Lemma key_by_id_or_position_witness :
  AppPavi.task_key (R := plain_runtime) pavi_task 0 = Some (lit "task_1")
  /\ AppPavi.task_key (R := plain_runtime) pavi_task 7 = Some (lit "task_1")
  /\ AppPavi.task_key (R := plain_runtime) form_task 0 = Some (lit "task_0")
  /\ AppPavi.task_key (R := plain_runtime) form_task 1 = Some (lit "task_1").
Proof.
  destruct (key_by_id_or_position plain_runtime
              [(lit "id", VInt 1);
               (lit "name", VStr (lit "Design post schema"));
               (lit "category", VStr (lit "BACKEND"));
               (lit "description", VStr (lit "Tables for posts and comments"));
               (lit "priority", VStr (lit "High"))])
    as (_ & _ & Hid & _).
  destruct (key_by_id_or_position plain_runtime
              [(lit "name", VStr (lit "Post form"));
               (lit "category", VStr (lit "FRONTEND"));
               (lit "description", VStr (lit "A form for new posts"))])
    as (_ & _ & _ & Hpos).
  split; [exact (Hid (VInt 1) 0%nat eq_refl)|].
  split; [exact (Hid (VInt 1) 7%nat eq_refl)|].
  split; [exact (proj1 (Hpos eq_refl 0%nat 0%nat))|].
  exact (proj1 (Hpos eq_refl 1%nat 1%nat)).
Defined.

(** ** After a reset *)

(** X16: after a reset no row is on the page, so that nothing can be
    generated, regenerated or exported until a brief is decomposed
    again: the only runs that follow "Clear All Tasks" (app.py) are the
    key entry, another clear and a decomposition, and likewise after
    "Reset Everything" and "Edit Tasks" (app_pavi.py). *)
Theorem after_reset_only_decompose (R : Runtime) :
  (forall s e s',
      App.step (App.clear_all s) e = Some s' ->
      (exists key, e = App.EnterKey key) \/ e = App.ClearAll
      \/ exists brief c, e = App.Decompose brief c)
  /\ (forall s e s',
        AppPavi.step (AppPavi.reset s) e = Some s'
        \/ AppPavi.step (AppPavi.edit_tasks s) e = Some s' ->
        (exists key, e = AppPavi.EnterKey key) \/ e = AppPavi.Reset
        \/ exists input c, e = AppPavi.Analyze input c)
  /\ (forall s now,
        AppPavi.export (AppPavi.reset s) now = None
        /\ AppPavi.export (AppPavi.edit_tasks s) now = None).
Proof.
  split; [|split].
  - intros s e s'. destruct e as [key| |brief c|i c now|i]; simpl; eauto.
    + unfold App.generate, App.row; simpl.
      destruct (App.nonempty (App.api_key s)); [|discriminate].
      destruct i; discriminate.
    + unfold App.regenerate, App.row; simpl.
      destruct (App.nonempty (App.api_key s)); [|discriminate].
      destruct i; discriminate.
  - intros s e s'.
    destruct e as [key| | |input c|f idx c now|f idx]; simpl; eauto.
    + rewrite !andb_false_r. intros [H|H]; discriminate.
    + unfold AppPavi.generate, AppPavi.row; simpl.
      destruct (AppPavi.nonempty (AppPavi.openai_key s)); simpl;
        [|intros [H|H]; discriminate].
      destruct f, idx; simpl; intros [H|H]; discriminate.
    + unfold AppPavi.regenerate, AppPavi.row; simpl.
      destruct (AppPavi.nonempty (AppPavi.openai_key s)); simpl;
        [|intros [H|H]; discriminate].
      destruct f, idx; simpl; intros [H|H]; discriminate.
  - intros s now. unfold AppPavi.export, AppPavi.rendered. simpl.
    destruct (AppPavi.nonempty (AppPavi.openai_key s)); simpl; auto.
Qed.

Lemma after_reset_only_decompose_witness :
  App.step (R := plain_runtime) (App.clear_all blog_state)
    (App.Generate 0 (Content (lit "{}")) noon) = None
  /\ App.step (R := plain_runtime) (App.clear_all blog_state)
       (App.Regenerate 0) = None.
Proof.
  destruct (after_reset_only_decompose plain_runtime) as [A _].
  split.
  - destruct (App.step (R := plain_runtime) (App.clear_all blog_state)
                (App.Generate 0 (Content (lit "{}")) noon)) as [s'|] eqn:E;
      [|reflexivity].
    destruct (A _ _ _ E) as [[key Hk]|[Hk|(b & c & Hk)]]; discriminate.
  - destruct (App.step (R := plain_runtime) (App.clear_all blog_state)
                (App.Regenerate 0)) as [s'|] eqn:E; [|reflexivity].
    destruct (A _ _ _ E) as [[key Hk]|[Hk|(b & c & Hk)]]; discriminate.
Defined.

(** * Further properties of the section extraction *)

(** ** Trimming *)

Lemma lstrip_idem s : lstrip (lstrip s) = lstrip s.
Proof.
  induction s as [|c s IH]; simpl; [reflexivity|].
  destruct (isspace c) eqn:E; [exact IH|]. simpl. rewrite E. reflexivity.
Qed.

Lemma lstrip_app_last u c :
  isspace c = false -> lstrip (u ++ [c]) = lstrip u ++ [c].
Proof.
  intros Hc. induction u as [|x u IH]; simpl.
  - rewrite Hc. reflexivity.
  - destruct (isspace x); [exact IH|reflexivity].
Qed.

Lemma rstrip_cons c s :
  isspace c = false -> rstrip (c :: s) = c :: rstrip s.
Proof.
  intros Hc. unfold rstrip. simpl.
  rewrite (lstrip_app_last _ _ Hc), rev_app_distr. reflexivity.
Qed.

Lemma rstrip_idem s : rstrip (rstrip s) = rstrip s.
Proof.
  unfold rstrip. rewrite rev_involutive, lstrip_idem. reflexivity.
Qed.

Lemma lstrip_fixed_rstrip s : lstrip s = s -> lstrip (rstrip s) = rstrip s.
Proof.
  destruct s as [|c s]; [reflexivity|]. simpl.
  destruct (isspace c) eqn:E.
  - intros Hl. exfalso.
    assert (List.length (lstrip s) <= List.length s)%nat as Hlen.
    { clear. induction s as [|x s IH]; simpl; [lia|].
      destruct (isspace x); simpl; lia. }
    rewrite Hl in Hlen. simpl in Hlen. lia.
  - intros _. rewrite (rstrip_cons _ _ E). simpl. rewrite E. reflexivity.
Qed.

Lemma lstrip_strip s : lstrip (strip s) = strip s.
Proof. unfold strip. apply lstrip_fixed_rstrip, lstrip_idem. Qed.

Lemma rstrip_strip s : rstrip (strip s) = strip s.
Proof. unfold strip. apply rstrip_idem. Qed.

Lemma strip_idem s : strip (strip s) = strip s.
Proof.
  unfold strip at 1. rewrite lstrip_strip. apply rstrip_strip.
Qed.

(** X17: every field of the record either developer of app_pavi.py cuts
    from a reply is trimmed text: stripping it again changes nothing, so
    no field begins or ends with whitespace, whichever markers the reply
    holds. *)
Theorem section_fields_are_trimmed (reply : pystr) :
  (exists a b c d,
      AppPavi.backend_sections reply
      = VDict [(lit "models", VStr a); (lit "routes", VStr b);
               (lit "logic", VStr c); (lit "dependencies", VStr d)]
      /\ strip a = a /\ strip b = b /\ strip c = c /\ strip d = d)
  /\ (exists a b c d,
         AppPavi.frontend_sections reply
         = VDict [(lit "component", VStr a); (lit "styles", VStr b);
                  (lit "hooks", VStr c); (lit "dependencies", VStr d)]
         /\ strip a = a /\ strip b = b /\ strip c = c /\ strip d = d).
Proof.
  assert (forall o n s, strip (AppPavi.section o n s) = AppPavi.section o n s)
    as Hsec.
  { intros o n s. unfold AppPavi.section.
    destruct (section_search o n s); [apply strip_idem|reflexivity]. }
  split.
  - unfold AppPavi.backend_sections.
    destruct (AppPavi.any_nonempty _).
    + do 4 eexists. split; [reflexivity|]. repeat split; apply Hsec.
    + do 4 eexists. split; [reflexivity|].
      split; [apply strip_idem|]. repeat split; reflexivity.
  - unfold AppPavi.frontend_sections.
    destruct (AppPavi.any_nonempty _).
    + do 4 eexists. split; [reflexivity|]. repeat split; apply Hsec.
    + do 4 eexists. split; [reflexivity|].
      split; [apply strip_idem|]. repeat split; apply Hsec.
Qed.

(** ** What a section captures *)

Lemma after_prefix_app p s r : after_prefix p s = Some r -> s = p ++ r.
Proof.
  revert s. induction p as [|x p IH]; intros [|y s]; simpl;
    try discriminate; try (intros [= <-]; reflexivity).
  destruct (x =? y) eqn:E; [|discriminate].
  apply N.eqb_eq in E; subst y. intros Hp. rewrite (IH _ Hp) at 1.
  reflexivity.
Qed.

Lemma lstrip_suffix s : exists h, s = h ++ lstrip s.
Proof.
  induction s as [|c s [h IH]]; simpl; [exists []; reflexivity|].
  destruct (isspace c).
  - exists (c :: h). simpl. rewrite <- IH. reflexivity.
  - exists []. reflexivity.
Qed.

Lemma expect_nocase_suffix p s r :
  expect_nocase p s = Some r -> exists h, s = h ++ r.
Proof.
  revert s. induction p as [|x p IH]; intros [|y s]; simpl;
    try discriminate; try (intros [= <-]; exists []; reflexivity).
  destruct (matches_nocase x y); [|discriminate].
  intros Hp. destruct (IH _ Hp) as [h ->]. exists (y :: h). reflexivity.
Qed.

Lemma marker_start_suffix o s r :
  marker_start o s = Some r -> exists h, s = h ++ r.
Proof.
  unfold marker_start.
  destruct (after_prefix o s) as [r1|] eqn:E1; [|discriminate].
  intros E2. apply after_prefix_app in E1, E2.
  destruct (lstrip_suffix r1) as [h1 H1].
  exists (o ++ h1 ++ lit "==="). rewrite E1, H1, E2 at 1.
  rewrite <- !app_assoc. reflexivity.
Qed.

Lemma header_suffix o n s r :
  header o n s = Some r -> exists h, s = h ++ r.
Proof.
  unfold header.
  destruct (marker_start o s) as [r1|] eqn:E1; [|discriminate].
  destruct (expect_nocase n (lstrip r1)) as [r2|] eqn:E2; [|discriminate].
  destruct (after_prefix (lit "===") (lstrip r2)) as [r3|] eqn:E3;
    [|discriminate].
  intros [= <-].
  apply marker_start_suffix in E1 as [h1 H1].
  apply expect_nocase_suffix in E2 as [h2 H2].
  apply after_prefix_app in E3.
  destruct (lstrip_suffix r1) as [w1 W1].
  destruct (lstrip_suffix r2) as [w2 W2].
  destruct (lstrip_suffix r3) as [w3 W3].
  exists (h1 ++ w1 ++ h2 ++ w2 ++ lit "===" ++ w3).
  rewrite H1, W1, H2, W2, E3, W3 at 1.
  rewrite <- !app_assoc. reflexivity.
Qed.

Lemma lazy_capture_spec o s :
  exists rest,
    s = lazy_capture o s ++ rest
    /\ lookahead o rest = true
    /\ forall a b, lazy_capture o s = a ++ b -> b <> [] ->
                   lookahead o (b ++ rest) = false.
Proof.
  induction s as [|c s (rest & Hs & Hl & Hn)].
  - exists []. simpl. destruct (lookahead o []) eqn:E.
    + repeat split. intros a b Hab. destruct a, b; try discriminate.
      congruence.
    + unfold lookahead in E. destruct (marker_start o []); discriminate.
  - simpl. destruct (lookahead o (c :: s)) eqn:E.
    + exists (c :: s). repeat split; [exact E|].
      intros a b Hab. destruct a, b; try discriminate. congruence.
    + exists rest. split; [simpl; rewrite <- Hs; reflexivity|].
      split; [exact Hl|].
      intros a b Hab Hb. destruct a as [|x a].
      * simpl in Hab. subst b. simpl. rewrite <- Hs. exact E.
      * simpl in Hab. injection Hab as _ Hab. eapply Hn; eauto.
Qed.

(** X18: the text captured for a section starts right after its header
    and the whitespace behind it, and stops where the next marker starts
    -- a marker of any name, recognised or not -- or at the end of the
    reply (or before its final newline); inside the captured text no
    marker starts.  So the text below an unrecognised marker belongs to
    no field. *)
Theorem section_capture_bounds (opener name s g : pystr) :
  section_search opener name s = Some g ->
  exists pre h rest,
    s = pre ++ h ++ g ++ rest
    /\ header opener name (h ++ g ++ rest) = Some (g ++ rest)
    /\ lookahead opener rest = true
    /\ forall a b, g = a ++ b -> b <> [] ->
                   lookahead opener (b ++ rest) = false.
Proof.
  induction s as [|c s IH].
  - simpl. destruct (header opener name []) as [r|] eqn:Eh; [|discriminate].
    intros [= <-].
    destruct (header_suffix _ _ _ _ Eh) as [h Hh].
    destruct (lazy_capture_spec opener r) as (rest & Hr & Hl & Hn).
    exists [], h, rest. simpl. rewrite <- Hr, <- Hh. auto.
  - simpl. destruct (header opener name (c :: s)) as [r|] eqn:Eh.
    + intros [= <-].
      destruct (header_suffix _ _ _ _ Eh) as [h Hh].
      destruct (lazy_capture_spec opener r) as (rest & Hr & Hl & Hn).
      exists [], h, rest. simpl. rewrite <- Hr, <- Hh. auto.
    + intros Hs. destruct (IH Hs) as (pre & h & rest & Hs' & Hrest).
      exists (c :: pre), h, rest. simpl. rewrite <- Hs'. auto.
Qed.

Lemma section_capture_example :
  section_search (lit "#") (lit "API ROUTES")
    (lit "# === API ROUTES === r = 1 # === NOTES === remember") 
  = Some (lit "r = 1 ").
Proof. vm_compute; reflexivity. Qed.

Lemma section_capture_bounds_witness :
  exists pre h rest,
    lit "# === API ROUTES === r = 1 # === NOTES === remember"
    = pre ++ h ++ lit "r = 1 " ++ rest
    /\ header (lit "#") (lit "API ROUTES") (h ++ lit "r = 1 " ++ rest)
       = Some (lit "r = 1 " ++ rest)
    /\ lookahead (lit "#") rest = true
    /\ forall a b, lit "r = 1 " = a ++ b -> b <> [] ->
                   lookahead (lit "#") (b ++ rest) = false.
Proof.
  exact (section_capture_bounds (lit "#") (lit "API ROUTES")
           (lit "# === API ROUTES === r = 1 # === NOTES === remember")
           (lit "r = 1 ") section_capture_example).
Defined.

(** ** A reply in the requested layout *)

Lemma lstrip_length s : (List.length (lstrip s) <= List.length s)%nat.
Proof.
  induction s as [|x s IH]; simpl; [lia|].
  destruct (isspace x); simpl; lia.
Qed.

Lemma lstrip_fixed_head c s : lstrip (c :: s) = c :: s -> isspace c = false.
Proof.
  simpl. destruct (isspace c); [|reflexivity].
  intros Hl. pose proof (lstrip_length s) as Hlen.
  rewrite Hl in Hlen. simpl in Hlen. lia.
Qed.

Lemma trimmed_lstrip x : strip x = x -> lstrip x = x.
Proof. intros Hx. rewrite <- Hx. apply lstrip_strip. Qed.

Lemma trimmed_rstrip x : strip x = x -> rstrip x = x.
Proof. intros Hx. rewrite <- Hx. apply rstrip_strip. Qed.

Lemma lstrip_app_trimmed x t :
  x <> [] -> lstrip x = x -> lstrip (x ++ t) = x ++ t.
Proof.
  destruct x as [|c x]; [congruence|]. intros _ Hl.
  apply lstrip_fixed_head in Hl. simpl. rewrite Hl. reflexivity.
Qed.

Lemma rstrip_app_trimmed u d :
  d <> [] -> rstrip d = d -> rstrip (u ++ d) = u ++ d.
Proof.
  intros Hd Hr. unfold rstrip in *. rewrite rev_app_distr.
  assert (lstrip (rev d) = rev d) as Hl.
  { apply (f_equal (@rev N)) in Hr. rewrite rev_involutive in Hr. exact Hr. }
  rewrite lstrip_app_trimmed; [| |exact Hl].
  - rewrite rev_app_distr, !rev_involutive. reflexivity.
  - intros He. apply Hd. rewrite <- (rev_involutive d), He. reflexivity.
Qed.

Lemma rstrip_newline x : rstrip (x ++ [10]) = rstrip x.
Proof. unfold rstrip. rewrite rev_app_distr. reflexivity. Qed.

Lemma strip_section_newline x :
  x <> [] -> strip x = x -> strip (x ++ [10]) = x.
Proof.
  intros Hx Hs. unfold strip.
  rewrite (lstrip_app_trimmed _ _ Hx (trimmed_lstrip _ Hs)).
  rewrite rstrip_newline. apply trimmed_rstrip; exact Hs.
Qed.

Lemma rstrip_length s : (List.length (rstrip s) <= List.length s)%nat.
Proof.
  unfold rstrip. rewrite length_rev.
  pose proof (lstrip_length (rev s)) as H. rewrite length_rev in H. exact H.
Qed.

Lemma trimmed_no_final_newline d p : rstrip d = d -> d <> p ++ [10].
Proof.
  intros Hr ->. rewrite rstrip_newline in Hr.
  pose proof (rstrip_length p) as Hlen. rewrite Hr in Hlen.
  rewrite length_app in Hlen. simpl in Hlen. lia.
Qed.

Lemma header_needs_opener c0 o n y t :
  y <> c0 -> header (c0 :: o) n (y :: t) = None.
Proof.
  intros Hy. unfold header, marker_start. simpl.
  destruct (c0 =? y) eqn:E; [|reflexivity].
  apply N.eqb_eq in E. congruence.
Qed.

Lemma marker_needs_opener c0 o y t :
  y <> c0 -> marker_start (c0 :: o) (y :: t) = None.
Proof.
  intros Hy. unfold marker_start. simpl.
  destruct (c0 =? y) eqn:E; [|reflexivity].
  apply N.eqb_eq in E. congruence.
Qed.

Lemma search_skip_plain c0 o n p u :
  ~ In c0 p ->
  section_search (c0 :: o) n (p ++ u) = section_search (c0 :: o) n u.
Proof.
  induction p as [|y p IH]; [reflexivity|]. intros Hn.
  change ((y :: p) ++ u) with (y :: (p ++ u)).
  cbn [section_search]. rewrite header_needs_opener.
  - apply IH. intros Hi. apply Hn. right; exact Hi.
  - intros ->. apply Hn. left; reflexivity.
Qed.

Lemma capture_plain c0 o x t :
  ~ In c0 x -> t <> [] ->
  lazy_capture (c0 :: o) (x ++ t) = x ++ lazy_capture (c0 :: o) t.
Proof.
  intros Hn Ht. induction x as [|y x IH]; [reflexivity|].
  change ((y :: x) ++ t) with (y :: (x ++ t)).
  cbn [lazy_capture]. unfold lookahead. rewrite marker_needs_opener.
  - assert (at_end (y :: x ++ t) = false) as ->.
    { simpl. destruct (x ++ t) eqn:E; [|reflexivity].
      apply app_eq_nil in E. tauto. }
    simpl. f_equal. apply IH. intros Hi. apply Hn. right; exact Hi.
  - intros ->. apply Hn. left; reflexivity.
Qed.

Lemma capture_last c0 o d :
  ~ In c0 d -> (forall p, d <> p ++ [10]) ->
  lazy_capture (c0 :: o) d = d.
Proof.
  induction d as [|y d IH]; intros Hn Hp.
  - reflexivity.
  - cbn [lazy_capture]. unfold lookahead. rewrite marker_needs_opener.
    + assert (at_end (y :: d) = false) as ->.
      { simpl. destruct d; [|reflexivity].
        apply N.eqb_neq. intros ->. apply (Hp []). reflexivity. }
      f_equal. apply IH.
      * intros Hi. apply Hn. right; exact Hi.
      * intros p ->. apply (Hp (y :: p)). reflexivity.
    + intros ->. apply Hn. left; reflexivity.
Qed.

Lemma section_search_here o n s r :
  header o n s = Some r -> section_search o n s = Some (lazy_capture o r).
Proof. intros Hh. destruct s; simpl; rewrite Hh; reflexivity. Qed.

Lemma rstrip_cons_tail c t :
  t <> [] -> rstrip t = t -> rstrip (c :: t) = c :: t.
Proof. intros Ht Hr. apply (rstrip_app_trimmed [c] t Ht Hr). Qed.

Lemma app_cons_nonempty (x : pystr) c t : x ++ c :: t <> [].
Proof. intros H. symmetry in H. exact (app_cons_not_nil _ _ _ H). Qed.

Ltac tail_nonempty :=
  solve [ assumption | discriminate | apply app_cons_nonempty
        | intros H; apply app_eq_nil in H; destruct H; congruence ].

Lemma backend_reply_trimmed a b c d :
  d <> [] -> strip d = d ->
  strip (backend_reply a b c d) = backend_reply a b c d.
Proof.
  intros Hd Hs. unfold strip.
  assert (lstrip (backend_reply a b c d) = backend_reply a b c d) as ->
      by reflexivity.
  unfold backend_reply.
  repeat first
    [ apply trimmed_rstrip; exact Hs
    | apply rstrip_app_trimmed; [tail_nonempty|]
    | apply rstrip_cons_tail; [tail_nonempty|] ].
Qed.

Ltac skip_header :=
  match goal with
  | |- context [section_search ?o ?n (lit ?h ++ 10 :: ?t)] =>
      change (section_search o n (lit h ++ 10 :: t))
        with (section_search o n t)
  end.

Ltac skip_newline :=
  match goal with
  | |- context [section_search ?o ?n (10 :: ?t)] =>
      change (section_search o n (10 :: t)) with (section_search o n t)
  end.

Ltac at_header :=
  match goal with
  | |- context [section_search ?o ?n (lit ?h ++ 10 :: ?t)] =>
      rewrite (section_search_here o n (lit h ++ 10 :: t) (lstrip t))
        by reflexivity
  end.

Ltac capture_to_marker :=
  match goal with
  | |- context [lazy_capture ?o (10 :: ?t)] =>
      change (lazy_capture o (10 :: t)) with [10]
  end.

(** X19: a reply laid out as the prompt of the backend developer asks --
    the four markers in order, each followed by a section that is not
    empty, is trimmed and holds no [#] -- is cut back into exactly its
    four sections. *)
Theorem backend_reply_round_trip (a b c d : pystr) :
  plain_section 35 a -> plain_section 35 b ->
  plain_section 35 c -> plain_section 35 d ->
  AppPavi.backend_sections (backend_reply a b c d)
  = VDict [(lit "models", VStr a); (lit "routes", VStr b);
           (lit "logic", VStr c); (lit "dependencies", VStr d)].
Proof.
  intros (Ha & Sa & Na) (Hb & Sb & Nb) (Hc & Sc & Nc) (Hd & Sd & Nd).
  unfold AppPavi.backend_sections.
  rewrite (backend_reply_trimmed a b c d Hd Sd).
  assert (AppPavi.section (lit "#") (lit "DATABASE MODELS")
            (backend_reply a b c d) = a) as ->.
  { unfold AppPavi.section, backend_reply. change (lit "#") with [35].
    at_header.
    rewrite (lstrip_app_trimmed _ _ Ha (trimmed_lstrip _ Sa)).
    rewrite (capture_plain 35 [] a _ Na) by discriminate.
    capture_to_marker. apply strip_section_newline; assumption. }
  assert (AppPavi.section (lit "#") (lit "API ROUTES")
            (backend_reply a b c d) = b) as ->.
  { unfold AppPavi.section, backend_reply. change (lit "#") with [35].
    skip_header. rewrite (search_skip_plain 35 [] _ a _ Na). skip_newline.
    at_header.
    rewrite (lstrip_app_trimmed _ _ Hb (trimmed_lstrip _ Sb)).
    rewrite (capture_plain 35 [] b _ Nb) by discriminate.
    capture_to_marker. apply strip_section_newline; assumption. }
  assert (AppPavi.section (lit "#") (lit "BUSINESS LOGIC")
            (backend_reply a b c d) = c) as ->.
  { unfold AppPavi.section, backend_reply. change (lit "#") with [35].
    skip_header. rewrite (search_skip_plain 35 [] _ a _ Na). skip_newline.
    skip_header. rewrite (search_skip_plain 35 [] _ b _ Nb). skip_newline.
    at_header.
    rewrite (lstrip_app_trimmed _ _ Hc (trimmed_lstrip _ Sc)).
    rewrite (capture_plain 35 [] c _ Nc) by discriminate.
    capture_to_marker. apply strip_section_newline; assumption. }
  assert (AppPavi.section (lit "#") (lit "DEPENDENCIES")
            (backend_reply a b c d) = d) as ->.
  { unfold AppPavi.section, backend_reply. change (lit "#") with [35].
    skip_header. rewrite (search_skip_plain 35 [] _ a _ Na). skip_newline.
    skip_header. rewrite (search_skip_plain 35 [] _ b _ Nb). skip_newline.
    skip_header. rewrite (search_skip_plain 35 [] _ c _ Nc). skip_newline.
    at_header.
    rewrite (trimmed_lstrip _ Sd).
    rewrite (capture_last 35 [] d Nd)
      by (intros p; apply trimmed_no_final_newline, trimmed_rstrip, Sd).
    exact Sd. }
  destruct a; [congruence|]. reflexivity.
Qed.

Lemma backend_reply_round_trip_witness :
  plain_section 35 (lit "class Post: pass")
  /\ AppPavi.backend_sections
       (backend_reply (lit "class Post: pass") (lit "router = APIRouter()")
          (lit "def check(): return True") (lit "fastapi==0.110"))
     = VDict [(lit "models", VStr (lit "class Post: pass"));
              (lit "routes", VStr (lit "router = APIRouter()"));
              (lit "logic", VStr (lit "def check(): return True"));
              (lit "dependencies", VStr (lit "fastapi==0.110"))].
Proof.
  assert (forall x, x <> [] -> strip x = x -> ~ In 35 x -> plain_section 35 x)
    as Hplain by (intros x H1 H2 H3; repeat split; assumption).
  assert (plain_section 35 (lit "class Post: pass")) as Ha
      by (apply Hplain; vm_compute; [discriminate|reflexivity|intuition discriminate]).
  split; [exact Ha|].
  apply backend_reply_round_trip; [exact Ha| | |];
    apply Hplain; vm_compute;
    solve [discriminate | reflexivity | intuition discriminate].
Defined.

Lemma frontend_reply_trimmed a b c d :
  d <> [] -> strip d = d ->
  strip (frontend_reply a b c d) = frontend_reply a b c d.
Proof.
  intros Hd Hs. unfold strip.
  assert (lstrip (frontend_reply a b c d) = frontend_reply a b c d) as ->
      by reflexivity.
  unfold frontend_reply.
  repeat first
    [ apply trimmed_rstrip; exact Hs
    | apply rstrip_app_trimmed; [tail_nonempty|]
    | apply rstrip_cons_tail; [tail_nonempty|] ].
Qed.

(** X20: a reply laid out as the prompt of the frontend developer asks --
    the four markers in order, each followed by a section that is not
    empty, is trimmed and holds no slash -- is cut back into exactly its
    four sections. *)
Theorem frontend_reply_round_trip (a b c d : pystr) :
  plain_section 47 a -> plain_section 47 b ->
  plain_section 47 c -> plain_section 47 d ->
  AppPavi.frontend_sections (frontend_reply a b c d)
  = VDict [(lit "component", VStr a); (lit "styles", VStr b);
           (lit "hooks", VStr c); (lit "dependencies", VStr d)].
Proof.
  intros (Ha & Sa & Na) (Hb & Sb & Nb) (Hc & Sc & Nc) (Hd & Sd & Nd).
  unfold AppPavi.frontend_sections.
  rewrite (frontend_reply_trimmed a b c d Hd Sd).
  assert (AppPavi.section (lit "//") (lit "REACT COMPONENT")
            (frontend_reply a b c d) = a) as ->.
  { unfold AppPavi.section, frontend_reply. change (lit "//") with [47; 47].
    at_header.
    rewrite (lstrip_app_trimmed _ _ Ha (trimmed_lstrip _ Sa)).
    rewrite (capture_plain 47 [47] a _ Na) by discriminate.
    capture_to_marker. apply strip_section_newline; assumption. }
  assert (AppPavi.section (lit "//") (lit "STYLES")
            (frontend_reply a b c d) = b) as ->.
  { unfold AppPavi.section, frontend_reply. change (lit "//") with [47; 47].
    skip_header. rewrite (search_skip_plain 47 [47] _ a _ Na). skip_newline.
    at_header.
    rewrite (lstrip_app_trimmed _ _ Hb (trimmed_lstrip _ Sb)).
    rewrite (capture_plain 47 [47] b _ Nb) by discriminate.
    capture_to_marker. apply strip_section_newline; assumption. }
  assert (AppPavi.section (lit "//") (lit "HOOKS & API")
            (frontend_reply a b c d) = c) as ->.
  { unfold AppPavi.section, frontend_reply. change (lit "//") with [47; 47].
    skip_header. rewrite (search_skip_plain 47 [47] _ a _ Na). skip_newline.
    skip_header. rewrite (search_skip_plain 47 [47] _ b _ Nb). skip_newline.
    at_header.
    rewrite (lstrip_app_trimmed _ _ Hc (trimmed_lstrip _ Sc)).
    rewrite (capture_plain 47 [47] c _ Nc) by discriminate.
    capture_to_marker. apply strip_section_newline; assumption. }
  assert (AppPavi.section (lit "//") (lit "DEPENDENCIES")
            (frontend_reply a b c d) = d) as ->.
  { unfold AppPavi.section, frontend_reply. change (lit "//") with [47; 47].
    skip_header. rewrite (search_skip_plain 47 [47] _ a _ Na). skip_newline.
    skip_header. rewrite (search_skip_plain 47 [47] _ b _ Nb). skip_newline.
    skip_header. rewrite (search_skip_plain 47 [47] _ c _ Nc). skip_newline.
    at_header.
    rewrite (trimmed_lstrip _ Sd).
    rewrite (capture_last 47 [47] d Nd)
      by (intros p; apply trimmed_no_final_newline, trimmed_rstrip, Sd).
    exact Sd. }
  destruct a; [congruence|]. reflexivity.
Qed.

Lemma frontend_reply_round_trip_witness :
  plain_section 47 (lit "function Form() { return null }")
  /\ AppPavi.frontend_sections
       (frontend_reply (lit "function Form() { return null }")
          (lit ".form { margin: 0 }") (lit "function usePosts() {}")
          (lit "react@18"))
     = VDict [(lit "component", VStr (lit "function Form() { return null }"));
              (lit "styles", VStr (lit ".form { margin: 0 }"));
              (lit "hooks", VStr (lit "function usePosts() {}"));
              (lit "dependencies", VStr (lit "react@18"))].
Proof.
  assert (forall x, x <> [] -> strip x = x -> ~ In 47 x -> plain_section 47 x)
    as Hplain by (intros x H1 H2 H3; repeat split; assumption).
  assert (plain_section 47 (lit "function Form() { return null }")) as Ha
      by (apply Hplain; vm_compute;
          [discriminate|reflexivity|intuition discriminate]).
  split; [exact Ha|].
  apply frontend_reply_round_trip; [exact Ha| | |];
    apply Hplain; vm_compute;
    solve [discriminate | reflexivity | intuition discriminate].
Defined.

(** * The decomposer and the limits of the interpreter *)

(** ** The span *)

Lemma upto_last_app close mid post :
  ~ In close post ->
  upto_last close (mid ++ close :: post) = Some (mid ++ [close]).
Proof.
  intros Hn. induction mid as [|x mid IH]; simpl.
  - rewrite (proj2 (upto_last_none close post) Hn), N.eqb_refl. reflexivity.
  - rewrite IH. reflexivity.
Qed.

Lemma bracket_search_split opening close pre mid post :
  ~ In opening pre -> ~ In close post ->
  bracket_search opening close (pre ++ opening :: mid ++ close :: post)
  = Some (opening :: mid ++ [close]).
Proof.
  intros Hpre Hpost. induction pre as [|x pre IH]; simpl.
  - rewrite N.eqb_refl, (upto_last_app _ _ _ Hpost). reflexivity.
  - destruct (x =? opening) eqn:E.
    + apply N.eqb_eq in E. exfalso. apply Hpre. left; exact E.
    + apply IH. intros Hin. apply Hpre. right; exact Hin.
Qed.

Lemma bracket_search_no_close opening close s :
  ~ In close s -> bracket_search opening close s = None.
Proof.
  induction s as [|c s IH]; simpl; [reflexivity|]. intros Hn.
  assert (~ In close s) as Hs by tauto.
  rewrite (proj2 (upto_last_none close s) Hs), (IH Hs).
  destruct (c =? opening); reflexivity.
Qed.

(** The span the code extracts is the span of the specification. *)
Lemma spec_span_extract content span :
  spec_span content span -> extract_span 91 93 content = span.
Proof.
  unfold extract_span. intros [pre mid post -> Hpre Hpost|[Hn|Hn]].
  - rewrite (bracket_search_split _ _ _ _ _ Hpre Hpost). reflexivity.
  - rewrite (bracket_search_absent _ _ _ Hn). reflexivity.
  - rewrite (bracket_search_no_close _ _ _ Hn). reflexivity.
Qed.

Lemma decompose_project_within_span L brief reply :
  App.decompose_project_within L brief (Content reply) =
  match loads_within L (extract_span 91 93 (strip reply)) with
  | Some tasks => tasks
  | None => VList []
  end.
Proof.
  unfold App.decompose_project_within, extract_span.
  destruct (bracket_search 91 93 (strip reply)); reflexivity.
Qed.

Lemma analyze_and_breakdown_within_span L description reply :
  AppPavi.analyze_and_breakdown_within L description (Content reply) =
  match loads_within L (extract_span 91 93 (strip reply)) with
  | Some tasks => tasks
  | None => VList []
  end.
Proof.
  unfold AppPavi.analyze_and_breakdown_within, extract_span.
  destruct (bracket_search 91 93 (strip reply)); reflexivity.
Qed.

(** Within the limits the decomposers are those of the session model. *)
Lemma decomposers_within_agree L brief reply :
  within L (extract_span 91 93 (strip reply)) = true ->
  App.decompose_project_within L brief (Content reply)
  = App.decompose_project brief (Content reply)
  /\ AppPavi.analyze_and_breakdown_within L brief (Content reply)
     = AppPavi.analyze_and_breakdown brief (Content reply).
Proof.
  intros Hw.
  rewrite decompose_project_within_span, analyze_and_breakdown_within_span,
    decompose_project_span, analyze_and_breakdown_span.
  unfold loads_within. rewrite Hw. split; reflexivity.
Qed.

(** ** Arrays nested deeper than the interpreter allows *)

Lemma nested_array_head n : exists t, nested_array n = 91 :: t.
Proof. destruct n; simpl; eauto. Qed.

Lemma nested_array_length n :
  List.length (nested_array n) = (2 * n + 2)%nat.
Proof.
  induction n as [|n IH]; simpl; [reflexivity|].
  rewrite length_app, IH. simpl. lia.
Qed.

Lemma nested_array_scan n : forall f rest,
  (2 * n < f)%nat ->
  scan_once f (nested_array n ++ rest) = Some (nested_value n, rest).
Proof.
  induction n as [|n IH]; intros f rest Hf.
  - destruct f as [|f]; [lia|]. reflexivity.
  - destruct f as [|[|f]]; try lia.
    change (nested_array (S n) ++ rest)
      with (91 :: (nested_array n ++ [93]) ++ rest).
    rewrite <- app_assoc.
    destruct (nested_array_head n) as [t Ht].
    assert (scan_once (S (S f)) (91 :: nested_array n ++ [93] ++ rest)
            = parse_elements (S f) (nested_array n ++ [93] ++ rest) []) as ->.
    { rewrite Ht. reflexivity. }
    cbn [parse_elements]. rewrite (IH f ([93] ++ rest)) by lia.
    reflexivity.
Qed.

(** Nested arrays are JSON documents, however deep. *)
Lemma nested_array_loads n : loads (nested_array n) = Some (nested_value n).
Proof.
  destruct (nested_array_head n) as [t Ht].
  pose proof (nested_array_length n) as Hlen.
  rewrite Ht in *. rewrite loads_head_fuel by reflexivity.
  rewrite <- Ht, <- (app_nil_r (nested_array n)).
  rewrite nested_array_scan; [reflexivity|].
  rewrite app_nil_r, Ht, Hlen. lia.
Qed.

Lemma usage_deepest s : forall st depth deepest longest,
  (deepest <= fst (usage s st depth deepest longest))%nat.
Proof.
  induction s as [|c s IH]; intros st depth deepest longest; simpl; [lia|].
  eapply Nat.le_trans; [|apply IH]. lia.
Qed.

Lemma nested_array_usage n : forall t depth deepest longest,
  (depth + S n <= fst (usage (nested_array n ++ t) Outside depth deepest
                             longest))%nat.
Proof.
  induction n as [|n IH]; intros t depth deepest longest.
  - change (usage (nested_array 0 ++ t) Outside depth deepest longest)
      with (usage (93 :: t) Outside (S depth) (Nat.max deepest (S depth))
                  (Nat.max longest 0)).
    eapply Nat.le_trans; [|apply usage_deepest]. lia.
  - change (nested_array (S n) ++ t)
      with (91 :: (nested_array n ++ [93]) ++ t).
    rewrite <- app_assoc.
    change (usage (91 :: nested_array n ++ [93] ++ t) Outside depth deepest
                  longest)
      with (usage (nested_array n ++ [93] ++ t) Outside (S depth)
                  (Nat.max deepest (S depth)) (Nat.max longest 0)).
    eapply Nat.le_trans; [|apply IH]. lia.
Qed.

Lemma nested_array_beyond L n :
  (max_nesting L <= n)%nat -> within L (nested_array n) = false.
Proof.
  intros Hn. unfold within.
  pose proof (nested_array_usage n [] 0 0 0)%nat as Hu.
  rewrite app_nil_r in Hu.
  destruct (usage (nested_array n) Outside 0 0 0) as [deepest longest].
  simpl in Hu.
  assert ((deepest <=? max_nesting L)%nat = false) as ->
      by (apply Nat.leb_gt; lia).
  reflexivity.
Qed.

Lemma strip_bracketed mid : strip (91 :: mid ++ [93]) = 91 :: mid ++ [93].
Proof.
  unfold strip. change (lstrip (91 :: mid ++ [93])) with (91 :: mid ++ [93]).
  rewrite rstrip_cons by reflexivity. f_equal.
  unfold rstrip. rewrite rev_app_distr. simpl.
  rewrite rev_involutive. reflexivity.
Qed.

(** The claim C5 as the specification words it fails, whatever the limits
    of the interpreter: a reply that is nothing but arrays nested one
    deeper than it allows is a well-formed JSON array of length 1, and
    the decomposer returns the empty list for it, since [json.loads]
    raises RecursionError inside the [try]. *)
Lemma deep_array_counterexample :
  ~ (exists L : limits,
        forall (reply span : pystr) (l : list value),
          spec_span (strip reply) span ->
          loads span = Some (VList l) ->
          App.decompose_project_within L (lit "Build a blog") (Content reply)
          = VList l).
Proof.
  intros [L Hc].
  set (n := max_nesting L).
  assert (strip (nested_array (S n)) = nested_array (S n)) as Hs
      by apply strip_bracketed.
  assert (spec_span (strip (nested_array (S n))) (nested_array (S n)))
    as Hspan.
  { rewrite Hs.
    apply (span_brackets (nested_array (S n)) [] (nested_array n) []);
      [reflexivity| |]; intros []. }
  specialize (Hc (nested_array (S n)) (nested_array (S n)) [nested_value n]
                 Hspan (nested_array_loads (S n))).
  rewrite decompose_project_within_span, (spec_span_extract _ _ Hspan) in Hc.
  unfold loads_within in Hc.
  rewrite (nested_array_beyond L (S n)) in Hc by (unfold n; lia).
  discriminate Hc.
Qed.

(** C5, amended: take the span of the trimmed reply from its first
    opening bracket to its last closing bracket, or the whole trimmed
    reply when it lacks one of them, and let it be a JSON array.  When
    the array is within the limits of the interpreter (the nesting of
    arrays and objects, the digits of an integer), the decomposer of
    either file returns exactly the parsed list: the same length and the
    same elements in the same order, with all their fields.  When it is
    beyond them, the decomposer returns the empty list. *)
Theorem decomposer_returns_parsed_array (L : limits)
  (brief reply span : pystr) (l : list value) :
  spec_span (strip reply) span ->
  loads span = Some (VList l) ->
  (within L span = true ->
   App.decompose_project_within L brief (Content reply) = VList l
   /\ AppPavi.analyze_and_breakdown_within L brief (Content reply) = VList l)
  /\ (within L span = false ->
      App.decompose_project_within L brief (Content reply) = VList []
      /\ AppPavi.analyze_and_breakdown_within L brief (Content reply)
         = VList []).
Proof.
  intros Hspan Hl.
  rewrite decompose_project_within_span, analyze_and_breakdown_within_span.
  rewrite (spec_span_extract _ _ Hspan). unfold loads_within.
  split; intros ->; [rewrite Hl|]; split; reflexivity.
Qed.

(** The array of the blog scenario is found between the prose around
    it. *)
Lemma decomposer_returns_parsed_array_witness :
  spec_span (strip prose_reply) blog_reply
  /\ loads blog_reply = Some (VList [blog_task])
  /\ within example_limits blog_reply = true
  /\ App.decompose_project_within example_limits (lit "Build a blog")
       (Content prose_reply) = VList [blog_task]
  /\ AppPavi.analyze_and_breakdown_within example_limits (lit "Build a blog")
       (Content prose_reply) = VList [blog_task].
Proof.
  assert (spec_span (strip prose_reply) blog_reply) as Hspan.
  { apply (span_brackets (strip prose_reply) (lit "Here are the tasks: ")
             (removelast (tl blog_reply)) (lit " Let me know!")).
    - vm_compute; reflexivity.
    - vm_compute; intuition discriminate.
    - vm_compute; intuition discriminate. }
  assert (loads blog_reply = Some (VList [blog_task])) as Hl
      by (vm_compute; reflexivity).
  assert (within example_limits blog_reply = true) as Hw
      by (vm_compute; reflexivity).
  split; [exact Hspan|]. split; [exact Hl|]. split; [exact Hw|].
  exact (proj1 (decomposer_returns_parsed_array example_limits
                  (lit "Build a blog") prose_reply blog_reply
                  [blog_task] Hspan Hl) Hw).
Defined.

(** An integer of more digits than the interpreter converts is refused
    as well: the array is a JSON document, and the decomposer returns the
    empty list. *)
Example long_integer_refused :
  (exists z, loads long_integer_reply = Some (VList [VInt z]))
  /\ within example_limits long_integer_reply = false
  /\ App.decompose_project_within example_limits (lit "Build a blog")
       (Content long_integer_reply) = VList []
  /\ AppPavi.analyze_and_breakdown_within example_limits (lit "Build a blog")
       (Content long_integer_reply) = VList [].
Proof.
  split; [eexists; vm_compute; reflexivity|].
  repeat split; vm_compute; reflexivity.
Qed.

(** * The rows that are drawn *)

Lemma dict_in_del_same k d : dict_in k (dict_del k d) = false.
Proof.
  destruct (dict_in k (dict_del k d)) eqn:E; [|reflexivity].
  apply dict_in_get in E. rewrite dict_get_del_same in E. congruence.
Qed.

Section Drawn.
Context {R : Runtime}.

Lemma app_task_key_of_dict task i :
  App.is_dict task = true -> exists key, App.task_key task i = Some key.
Proof.
  destruct task; try discriminate. intros _.
  unfold App.task_key, get_default.
  destruct (dict_get _ _); eauto.
Qed.

Lemma pavi_task_key_of_dict task i :
  AppPavi.is_dict task = true -> exists key, AppPavi.task_key task i = Some key.
Proof.
  destruct task; try discriminate. intros _.
  unfold AppPavi.task_key, get_default.
  destruct (dict_get _ _); eauto.
Qed.

(** A drawn row is a row. *)
Lemma app_drawn_row s i :
  App.drawn s i = true -> exists task key, App.row s i = Some (task, key).
Proof.
  unfold App.drawn, App.row.
  destruct (App.nonempty (App.api_key s)); [|discriminate]. simpl.
  destruct (App.tasks s) as [| | | | |l|]; try discriminate.
  destruct (forallb App.is_dict l) eqn:Ed; [|discriminate]. simpl.
  destruct (i <? List.length l)%nat eqn:Ei; [|discriminate]. intros _.
  apply Nat.ltb_lt in Ei.
  destruct (nth_error l i) as [task|] eqn:En;
    [|apply nth_error_None in En; lia].
  rewrite forallb_forall in Ed.
  destruct (app_task_key_of_dict task i (Ed _ (nth_error_In _ _ En)))
    as [key ->].
  eauto.
Qed.

Lemma pavi_stats_dicts s l :
  AppPavi.stats_ok s = true -> AppPavi.task_list s = VList l ->
  forallb AppPavi.is_dict l = true.
Proof.
  unfold AppPavi.stats_ok. intros Hs Hl. rewrite Hl in Hs. simpl in Hs.
  destruct l; [reflexivity|exact Hs].
Qed.

Lemma pavi_filtered_In f l t :
  In t (AppPavi.filtered_tasks f l) -> In t l.
Proof.
  destruct f; simpl; [auto| |]; intros Hi; apply filter_In in Hi; tauto.
Qed.

Lemma pavi_drawn_row s f idx :
  AppPavi.drawn s f idx = true ->
  exists task key, AppPavi.row s f idx = Some (task, key).
Proof.
  unfold AppPavi.drawn, AppPavi.row.
  destruct (AppPavi.nonempty (AppPavi.openai_key s)); [|discriminate].
  destruct (AppPavi.stats_ok s) eqn:Es; [|discriminate]. simpl.
  destruct (AppPavi.task_list s) as [| | | | |l|] eqn:El; try discriminate.
  destruct (idx <? _)%nat eqn:Ei; [|discriminate]. intros _.
  apply Nat.ltb_lt in Ei.
  destruct (nth_error (AppPavi.filtered_tasks f l) idx) as [task|] eqn:En;
    [|apply nth_error_None in En; lia].
  pose proof (pavi_stats_dicts s l Es El) as Hd.
  rewrite forallb_forall in Hd.
  destruct (pavi_task_key_of_dict task idx
              (Hd _ (pavi_filtered_In _ _ _ (nth_error_In _ _ En))))
    as [key ->].
  eauto.
Qed.

Lemma app_regenerate_runs s i task key old :
  App.row s i = Some (task, key) ->
  dict_get key (App.generated_code s) = Some old ->
  App.step s (App.Regenerate i)
  = Some {| App.tasks := App.tasks s;
            App.generated_code := dict_del key (App.generated_code s);
            App.api_key := App.api_key s;
            App.project_brief := App.project_brief s |}.
Proof.
  intros Hr Hg. simpl. unfold App.regenerate. rewrite Hr.
  assert (dict_in key (App.generated_code s) = true) as ->
      by (apply dict_in_get; congruence).
  reflexivity.
Qed.

Lemma pavi_regenerate_runs s f idx task key old :
  AppPavi.row s f idx = Some (task, key) ->
  dict_get key (AppPavi.code_outputs s) = Some old ->
  AppPavi.step s (AppPavi.Regenerate f idx)
  = Some {| AppPavi.task_list := AppPavi.task_list s;
            AppPavi.code_outputs := dict_del key (AppPavi.code_outputs s);
            AppPavi.openai_key := AppPavi.openai_key s;
            AppPavi.project_description := AppPavi.project_description s |}.
Proof.
  intros Hr Hg. simpl. unfold AppPavi.regenerate. rewrite Hr.
  assert (dict_in key (AppPavi.code_outputs s) = true) as ->
      by (apply dict_in_get; congruence).
  reflexivity.
Qed.

Lemma app_generate_stores s i task key ctx c now code :
  App.row s i = Some (task, key) ->
  dict_in key (App.generated_code s) = false ->
  App.project_brief s = Some ctx ->
  App.generate_code (App.select_agent task) task ctx c = Some code ->
  truthy code = true ->
  App.step s (App.Generate i c now)
  = Some {| App.tasks := App.tasks s;
            App.generated_code :=
              dict_set key (App.entry task code now) (App.generated_code s);
            App.api_key := App.api_key s;
            App.project_brief := App.project_brief s |}.
Proof.
  intros Hr Hin Hb Hc Ht. simpl. unfold App.generate.
  rewrite Hr, Hin, Hb, Hc, Ht. reflexivity.
Qed.

Lemma pavi_generate_stores s f idx task key c now code :
  AppPavi.row s f idx = Some (task, key) ->
  dict_in key (AppPavi.code_outputs s) = false ->
  AppPavi.create_implementation (AppPavi.select_developer task) task
    (AppPavi.project_description s) c = Some code ->
  truthy code = true ->
  AppPavi.step s (AppPavi.Generate f idx c now)
  = Some {| AppPavi.task_list := AppPavi.task_list s;
            AppPavi.code_outputs :=
              dict_set key (AppPavi.entry task code now)
                       (AppPavi.code_outputs s);
            AppPavi.openai_key := AppPavi.openai_key s;
            AppPavi.project_description := AppPavi.project_description s |}.
Proof.
  intros Hr Hin Hc Ht. simpl. unfold AppPavi.generate.
  rewrite Hr, Hin, Hc, Ht. reflexivity.
Qed.

Lemma app_row_brief s i p :
  App.reachable s -> App.row s i = Some p ->
  exists ctx, App.project_brief s = Some ctx.
Proof.
  intros Hs Hr. destruct p as [task key].
  apply app_row_inv in Hr as (l & Hl & Hn & _).
  destruct (app_tasks_context s Hs) as [He|(_ & b & Hb & _)]; [|eauto].
  rewrite He in Hl. inversion Hl; subst. destruct i; discriminate.
Qed.

End Drawn.

(** ** Regeneration *)

(** C8: where the regenerate button of a row is drawn and the key of the
    row holds an artifact, the regenerate run takes place and removes
    that record; the row is then drawn with its generate button, and a
    generation that returns truthy code stores, under the key that now
    has no record, the whole record of that generation.  Every
    regenerate run removes the record of its key and touches no other
    key; and in any run of either program the record of a key is
    afterwards the one it was, or absent, or -- only when the key had no
    record -- the whole record built by that run's generation from the
    task, the code just returned and the time.  So a new artifact is
    stored for a key only after the prior one was deleted, and no stored
    record has fields of two generations. *)
Theorem regenerate_deletes_before_store (R : Runtime) :
  (forall s i task key old,
      App.reachable s ->
      App.drawn s i = true ->
      App.row s i = Some (task, key) ->
      dict_get key (App.generated_code s) = Some old ->
      exists s' ctx,
        App.step s (App.Regenerate i) = Some s'
        /\ dict_get key (App.generated_code s') = None
        /\ App.drawn s' i = true
        /\ App.row s' i = Some (task, key)
        /\ App.project_brief s' = Some ctx
        /\ forall c now code,
            App.generate_code (App.select_agent task) task ctx c = Some code ->
            truthy code = true ->
            exists s'',
              App.step s' (App.Generate i c now) = Some s''
              /\ dict_get key (App.generated_code s'')
                 = Some (App.entry task code now))
  /\ (forall s i s',
        App.step s (App.Regenerate i) = Some s' ->
        exists task key,
          App.row s i = Some (task, key)
          /\ dict_get key (App.generated_code s) <> None
          /\ dict_get key (App.generated_code s') = None
          /\ forall k, k <> key ->
               dict_get k (App.generated_code s')
               = dict_get k (App.generated_code s))
  /\ (forall s e s' k,
        App.step s e = Some s' ->
        dict_get k (App.generated_code s') = dict_get k (App.generated_code s)
        \/ dict_get k (App.generated_code s') = None
        \/ (dict_get k (App.generated_code s) = None
            /\ exists i c now task ctx code,
                e = App.Generate i c now
                /\ App.row s i = Some (task, k)
                /\ App.project_brief s = Some ctx
                /\ App.generate_code (App.select_agent task) task ctx c
                   = Some code
                /\ dict_get k (App.generated_code s')
                   = Some (App.entry task code now)))
  /\ (forall s f idx task key old,
        AppPavi.drawn s f idx = true ->
        AppPavi.row s f idx = Some (task, key) ->
        dict_get key (AppPavi.code_outputs s) = Some old ->
        exists s',
          AppPavi.step s (AppPavi.Regenerate f idx) = Some s'
          /\ dict_get key (AppPavi.code_outputs s') = None
          /\ AppPavi.drawn s' f idx = true
          /\ AppPavi.row s' f idx = Some (task, key)
          /\ forall c now code,
              AppPavi.create_implementation (AppPavi.select_developer task)
                task (AppPavi.project_description s') c = Some code ->
              truthy code = true ->
              exists s'',
                AppPavi.step s' (AppPavi.Generate f idx c now) = Some s''
                /\ dict_get key (AppPavi.code_outputs s'')
                   = Some (AppPavi.entry task code now))
  /\ (forall s f idx s',
        AppPavi.step s (AppPavi.Regenerate f idx) = Some s' ->
        exists task key,
          AppPavi.row s f idx = Some (task, key)
          /\ dict_get key (AppPavi.code_outputs s) <> None
          /\ dict_get key (AppPavi.code_outputs s') = None
          /\ forall k, k <> key ->
               dict_get k (AppPavi.code_outputs s')
               = dict_get k (AppPavi.code_outputs s))
  /\ (forall s e s' k,
        AppPavi.step s e = Some s' ->
        dict_get k (AppPavi.code_outputs s')
        = dict_get k (AppPavi.code_outputs s)
        \/ dict_get k (AppPavi.code_outputs s') = None
        \/ (dict_get k (AppPavi.code_outputs s) = None
            /\ exists f idx c now task code,
                e = AppPavi.Generate f idx c now
                /\ AppPavi.row s f idx = Some (task, k)
                /\ AppPavi.create_implementation
                     (AppPavi.select_developer task) task
                     (AppPavi.project_description s) c = Some code
                /\ dict_get k (AppPavi.code_outputs s')
                   = Some (AppPavi.entry task code now))).
Proof.
  split; [|split; [|split; [|split; [|split]]]].
  - intros s i task key old Hs Hd Hr Hg.
    destruct (app_row_brief s i _ Hs Hr) as [ctx Hb].
    eexists. exists ctx.
    split; [exact (app_regenerate_runs s i task key old Hr Hg)|].
    split; [apply dict_get_del_same|].
    split; [exact Hd|]. split; [exact Hr|]. split; [exact Hb|].
    intros c now code Hc Ht. eexists. split.
    + apply (app_generate_stores _ i task key ctx c now code);
        [exact Hr | apply dict_in_del_same | exact Hb | exact Hc | exact Ht].
    + simpl. apply dict_get_set_same.
  - intros s i s' Hstep. simpl in Hstep.
    apply app_regenerate_inv in Hstep as (task & key & Hr & Hin & ->).
    exists task, key. simpl. split; [exact Hr|].
    split; [apply dict_in_get; exact Hin|].
    split; [apply dict_get_del_same|].
    intros k Hn. apply dict_get_del_other; exact Hn.
  - intros s e s' k. apply app_step_key.
  - intros s f idx task key old Hd Hr Hg.
    eexists.
    split; [exact (pavi_regenerate_runs s f idx task key old Hr Hg)|].
    split; [apply dict_get_del_same|].
    split; [exact Hd|]. split; [exact Hr|].
    intros c now code Hc Ht. eexists. split.
    + apply (pavi_generate_stores _ f idx task key c now code);
        [exact Hr | apply dict_in_del_same | exact Hc | exact Ht].
    + simpl. apply dict_get_set_same.
  - intros s f idx s' Hstep. simpl in Hstep.
    apply pavi_regenerate_inv in Hstep as (task & key & Hr & Hin & ->).
    exists task, key. simpl. split; [exact Hr|].
    split; [apply dict_in_get; exact Hin|].
    split; [apply dict_get_del_same|].
    intros k Hn. apply dict_get_del_other; exact Hn.
  - intros s e s' k. apply pavi_step_key.
Qed.

(** Regenerating the one artifact of the blog session, in either
    program, leaves the key without a record; in app_pavi.py a generation
    then stores a new record. *)
Lemma regenerate_deletes_before_store_witness :
  App.step (R := plain_runtime) blog_state (App.Regenerate 0)
  = Some regenerated_state
  /\ dict_get (lit "task_1") (App.generated_code regenerated_state) = None
  /\ AppPavi.step (R := plain_runtime) pavi_state
       (AppPavi.Regenerate AppPavi.AllTasks 0) = Some analyzed_state
  /\ dict_get (lit "task_1") (AppPavi.code_outputs analyzed_state) = None
  /\ exists s'',
      AppPavi.step (R := plain_runtime) analyzed_state
        (AppPavi.Generate AppPavi.AllTasks 0 Failed noon) = Some s''
      /\ dict_get (lit "task_1") (AppPavi.code_outputs s'')
         = Some (AppPavi.entry pavi_task AppPavi.backend_error noon).
Proof.
  destruct (regenerate_deletes_before_store plain_runtime)
    as (A & _ & _ & P & _).
  destruct (A blog_state 0%nat blog_task (lit "task_1")
              (App.entry blog_task blog_code noon)
              (blog_state_reachable plain_runtime))
    as (s1 & ctx & Hstep1 & Hnone1 & _);
    [vm_compute; reflexivity | vm_compute; reflexivity | reflexivity |].
  destruct (P pavi_state AppPavi.AllTasks 0%nat pavi_task (lit "task_1")
              (AppPavi.entry pavi_task pavi_code noon))
    as (s2 & Hstep2 & Hnone2 & _ & _ & Hgen);
    [vm_compute; reflexivity | vm_compute; reflexivity | reflexivity |].
  assert (s1 = regenerated_state) as ->
      by (vm_compute in Hstep1; injection Hstep1 as <-; reflexivity).
  assert (s2 = analyzed_state) as ->
      by (vm_compute in Hstep2; injection Hstep2 as <-; reflexivity).
  split; [exact Hstep1|]. split; [exact Hnone1|].
  split; [exact Hstep2|]. split; [exact Hnone2|].
  exact (Hgen Failed noon AppPavi.backend_error eq_refl eq_refl).
Defined.

(** ** A backend generation *)

(** X8: in app_pavi.py, at a row whose generate button is drawn and whose
    key holds no artifact, a generation for a task of category BACKEND
    that has a name and a description always stores an artifact,
    whatever the provider does: the four-string record cut from the
    reply, or, when the call failed, the record of error placeholders;
    the task is then shown as done. *)
Theorem backend_generation_always_stores (R : Runtime)
  (s : AppPavi.state) (f : AppPavi.filter_option) (idx : nat)
  (c : completion) (now : datetime) (task : value) (key : pystr) :
  AppPavi.drawn s f idx = true ->
  AppPavi.row s f idx = Some (task, key) ->
  dict_in key (AppPavi.code_outputs s) = false ->
  AppPavi.prompt_fields task <> None ->
  AppPavi.select_developer task = AppPavi.BackendDeveloper ->
  exists code s',
    AppPavi.step s (AppPavi.Generate f idx c now) = Some s'
    /\ backend_record code
    /\ (c = Failed -> code = AppPavi.backend_error)
    /\ dict_get key (AppPavi.code_outputs s')
       = Some (AppPavi.entry task code now)
    /\ forall c' now', AppPavi.step s' (AppPavi.Generate f idx c' now') = None.
Proof.
  intros _ Hr Hin Hp Hd.
  assert (exists code,
             AppPavi.create_implementation (AppPavi.select_developer task)
               task (AppPavi.project_description s) c = Some code
             /\ backend_record code
             /\ (c = Failed -> code = AppPavi.backend_error))
    as (code & Hc & Hrec & Hf).
  { rewrite Hd. simpl.
    unfold AppPavi.BackendDeveloper_create_implementation.
    destruct (AppPavi.prompt_fields task); [|congruence].
    destruct c as [|reply].
    - exists AppPavi.backend_error. split; [reflexivity|].
      split; [unfold backend_record, AppPavi.backend_error; eauto 10|auto].
    - exists (AppPavi.backend_sections reply). split; [reflexivity|].
      split; [apply backend_sections_record|discriminate]. }
  exists code. eexists.
  split; [exact (pavi_generate_stores s f idx task key c now code Hr Hin Hc
                   (backend_record_truthy _ Hrec))|].
  split; [exact Hrec|]. split; [exact Hf|].
  simpl. split; [apply dict_get_set_same|].
  intros c' now'. unfold AppPavi.generate.
  change (AppPavi.row _ f idx) with (AppPavi.row s f idx).
  rewrite Hr. simpl.
  assert (dict_in key (dict_set key (AppPavi.entry task code now)
                                (AppPavi.code_outputs s)) = true) as ->.
  { apply dict_in_get. rewrite dict_get_set_same. discriminate. }
  reflexivity.
Qed.

Lemma backend_generation_always_stores_witness :
  AppPavi.drawn (R := plain_runtime) analyzed_state AppPavi.AllTasks 0 = true
  /\ exists code s',
      AppPavi.step (R := plain_runtime) analyzed_state
        (AppPavi.Generate AppPavi.AllTasks 0 Failed noon) = Some s'
      /\ backend_record code
      /\ (Failed = Failed -> code = AppPavi.backend_error)
      /\ dict_get (lit "task_1") (AppPavi.code_outputs s')
         = Some (AppPavi.entry pavi_task code noon)
      /\ forall c' now',
          AppPavi.step (R := plain_runtime) s'
            (AppPavi.Generate AppPavi.AllTasks 0 c' now') = None.
Proof.
  assert (AppPavi.drawn (R := plain_runtime) analyzed_state
            AppPavi.AllTasks 0 = true) as Hd by (vm_compute; reflexivity).
  split; [exact Hd|].
  apply (backend_generation_always_stores plain_runtime analyzed_state
           AppPavi.AllTasks 0%nat Failed noon pavi_task (lit "task_1") Hd).
  - vm_compute; reflexivity.
  - reflexivity.
  - vm_compute; discriminate.
  - vm_compute; reflexivity.
Defined.

(** ** Rows that share a key *)

Lemma distinct_repeated k a b c : distinct (a ++ k :: b ++ k :: c) = false.
Proof.
  induction a as [|x a IH]; simpl.
  - assert (existsb (str_eqb k) (b ++ k :: c) = true) as ->; [|reflexivity].
    apply existsb_exists. exists k. split; [|apply str_eqb_refl].
    apply in_or_app. right; left; reflexivity.
  - rewrite IH. apply andb_false_r.
Qed.

Section Keys.
Variable key_of : value -> nat -> option pystr.

Lemma keys_from_app l1 : forall a l2,
  keys_from key_of a (l1 ++ l2)
  = keys_from key_of a l1 ++ keys_from key_of (a + List.length l1) l2.
Proof.
  induction l1 as [|x l1 IH]; intros a l2.
  - simpl. rewrite Nat.add_0_r. reflexivity.
  - change (List.length (x :: l1)) with (S (List.length l1)).
    replace (a + S (List.length l1))%nat with (S a + List.length l1)%nat
      by lia.
    change (keys_from key_of a ((x :: l1) ++ l2))
      with (match key_of x a with Some k => [k] | None => [] end
            ++ keys_from key_of (S a) (l1 ++ l2)).
    change (keys_from key_of a (x :: l1))
      with (match key_of x a with Some k => [k] | None => [] end
            ++ keys_from key_of (S a) l1).
    rewrite IH, app_assoc. reflexivity.
Qed.

Lemma keys_from_cons a t l k :
  key_of t a = Some k ->
  keys_from key_of a (t :: l) = k :: keys_from key_of (S a) l.
Proof. intros Hk. unfold keys_from. simpl. rewrite Hk. reflexivity. Qed.

(** Two rows with one key: the key comes twice among the keys. *)
Lemma keys_from_twice l j i tj ti k :
  (j < i)%nat ->
  nth_error l j = Some tj -> key_of tj j = Some k ->
  nth_error l i = Some ti -> key_of ti i = Some k ->
  exists a b c, keys_from key_of 0 l = a ++ k :: b ++ k :: c.
Proof.
  intros Hji Hj Hkj Hi Hki.
  destruct (nth_error_split _ _ Hj) as (l1 & l2 & -> & Hl1).
  rewrite nth_error_app2 in Hi by lia.
  rewrite Hl1 in Hi.
  destruct (i - j)%nat as [|d] eqn:Ed; [lia|]. simpl in Hi.
  destruct (nth_error_split _ _ Hi) as (l3 & l4 & -> & Hl3).
  exists (keys_from key_of 0 l1), (keys_from key_of (S j) l3),
    (keys_from key_of (S i) l4).
  rewrite keys_from_app. simpl. rewrite Hl1.
  rewrite (keys_from_cons j tj _ k Hkj).
  rewrite keys_from_app.
  assert (S j + List.length l3 = i)%nat as -> by lia.
  rewrite (keys_from_cons i ti _ k Hki). reflexivity.
Qed.

End Keys.

Section Twins.
Context {R : Runtime}.

Lemma app_twin_not_drawn s j i tj ti key i' :
  (j < i)%nat -> (i <= i')%nat ->
  App.row s j = Some (tj, key) -> App.row s i = Some (ti, key) ->
  App.drawn s i' = false.
Proof.
  intros Hji Hii Hj Hi.
  apply app_row_inv in Hj as (l & Hl & Hnj & Hkj).
  apply app_row_inv in Hi as (l' & Hl' & Hni & Hki).
  rewrite Hl in Hl'. injection Hl' as <-.
  unfold App.drawn. rewrite Hl.
  destruct (keys_from_twice App.task_key (firstn (S i') l) j i tj ti key Hji)
    as (a & b & c & Hk); auto.
  - rewrite nth_error_firstn.
    assert ((j <? S i')%nat = true) as -> by (apply Nat.ltb_lt; lia).
    exact Hnj.
  - rewrite nth_error_firstn.
    assert ((i <? S i')%nat = true) as -> by (apply Nat.ltb_lt; lia).
    exact Hni.
  - change (App.row_keys (firstn (S i') l))
      with (keys_from App.task_key 0 (firstn (S i') l)).
    rewrite Hk, distinct_repeated. rewrite !andb_false_r. reflexivity.
Qed.

Lemma pavi_twin_not_drawn s f j i tj ti key i' :
  (j < i)%nat -> (i <= i')%nat ->
  AppPavi.row s f j = Some (tj, key) -> AppPavi.row s f i = Some (ti, key) ->
  AppPavi.drawn s f i' = false.
Proof.
  intros Hji Hii Hj Hi.
  apply pavi_row_inv in Hj as (l & Hl & Hnj & Hkj).
  apply pavi_row_inv in Hi as (l' & Hl' & Hni & Hki).
  rewrite Hl in Hl'. injection Hl' as <-.
  unfold AppPavi.drawn. rewrite Hl.
  destruct (keys_from_twice AppPavi.task_key
              (firstn (S i') (AppPavi.filtered_tasks f l)) j i tj ti key Hji)
    as (a & b & c & Hk); auto.
  - rewrite nth_error_firstn.
    assert ((j <? S i')%nat = true) as -> by (apply Nat.ltb_lt; lia).
    exact Hnj.
  - rewrite nth_error_firstn.
    assert ((i <? S i')%nat = true) as -> by (apply Nat.ltb_lt; lia).
    exact Hni.
  - change (AppPavi.row_keys (firstn (S i') (AppPavi.filtered_tasks f l)))
      with (keys_from AppPavi.task_key 0
              (firstn (S i') (AppPavi.filtered_tasks f l))).
    rewrite Hk, distinct_repeated. rewrite !andb_false_r. reflexivity.
Qed.

End Twins.

(** X15: artifacts are found by key, not by task.  Of two rows of the
    list shown that have the same key only the first is drawn: the
    button of the second is refused as a duplicate and the page stops
    there, so that neither this row nor any row after it has a button.
    And while a key holds an artifact -- also one recorded for another
    task with the same key -- no row with that key can be generated. *)
Theorem shared_key_shares_artifact (R : Runtime) :
  (forall s j i tj ti key,
      (j < i)%nat ->
      App.row s j = Some (tj, key) -> App.row s i = Some (ti, key) ->
      forall i', (i <= i')%nat -> App.drawn s i' = false)
  /\ (forall s j task key,
        App.row s j = Some (task, key) ->
        dict_in key (App.generated_code s) = true ->
        forall c now, App.step s (App.Generate j c now) = None)
  /\ (forall s f j i tj ti key,
        (j < i)%nat ->
        AppPavi.row s f j = Some (tj, key) ->
        AppPavi.row s f i = Some (ti, key) ->
        forall i', (i <= i')%nat -> AppPavi.drawn s f i' = false)
  /\ (forall s f idx task key,
        AppPavi.row s f idx = Some (task, key) ->
        dict_in key (AppPavi.code_outputs s) = true ->
        forall c now, AppPavi.step s (AppPavi.Generate f idx c now) = None).
Proof.
  split; [|split; [|split]].
  - intros s j i tj ti key Hji Hj Hi i' Hii.
    exact (app_twin_not_drawn s j i tj ti key i' Hji Hii Hj Hi).
  - intros s j task key Hr Hin c now. simpl.
    unfold App.generate. rewrite Hr, Hin. reflexivity.
  - intros s f j i tj ti key Hji Hj Hi i' Hii.
    exact (pavi_twin_not_drawn s f j i tj ti key i' Hji Hii Hj Hi).
  - intros s f idx task key Hr Hin c now. simpl.
    unfold AppPavi.generate. rewrite Hr, Hin. reflexivity.
Qed.

(** In [twin_state] the schema task and the form task have the same id:
    the row of the first is drawn and shown as generated, the row of the
    second is not drawn. *)
Lemma shared_key_shares_artifact_witness :
  App.drawn (R := plain_runtime) twin_state 0 = true
  /\ App.row (R := plain_runtime) twin_state 0 = Some (blog_task, lit "task_1")
  /\ App.row (R := plain_runtime) twin_state 1
     = Some (VDict [(lit "task_id", VInt 1);
                    (lit "title", VStr (lit "Post form"));
                    (lit "agent_type", VStr (lit "FRONTEND"));
                    (lit "requirements", VStr (lit "..."))],
             lit "task_1")
  /\ App.drawn (R := plain_runtime) twin_state 1 = false
  /\ forall c now,
      App.step (R := plain_runtime) twin_state (App.Generate 0 c now) = None.
Proof.
  assert (App.row (R := plain_runtime) twin_state 0
          = Some (blog_task, lit "task_1")) as H0 by (vm_compute; reflexivity).
  assert (App.row (R := plain_runtime) twin_state 1
          = Some (VDict [(lit "task_id", VInt 1);
                         (lit "title", VStr (lit "Post form"));
                         (lit "agent_type", VStr (lit "FRONTEND"));
                         (lit "requirements", VStr (lit "..."))],
                  lit "task_1")) as H1 by (vm_compute; reflexivity).
  split; [vm_compute; reflexivity|]. split; [exact H0|]. split; [exact H1|].
  destruct (shared_key_shares_artifact plain_runtime) as (A & B & _).
  split.
  - exact (A twin_state 0%nat 1%nat _ _ _ (Nat.lt_0_1) H0 H1 1%nat
             (Nat.le_refl 1)).
  - exact (B twin_state 0%nat _ _ H0 eq_refl).
Defined.

(** * The export document *)

Lemma pavi_stale_state_reachable (R : Runtime) :
  AppPavi.reachable pavi_stale_state.
Proof.
  apply (AppPavi.reachable_step pavi_state
           (AppPavi.Analyze (lit "Build a shop") (Content cart_reply))).
  - apply pavi_state_reachable.
  - vm_compute; reflexivity.
Qed.

(** The claim C6 as the specification words it fails, whatever the
    runtime: after the blog description is analysed, its task generated,
    and a shop description analysed, the session holds one task, keyed
    [task_2], and one artifact, stored under [task_1]; the export is
    offered, and the one entry of its mapping is not keyed like the
    task. *)
Lemma stale_export_counterexample :
  ~ (exists R : Runtime,
        forall (s : AppPavi.state) (t : value) (key : pystr) (v : value)
               (now : datetime),
          AppPavi.reachable s ->
          AppPavi.task_list s = VList [t] ->
          AppPavi.is_dict t = true ->
          AppPavi.code_outputs s = [(key, v)] ->
          exists data,
            AppPavi.export s now = Some data
            /\ AppPavi.task_key t 0 = Some key).
Proof.
  intros [R Hc].
  destruct (Hc pavi_stale_state cart_task (lit "task_1")
               (AppPavi.entry pavi_task pavi_code noon) noon
               (pavi_stale_state_reachable R) eq_refl eq_refl eq_refl)
    as (data & _ & Hk).
  vm_compute in Hk. discriminate Hk.
Qed.

(** ** The text of the document *)

Lemma escape_plain c : plain_char c = true -> escape c = [c].
Proof.
  unfold plain_char, escape. intros Hp.
  apply andb_true_iff in Hp as [Hp H92].
  apply andb_true_iff in Hp as [Hp H34].
  apply andb_true_iff in Hp as [Hlo Hhi].
  apply negb_true_iff in H34, H92. rewrite H34, H92.
  apply N.leb_le in Hlo, Hhi.
  repeat match goal with
         | |- context [?c =? ?n] =>
             lazymatch n with
             | 34 => fail
             | 92 => fail
             | _ => replace (c =? n) with false
                 by (symmetry; apply N.eqb_neq; lia)
             end
         end.
  rewrite (proj2 (N.leb_le _ _) Hlo), (proj2 (N.leb_le _ _) Hhi).
  reflexivity.
Qed.

Lemma encode_str_plain s :
  forallb plain_char s = true -> encode_str s = 34 :: s ++ [34].
Proof.
  intros Hs. unfold encode_str. f_equal. f_equal.
  induction s as [|c s IH]; [reflexivity|]. simpl in *.
  apply andb_true_iff in Hs as [Hc Hs].
  rewrite (escape_plain c Hc), (IH Hs). reflexivity.
Qed.

Lemma plain_digit n : plain_char (digit n) = true.
Proof.
  unfold plain_char, digit.
  assert (n mod 10 < 10) as Hlt by (apply N.mod_upper_bound; discriminate).
  revert Hlt; generalize (n mod 10); intros r Hlt.
  repeat (apply andb_true_iff; split);
    try (apply N.leb_le; lia);
    apply negb_true_iff; apply N.eqb_neq; lia.
Qed.

(** The time of the export is written between two quotes as it is. *)
Lemma isoformat_plain t : forallb plain_char (isoformat t) = true.
Proof.
  unfold isoformat, strftime_HMS, pad4, pad2, pad6.
  destruct (microsecond t =? 0); cbn [app forallb];
    rewrite !plain_digit; reflexivity.
Qed.

Section ExportPage.
Context {R : Runtime}.

Lemma pavi_reachable_tasks_key s :
  AppPavi.reachable s -> AppPavi.task_list s <> VList [] ->
  AppPavi.nonempty (AppPavi.openai_key s) = true.
Proof.
  intros Hs Ht.
  destruct (AppPavi.openai_key s) as [|c k] eqn:Ek; [|reflexivity].
  destruct (pavi_keyless s Hs Ek) as (Hl & _). contradiction.
Qed.

Lemma pavi_shape_displays p :
  pavi_entry_shape p -> AppPavi.display_output (snd p) <> None.
Proof.
  intros (task & code & now & -> & Hd & _ & Hsh).
  destruct task as [| | | | | |d]; try discriminate.
  rewrite pavi_display_entry. unfold pavi_to_backend.
  destruct (AppPavi.select_developer (VDict d));
    destruct Hsh as (a & b & c & x & ->); discriminate.
Qed.

Lemma pavi_export_data s now :
  AppPavi.nonempty (AppPavi.openai_key s) = true ->
  AppPavi.stats_ok s = true ->
  AppPavi.code_outputs s <> [] ->
  AppPavi.export s now = Some (AppPavi.export_data s now).
Proof.
  intros Hk Hs Hc. unfold AppPavi.export, AppPavi.rendered.
  rewrite Hk, Hs. simpl.
  destruct (AppPavi.code_outputs s); [contradiction|reflexivity].
Qed.

(** The four keys of the document, in the order of the dict. *)
Lemma export_dict_text project tasks generated_code now :
  dumps (export_dict project tasks generated_code now)
  = export_text (encode_str project) (dumps_at 1 (VList tasks))
      (dumps_at 1 (VDict generated_code)) (34 :: isoformat now ++ [34]).
Proof.
  unfold dumps, export_dict, export_text.
  cbn [dumps_at map block join newline_indent repeat Nat.mul Nat.add].
  rewrite (encode_str_plain _ (isoformat_plain now)).
  change (encode_str (lit "project")) with (dq "'project'").
  change (encode_str (lit "tasks")) with (dq "'tasks'").
  change (encode_str (lit "generated_code")) with (dq "'generated_code'").
  change (encode_str (lit "timestamp")) with (dq "'timestamp'").
  cbn [lit dq list_ascii_of_string map app N_of_ascii].
  repeat (rewrite <- app_assoc; cbn [app]).
  reflexivity.
Qed.

Lemma pavi_one_task_drawn s t f idx :
  AppPavi.nonempty (AppPavi.openai_key s) = true ->
  AppPavi.task_list s = VList [t] ->
  AppPavi.is_dict t = true ->
  (idx < List.length (AppPavi.filtered_tasks f [t]))%nat ->
  AppPavi.drawn s f idx = true.
Proof.
  intros Hk Hl Hd Hi. unfold AppPavi.drawn, AppPavi.stats_ok.
  rewrite Hk, Hl. simpl truthy. cbn [forallb]. rewrite Hd. simpl andb.
  rewrite (proj2 (Nat.ltb_lt _ _) Hi).
  assert (AppPavi.filtered_tasks f [t] = [t] /\ idx = 0%nat) as [Hf ->].
  { destruct f; simpl in *;
      try destruct (AppPavi.category_is _ t); simpl in *;
      try lia; split; try reflexivity; lia. }
  rewrite Hf. unfold AppPavi.row_keys. simpl.
  destruct (AppPavi.task_key t 0); reflexivity.
Qed.

Lemma pavi_prompt_dict t :
  AppPavi.prompt_fields t <> None -> AppPavi.is_dict t = true.
Proof.
  unfold AppPavi.prompt_fields, subscript.
  destruct t; try congruence. reflexivity.
Qed.

End ExportPage.

(** C6, amended: in a reachable state of app_pavi.py that holds one task
    (an object) and one artifact, the page is drawn down to the export
    button, and the export is one JSON document, an object of four keys:
    the project description, a string; the task list, of length 1; the
    mapping, with exactly one entry; and the time of the export in the
    ISO-8601 format.  The entry holds the task it was generated for, the
    code returned for it (which is truthy) and the time of that
    generation, and its key is the key derived from the task it holds,
    which after another analysis need not be the task of the list.  When
    the artifact is generated for the task of the list, the entry holds
    that task, the code and the clock time of the generation, under the
    derived key of that task. *)
Theorem export_one_task_one_artifact (R : Runtime) :
  (forall s t key v now,
      AppPavi.reachable s ->
      AppPavi.task_list s = VList [t] ->
      AppPavi.is_dict t = true ->
      AppPavi.code_outputs s = [(key, v)] ->
      valid now ->
      (exists t0 idx code generated,
          v = VDict [(lit "task", t0); (lit "code", code);
                     (lit "generated_at", VStr (strftime_HMS generated))]
          /\ AppPavi.task_key t0 idx = Some key
          /\ truthy code = true)
      /\ (forall f idx,
             (idx < List.length (AppPavi.filtered_tasks f [t]))%nat ->
             AppPavi.drawn s f idx = true)
      /\ AppPavi.display_output v <> None
      /\ AppPavi.export s now
         = Some (VDict
                   [(lit "project", VStr (AppPavi.project_description s));
                    (lit "tasks", VList [t]);
                    (lit "generated_code", VDict [(key, v)]);
                    (lit "timestamp", VStr (isoformat now))])
      /\ AppPavi.export_document s now
         = Some (export_text
                   (encode_str (AppPavi.project_description s))
                   (dumps_at 1 (VList [t]))
                   (dumps_at 1 (VDict [(key, v)]))
                   (34 :: isoformat now ++ [34]))
      /\ is_iso8601 (isoformat now) = true)
  /\ (forall s t c generated now code,
        AppPavi.reachable s ->
        AppPavi.task_list s = VList [t] ->
        AppPavi.code_outputs s = [] ->
        AppPavi.create_implementation (AppPavi.select_developer t) t
          (AppPavi.project_description s) c = Some code ->
        truthy code = true ->
        exists key s',
          AppPavi.task_key t 0 = Some key
          /\ AppPavi.drawn s AppPavi.AllTasks 0 = true
          /\ AppPavi.step s (AppPavi.Generate AppPavi.AllTasks 0 c generated)
             = Some s'
          /\ AppPavi.export s' now
             = Some (VDict
                       [(lit "project",
                         VStr (AppPavi.project_description s));
                        (lit "tasks", VList [t]);
                        (lit "generated_code",
                         VDict
                           [(key,
                             VDict [(lit "task", t); (lit "code", code);
                                    (lit "generated_at",
                                     VStr (strftime_HMS generated))])]);
                        (lit "timestamp", VStr (isoformat now))])).
Proof.
  split.
  - intros s t key v now Hs Hl Hd Hc Hv.
    assert (AppPavi.nonempty (AppPavi.openai_key s) = true) as Hk
        by (apply (pavi_reachable_key s Hs); rewrite Hc; discriminate).
    assert (AppPavi.stats_ok s = true) as Hst
        by (unfold AppPavi.stats_ok; rewrite Hl; simpl; rewrite Hd;
            reflexivity).
    assert (AppPavi.export s now
            = Some (export_dict (AppPavi.project_description s) [t]
                      [(key, v)] now)) as He.
    { rewrite pavi_export_data by (auto; rewrite Hc; discriminate).
      unfold AppPavi.export_data, export_dict. rewrite Hl, Hc. reflexivity. }
    split; [|split; [|split; [|split; [|split]]]].
    + pose proof (pavi_reachable_entries s Hs) as Hok.
      rewrite Hc in Hok. inversion Hok as [|p d Hp _]; subst.
      destruct Hp as (t0 & idx & code & generated & Hp & Hkey & Ht).
      exists t0, idx, code, generated. simpl in Hp, Hkey. auto.
    + intros f idx Hi. exact (pavi_one_task_drawn s t f idx Hk Hl Hd Hi).
    + pose proof (pavi_reachable_shape s Hs) as Hsh.
      rewrite Hc in Hsh. inversion Hsh as [|p d Hp _]; subst.
      exact (pavi_shape_displays _ Hp).
    + exact He.
    + unfold AppPavi.export_document. rewrite He, export_dict_text.
      reflexivity.
    + apply isoformat_is_iso8601; exact Hv.
  - intros s t c generated now code Hs Hl Hc Hi Ht.
    assert (AppPavi.nonempty (AppPavi.openai_key s) = true) as Hk
        by (apply (pavi_reachable_tasks_key s Hs); rewrite Hl; discriminate).
    assert (AppPavi.is_dict t = true) as Hd.
    { apply pavi_prompt_dict. intros Hp.
      destruct (AppPavi.select_developer t); simpl in Hi;
        unfold AppPavi.BackendDeveloper_create_implementation,
          AppPavi.FrontendDeveloper_create_implementation in Hi;
        rewrite Hp in Hi; discriminate. }
    assert (AppPavi.stats_ok s = true) as Hst
        by (unfold AppPavi.stats_ok; rewrite Hl; simpl; rewrite Hd;
            reflexivity).
    destruct (pavi_task_key_of_dict t 0 Hd) as [key Hkey].
    assert (AppPavi.row s AppPavi.AllTasks 0 = Some (t, key)) as Hr
        by (unfold AppPavi.row; rewrite Hk, Hst, Hl; simpl; rewrite Hkey;
            reflexivity).
    exists key. eexists.
    split; [exact Hkey|].
    split; [apply (pavi_one_task_drawn s t AppPavi.AllTasks 0 Hk Hl Hd);
            simpl; lia|].
    split.
    + apply (pavi_generate_stores s AppPavi.AllTasks 0 t key c generated code);
        [exact Hr | rewrite Hc; reflexivity | exact Hi | exact Ht].
    + rewrite pavi_export_data; [|exact Hk|exact Hst|].
      * unfold AppPavi.export_data. simpl. rewrite Hl, Hc. reflexivity.
      * simpl. rewrite Hc. discriminate.
Qed.

(** The export of the blog session, whose document parses back to the
    exported dict; and the export after a generation in which the
    provider failed. *)
Lemma export_one_task_one_artifact_witness :
  AppPavi.export pavi_state noon
  = Some (VDict
            [(lit "project",
              VStr (lit "Build a blog with posts and comments"));
             (lit "tasks", VList [pavi_task]);
             (lit "generated_code",
              VDict [(lit "task_1",
                      VDict [(lit "task", pavi_task);
                             (lit "code", pavi_code);
                             (lit "generated_at", VStr (lit "12:00:05"))])]);
             (lit "timestamp", VStr (lit "2025-03-09T12:00:05"))])
  /\ (exists doc,
         AppPavi.export_document (R := plain_runtime) pavi_state noon
         = Some doc
         /\ loads doc = AppPavi.export pavi_state noon)
  /\ exists s',
      AppPavi.step (R := plain_runtime) analyzed_state
        (AppPavi.Generate AppPavi.AllTasks 0 Failed noon) = Some s'
      /\ AppPavi.export s' noon
         = Some (VDict
                   [(lit "project",
                     VStr (lit "Build a blog with posts and comments"));
                    (lit "tasks", VList [pavi_task]);
                    (lit "generated_code",
                     VDict [(lit "task_1",
                             VDict [(lit "task", pavi_task);
                                    (lit "code", AppPavi.backend_error);
                                    (lit "generated_at",
                                     VStr (lit "12:00:05"))])]);
                    (lit "timestamp", VStr (lit "2025-03-09T12:00:05"))]).
Proof.
  assert (valid noon) as Hv by (unfold valid; simpl; lia).
  destruct (export_one_task_one_artifact plain_runtime) as [A B].
  destruct (A pavi_state pavi_task (lit "task_1")
              (AppPavi.entry pavi_task pavi_code noon) noon
              (pavi_state_reachable plain_runtime)
              eq_refl eq_refl eq_refl Hv)
    as (_ & _ & _ & He & Hdoc & _).
  split; [exact He|]. split.
  - eexists. split; [exact Hdoc|]. vm_compute; reflexivity.
  - assert (AppPavi.reachable (R := plain_runtime) analyzed_state) as Hs.
    { apply (AppPavi.reachable_step pavi_state
               (AppPavi.Regenerate AppPavi.AllTasks 0)).
      - apply pavi_state_reachable.
      - vm_compute; reflexivity. }
    destruct (B analyzed_state pavi_task Failed noon noon
                AppPavi.backend_error Hs eq_refl eq_refl eq_refl eq_refl)
      as (key & s' & Hk & _ & Hstep & He').
    assert (key = lit "task_1") as ->
        by (vm_compute in Hk; injection Hk as <-; reflexivity).
    exists s'. split; [exact Hstep | exact He'].
Defined.
